(** * Racing intelligence: event detector, event catalog and what-if simulator

    A shallow embedding of
    - [src/race_engine/what_if.py] (counterfactual simulator, removal
      filter, scenario comparator),
    - [scripts/generate_race_facts.py] (selection of the key events),
    - [src/race_analysis_engine/analysis/event_detection.py] (lap-level
      and sample-level anomaly rules),
    together with the properties the specification states about them.

    Conventions of the embedding.
    - A pandas cell is a [cell]: a string, a number or NaN.  float64
      values are modelled by exact rationals ([Q]); rounding and
      infinities are not modelled.
    - A [DataFrame] is its list of column names and its rows, each row a
      finite map from column name to cell.
    - Python exceptions are values of [exn]; code that may raise lives
      in the monad [result]. *)

From Stdlib Require Import Ascii String QArith Qminmax Qabs Qround Lqa.
From stdpp Require Import gmap strings list sorting.

Set Default Proof Using "Type".
Local Open Scope string_scope.

(** ** Cells *)

Inductive cell : Type :=
  | Str (s : string)
  | Num (q : Q)
  | NaN.

(** [pd.notna] *)
Definition notna (c : cell) : bool :=
  match c with NaN => false | _ => true end.

(** Equality of cells as keys (merge keys, group keys, dict keys):
    numbers are compared by value. *)
Definition cell_eqb (a b : cell) : bool :=
  match a, b with
  | Str s, Str t => bool_decide (s = t)
  | Num p, Num q => Qeq_bool p q
  | NaN, NaN => true
  | _, _ => false
  end.

(** Order in which [groupby] (sort=True) lists its keys: numbers before
    strings, numbers by value, strings by code point. *)
Definition key_leb (a b : cell) : bool :=
  match a, b with
  | Num p, Num q => Qle_bool p q
  | Num _, _ => true
  | Str s, Str t => String.leb s t
  | Str _, Num _ => false
  | Str _, NaN => true
  | NaN, NaN => true
  | NaN, _ => false
  end.

(** ** Exceptions *)

Inductive exn : Type :=
  | KeyError
  | ValueError
  | TypeError
  | IndexError
  | MergeError. (* merge without key columns: ValueError or IndexError,
                   depending on the pandas version *)

Inductive result (A : Type) : Type :=
  | Ok (a : A)
  | Raise (e : exn).
Arguments Ok {A} a.
Arguments Raise {A} e.

#[global] Instance result_ret : MRet result := λ A a, Ok a.
#[global] Instance result_bind : MBind result :=
  λ A B f m, match m with Ok a => f a | Raise e => Raise e end.

Definition result_map {A B : Type} (f : A → B) (m : result A) : result B :=
  match m with Ok a => Ok (f a) | Raise e => Raise e end.
Infix "<$$>" := result_map (at level 61, left associativity).

Fixpoint traverse {A B : Type} (f : A → result B) (l : list A) : result (list B) :=
  match l with
  | [] => Ok []
  | x :: l' => y ← f x; ys ← traverse f l'; Ok (y :: ys)
  end.

(** ** Arithmetic on cells, as Python/numpy perform it *)

(** [a - b]: NaN propagates, a string operand raises TypeError. *)
Definition cell_sub (a b : cell) : result cell :=
  match a, b with
  | Num p, Num q => Ok (Num (p - q))
  | Str _, _ | _, Str _ => Raise TypeError
  | _, _ => Ok NaN
  end.

(** ** Sorting

    A stable insertion sort; it is the model of pandas' stable sorts
    (the lexsort behind a multi-column [sort_values]) and an instance of
    the weaker contract of the default single-column sort. *)

Fixpoint insert_by {A : Type} (leb : A → A → bool) (x : A) (l : list A) : list A :=
  match l with
  | [] => [x]
  | y :: l' => if leb x y then x :: l else y :: insert_by leb x l'
  end.

Definition isort {A : Type} (leb : A → A → bool) (l : list A) : list A :=
  foldr (insert_by leb) [] l.

(** First occurrences only, for an arbitrary boolean equality. *)
Fixpoint nub_by {A : Type} (eqb : A → A → bool) (l : list A) : list A :=
  match l with
  | [] => []
  | x :: l' => x :: List.filter (λ y, negb (eqb x y)) (nub_by eqb l')
  end.

(** ** Data frames and series *)

Record DataFrame : Type := mkDF {
  columns : list string;
  rows : list (gmap string cell)
}.

(** [pd.DataFrame()] *)
Definition empty_frame : DataFrame := mkDF [] [].

(** [c in df.columns] *)
Definition has_column (df : DataFrame) (c : string) : bool :=
  bool_decide (c ∈ columns df).

(** [df.empty]: some axis has length 0. *)
Definition df_empty (df : DataFrame) : bool :=
  match columns df, rows df with
  | [], _ | _, [] => true
  | _, _ => false
  end.

(** [row[c]] for a column that exists. *)
Definition get (r : gmap string cell) (c : string) : cell :=
  default NaN (r !! c).

(** [df[df[c] == v]] for a string [v]. *)
Definition select_eq (df : DataFrame) (c v : string) : DataFrame :=
  mkDF (columns df) (List.filter (λ r, cell_eqb (get r c) (Str v)) (rows df)).

(** [df[[c1; ...]]] *)
Definition project (df : DataFrame) (cs : list string) : DataFrame :=
  mkDF cs (map (λ r : gmap string cell, filter (λ kv, kv.1 ∈ cs) r) (rows df)).

(** A series indexed by group key; [name] is [None] for an unnamed one. *)
Record Series : Type := mkSeries {
  name : option string;
  items : list (cell * Q)
}.

(** [.sum()] of a column: NaN is skipped, a string cannot be added to a
    number. *)
Fixpoint nansum (cs : list cell) : result Q :=
  match cs with
  | [] => Ok 0%Q
  | Num q :: cs' => s ← nansum cs'; Ok (q + s)%Q
  | NaN :: cs' => nansum cs'
  | Str _ :: _ => Raise TypeError
  end.

(** Keys of [df.groupby(by)]: the distinct non-NaN values, sorted. *)
Definition group_keys (df : DataFrame) (by_ : string) : list cell :=
  isort key_leb (nub_by cell_eqb (List.filter notna (map (λ r, get r by_) (rows df)))).

Definition group_rows (df : DataFrame) (by_ : string) (k : cell) : list (gmap string cell) :=
  List.filter (λ r, cell_eqb (get r by_) k) (rows df).

(** [df.groupby(by)[col].sum()] *)
Definition groupby_sum (df : DataFrame) (by_ col : string) : result (list (cell * Q)) :=
  traverse (λ k, s ← nansum (map (λ r, get r col) (group_rows df by_ k)); Ok (k, s))
           (group_keys df by_).

(** [left.merge(right, on=keys, how="inner")], for the two calls of the
    simulator: there every column the frames share is a key, so no
    column is renamed.  Each left row is paired with every right row
    whose keys are equal. *)
Definition keys_match (on : list string) (l r : gmap string cell) : bool :=
  forallb (λ k, cell_eqb (get l k) (get r k)) on.

Definition merge_inner (left right : DataFrame) (on : list string) : result DataFrame :=
  if negb (forallb (has_column left) on && forallb (has_column right) on) then Raise KeyError
  else match on with
  | [] => Raise MergeError
  | _ =>
    Ok (mkDF (columns left ++ List.filter (λ c, negb (bool_decide (c ∈ on))) (columns right))
             (l ← rows left; r ← rows right;
              if keys_match on l r then [l ∪ r] else []))
  end.

(** ** Values that are a scalar or a series

    Where a label occurs more than once ([row["POSITION"]] on a frame
    with two such columns, [frame.loc[label]] with a repeated label),
    pandas hands back a series of the values instead of one value. *)
Inductive pyval : Type :=
  | Scalar (c : cell)
  | Column (cs : list cell).

Coercion Scalar : cell >-> pyval.

(** [x - y]: element by element on series; two series of different
    lengths are aligned on their repeated label, every value of one
    meeting every value of the other. *)
Definition pv_sub (a b : pyval) : result pyval :=
  match a, b with
  | Scalar x, Scalar y => Scalar <$$> cell_sub x y
  | Scalar x, Column ys => Column <$$> traverse (λ y, cell_sub x y) ys
  | Column xs, Scalar y => Column <$$> traverse (λ x, cell_sub x y) xs
  | Column xs, Column ys =>
      Column <$$> traverse (λ xy : cell * cell, cell_sub xy.1 xy.2)
                    (if (length xs =? length ys)%nat then zip xs ys
                     else x ← xs; y ← ys; [(x, y)])
  end.

(** No string among the values. *)
Definition pv_numeric (v : pyval) : bool :=
  match v with
  | Scalar c => match c with Str _ => false | _ => true end
  | Column cs => forallb (λ c, match c with Str _ => false | _ => true end) cs
  end.

(** * The what-if simulator ([src/race_engine/what_if.py]) *)

(** ** [filter_events_for_removal] *)

Definition filter_events_for_removal (event_detection : DataFrame)
    (vehicle_id event_type role : option string) : DataFrame :=
  let df := event_detection in
  let df := match vehicle_id with
            | Some v => if has_column df "vehicle_id" then select_eq df "vehicle_id" v else df
            | None => df
            end in
  let df := match event_type with
            | Some t => if has_column df "event_type" then select_eq df "event_type" t else df
            | None => df
            end in
  let df := match role with
            | Some r => if has_column df "role" then select_eq df "role" r else df
            | None => df
            end in
  df.

(** ** [simulate_no_events] *)

(** One row of the frame before it is ranked. *)
Record TimeRow : Type := mkTimeRow {
  tr_vehicle : cell;
  tr_real : Q;          (* real_total_time *)
  tr_loss : Q;          (* total_event_loss *)
  tr_adj : Q            (* adj_total_time *)
}.

(** One row of the simulator's result. *)
Record ScenarioRow : Type := mkScenarioRow {
  sr_vehicle_id : cell;
  sr_real_total_time : Q;
  sr_total_event_loss : Q;
  sr_adj_total_time : Q;
  sr_adj_position : nat;
  sr_real_position : pyval;
  sr_position_change : pyval
}.

(** The simulator returns either [pd.DataFrame()] (no columns at all) or
    the table of ranked vehicles. *)
Inductive SimResult : Type :=
  | NoColumns
  | Table (rs : list ScenarioRow).

(** [c.strip().upper()] on ASCII column names. *)
Definition is_space (a : ascii) : bool :=
  let n := nat_of_ascii a in
  ((9 <=? n) && (n <=? 13) || (28 <=? n) && (n <=? 32))%nat.

Definition upper_ascii (a : ascii) : ascii :=
  let n := nat_of_ascii a in
  if ((97 <=? n) && (n <=? 122))%nat then ascii_of_nat (n - 32) else a.

Fixpoint lstrip (l : list ascii) : list ascii :=
  match l with
  | a :: l' => if is_space a then lstrip l' else l
  | [] => []
  end.

Definition strip_upper (c : string) : string :=
  string_of_list_ascii
    (map upper_ascii (rev (lstrip (rev (lstrip (list_ascii_of_string c)))))).

(** The columns of [results_df] that are called [name] once the column
    names are normalised. *)
Definition normalized_columns (res : DataFrame) (name : string) : list string :=
  List.filter (λ c, bool_decide (strip_upper c = name)) (columns res).

(** [row[name]] on the normalised frame: the value when one column
    bears the name, the series of the values when several do. *)
Definition named_value (r : gmap string cell) (cols : list string) : pyval :=
  match cols with
  | [c] => Scalar (get r c)
  | _ => Column (map (get r) cols)
  end.

(** [pos_map[v]] as [Series.map] reads it: the dict comprehension keeps
    the last row of a vehicle; a vehicle that is no key maps to NaN.
    (Missing vehicle ids of the results are the one key [np.nan].) *)
Definition pos_map (res : DataFrame) (vcol : string) (pcols : list string) (v : cell)
    : pyval :=
  match List.find (λ r, cell_eqb (get r vcol) v) (rev (rows res)) with
  | Some r => named_value r pcols
  | None => Scalar NaN
  end.

(** The column [real_position], as a function of the vehicle.  When
    several columns normalise to VEHICLE, [row["VEHICLE"]] is a series,
    which cannot be a dict key: the comprehension raises TypeError.
    When several normalise to POSITION, the positions are series. *)
Definition real_position_of (results_df : option DataFrame) : result (cell → pyval) :=
  match results_df with
  | Some res =>
      if negb (df_empty res) then
        match normalized_columns res "VEHICLE", normalized_columns res "POSITION" with
        | [], _ | _, [] => Ok (λ _, Scalar NaN)
        | [vcol], pcols => Ok (pos_map res vcol pcols)
        | _, _ => Raise TypeError
        end
      else Ok (λ _, Scalar NaN)
  | None => Ok (λ _, Scalar NaN)
  end.

(** [totals.to_frame().join(tl, how="left")]: [DataFrame.join] refuses a
    series without a name (ValueError, "Other Series must have a
    name"). *)
Definition join_left (totals : list (cell * Q)) (tl : Series) : result (list (cell * Q * cell)) :=
  match name tl with
  | None => Raise ValueError
  | Some _ =>
      Ok (map (λ kt : cell * Q,
                 (kt.1, kt.2,
                  match List.find (λ kl : cell * Q, cell_eqb kl.1 kt.1) (items tl) with
                  | Some kl => Num kl.2
                  | None => NaN
                  end)) totals)
  end.

(** [.fillna({"total_event_loss": 0.0})] followed by
    [df["adj_total_time"] = df["real_total_time"] - df["total_event_loss"]]. *)
Definition fill_and_adjust (r : cell * Q * cell) : TimeRow :=
  let '(k, real, l) := r in
  let loss := match l with Num q => q | _ => 0%Q end in
  mkTimeRow k real loss (real - loss)%Q.

(** The events whose loss is subtracted. *)
Definition events_removed (event_detection : DataFrame)
    (events_to_remove : option DataFrame) : result DataFrame :=
  let ev := if negb (df_empty event_detection) then event_detection else empty_frame in
  match events_to_remove with
  | Some rm =>
      if negb (df_empty ev) then
        if has_column rm "event_id" then
          merge_inner ev (project rm ["event_id"]) ["event_id"]
        else
          merge_inner ev rm (List.filter (λ c, bool_decide (c ∈ columns rm)) (columns ev))
      else Ok ev
  | None => Ok ev
  end.

(** The series [tl] of summed losses per vehicle. *)
Definition event_losses (ev : DataFrame) : result Series :=
  if negb (df_empty ev) && has_column ev "vehicle_id" then
    tl ← (if has_column ev "time_loss_estimate" then
            groupby_sum ev "vehicle_id" "time_loss_estimate"
          else if has_column ev "time_loss" then
            groupby_sum ev "vehicle_id" "time_loss"
          else Ok []);
    Ok (mkSeries (Some "total_event_loss") tl)
  else Ok (mkSeries None []).

Section Simulator.

(** [df.sort_values("adj_total_time")]: a single-column sort with the
    default [kind="quicksort"].  pandas promises an ascending order
    and nothing about the order of equal keys, so the sort is a
    parameter with exactly that contract. *)
Variable sort_values : list TimeRow → list TimeRow.

(** [np.arange(1, len(df) + 1)] as [adj_position], then the real
    position and the position change. *)
Definition rank_row (real_positions : cell → pyval) (i : nat) (r : TimeRow)
    : result ScenarioRow :=
  let real_position := real_positions (tr_vehicle r) in
  change ← pv_sub real_position (Scalar (Num (inject_Z (Z.of_nat (S i)))));
  Ok (mkScenarioRow (tr_vehicle r) (tr_real r) (tr_loss r) (tr_adj r) (S i)
                    real_position change).

Definition simulate_no_events (lap_times event_detection : DataFrame)
    (events_to_remove results_df : option DataFrame) : result SimResult :=
  let lt := lap_times in
  if has_column lt "vehicle_id" && has_column lt "lap_time_seconds" then
    totals ← groupby_sum lt "vehicle_id" "lap_time_seconds";
    ev ← events_removed event_detection events_to_remove;
    tl ← event_losses ev;
    joined ← join_left totals tl;
    let df := sort_values (map fill_and_adjust joined) in
    real_positions ← real_position_of results_df;
    rs ← traverse (λ ir : nat * TimeRow, rank_row real_positions ir.1 ir.2)
                  (imap (λ i r, (i, r)) df);
    Ok (Table rs)
  else Ok NoColumns.

End Simulator.

(** What pandas promises of [sort_values]: the rows are rearranged, and
    they ascend in [adj_total_time]. *)
Definition ascending (l : list TimeRow) : Prop :=
  Sorted (λ a b, (tr_adj a <= tr_adj b)%Q) l.

Definition sort_contract (sort_values : list TimeRow → list TimeRow) : Prop :=
  (∀ l, sort_values l ≡ₚ l) ∧ (∀ l, ascending (sort_values l)).

(** The stable instance of the sort. *)
Definition stable_sort_values : list TimeRow → list TimeRow :=
  isort (λ a b, Qle_bool (tr_adj a) (tr_adj b)).

(** *** Vocabulary of the statements about the simulator *)

(** A numeric column holds no string. *)
Definition no_string (df : DataFrame) (col : string) : bool :=
  forallb (λ r, match get r col with Str _ => false | _ => true end) (rows df).

(** The results table names VEHICLE once at most, and the official
    position of every ranked vehicle is a number or unknown. *)
Definition numeric_positions (results_df : option DataFrame) (lap_times : DataFrame) : bool :=
  match real_position_of results_df with
  | Ok real_positions =>
      forallb (λ v, pv_numeric (real_positions v)) (group_keys lap_times "vehicle_id")
  | Raise _ => false
  end.

(** The column whose values [event_losses] sums. *)
Definition loss_column (ev : DataFrame) : option string :=
  if has_column ev "time_loss_estimate" then Some "time_loss_estimate"
  else if has_column ev "time_loss" then Some "time_loss"
  else None.

(** Index of the first lap record of a vehicle in the lap-times input. *)
Definition first_lap_row (lap_times : DataFrame) (v : cell) : option nat :=
  fst <$> list_find (λ r, cell_eqb (get r "vehicle_id") v = true) (rows lap_times).

(** "Vehicles with equal adjusted_total_time receive positions in their
    original input order." *)
Definition ties_follow_input_order (lap_times : DataFrame) (rs : list ScenarioRow) : Prop :=
  ∀ r1 r2 i1 i2, r1 ∈ rs → r2 ∈ rs →
    (sr_adj_total_time r1 == sr_adj_total_time r2)%Q →
    first_lap_row lap_times (sr_vehicle_id r1) = Some i1 →
    first_lap_row lap_times (sr_vehicle_id r2) = Some i2 →
    (i1 < i2)%nat → (sr_adj_position r1 < sr_adj_position r2)%nat.

(** "With an empty removal filter every vehicle keeps its real time and
    every vehicle with a known real position has position change 0." *)
Definition idempotent_on (sort_values : list TimeRow → list TimeRow)
    (lap_times event_detection empty_filter : DataFrame) (results_df : option DataFrame) : Prop :=
  ∃ rs, simulate_no_events sort_values lap_times event_detection (Some empty_filter) results_df
          = Ok (Table rs) ∧
    map sr_vehicle_id rs ≡ₚ group_keys lap_times "vehicle_id" ∧
    ∀ r, r ∈ rs →
      (sr_adj_total_time r == sr_real_total_time r)%Q ∧
      (∀ p, sr_real_position r = Num p → sr_position_change r = Num 0).

(** *** A small race *)

Definition lap_record (v : string) (n : Z) (t : Q) : gmap string cell :=
  <[ "vehicle_id" := Str v ]> (<[ "lap" := Num (inject_Z n) ]>
  (<[ "lap_time_seconds" := Num t ]> ∅)).

Definition event_record (id v ty : string) (loss : Q) : gmap string cell :=
  <[ "event_id" := Str id ]> (<[ "vehicle_id" := Str v ]>
  (<[ "event_type" := Str ty ]> (<[ "time_loss_estimate" := Num loss ]> ∅))).

Definition official (v : string) (p : Z) : gmap string cell :=
  <[ "VEHICLE" := Str v ]> (<[ "POSITION" := Num (inject_Z p) ]> ∅).

(** B is listed before A; both total 100 s; C totals 200 s. *)
Definition race_laps : DataFrame :=
  mkDF ["vehicle_id"; "lap"; "lap_time_seconds"]
       [lap_record "B" 1 100; lap_record "A" 1 100; lap_record "C" 1 200].

Definition race_events : DataFrame :=
  mkDF ["event_id"; "vehicle_id"; "event_type"; "time_loss_estimate"]
       [event_record "e1" "C" "lockup" 1; event_record "e2" "C" "understeer" 2].

Definition race_results : DataFrame :=
  mkDF ["VEHICLE"; "POSITION"] [official "A" 2; official "B" 1; official "C" 3].

(** The race's events and one event of a vehicle Z that has no lap
    record. *)
Definition events_with_stranger : DataFrame :=
  mkDF ["event_id"; "vehicle_id"; "event_type"; "time_loss_estimate"]
       (rows race_events ++ [event_record "e3" "Z" "lockup" 5])%list.

(** Results whose header names the vehicle twice ("VEHICLE" and
    "Vehicle " are the same name once normalised), and results whose
    header names the position twice. *)
Definition results_naming_vehicle_twice : DataFrame :=
  mkDF ["VEHICLE"; "Vehicle "; "POSITION"]
       [<[ "Vehicle " := Str "A" ]> (official "A" 2);
        <[ "Vehicle " := Str "B" ]> (official "B" 1);
        <[ "Vehicle " := Str "C" ]> (official "C" 3)].

Definition results_naming_position_twice : DataFrame :=
  mkDF ["VEHICLE"; "POSITION"; "Position"]
       [<[ "Position" := Num 2 ]> (official "A" 2);
        <[ "Position" := Num 1 ]> (official "B" 1);
        <[ "Position" := Num 3 ]> (official "C" 3)].

(** A table of events that lacks [vehicle_id], [event_type] and
    [role]. *)
Definition bare_events : DataFrame :=
  mkDF ["event_id"; "time_loss_estimate"]
       [<[ "event_id" := Str "e1" ]> (<[ "time_loss_estimate" := Num 1 ]> ∅)].

(** ** [compare_scenarios] *)

(** A simulator result as the data frame the comparator and the
    payload builder receive.  A position that is a series has no
    counterpart among the cells of a row; the row then carries no value
    under that name (neither function reads the real position or the
    position change of such a result). *)
Definition with_value (k : string) (v : pyval) (m : gmap string cell) : gmap string cell :=
  match v with
  | Scalar c => <[ k := c ]> m
  | Column _ => m
  end.

Definition row_to_map (r : ScenarioRow) : gmap string cell :=
  <[ "vehicle_id" := sr_vehicle_id r ]>
  (<[ "real_total_time" := Num (sr_real_total_time r) ]>
  (<[ "total_event_loss" := Num (sr_total_event_loss r) ]>
  (<[ "adj_total_time" := Num (sr_adj_total_time r) ]>
  (<[ "adj_position" := Num (inject_Z (Z.of_nat (sr_adj_position r))) ]>
  (with_value "real_position" (sr_real_position r)
  (with_value "position_change" (sr_position_change r) ∅)))))).

Definition to_frame (s : SimResult) : DataFrame :=
  match s with
  | NoColumns => empty_frame
  | Table rs =>
      mkDF ["vehicle_id"; "real_total_time"; "total_event_loss"; "adj_total_time";
            "adj_position"; "real_position"; "position_change"]
           (map row_to_map rs)
  end.

(** One entry of the comparison. *)
Record ScenarioEntry : Type := mkEntry {
  total_time : cell;   (* a float, possibly NaN *)
  position : Z;
  time_gain : cell
}.

(** [float(x)]: a number or NaN stays; a string that is no number
    raises ValueError (numeric strings are not parsed here). *)
Definition py_float (c : cell) : result cell :=
  match c with
  | Str _ => Raise ValueError
  | c => Ok c
  end.

(** [int(x)]: truncation towards zero; NaN raises ValueError. *)
Definition py_int (c : cell) : result Z :=
  match c with
  | Num q => Ok (Z.quot (Qnum q) (Z.pos (Qden q)))
  | NaN => Raise ValueError
  | Str _ => Raise ValueError
  end.

(** [row.get(c, 0)] *)
Definition row_get (r : gmap string cell) (c : string) : cell :=
  default (Num 0) (r !! c).

(** The body of the [try]. *)
Definition scenario_entry (results_df : DataFrame) (driver_id : string) : result ScenarioEntry :=
  if negb (has_column results_df "vehicle_id") then Raise KeyError
  else match rows (select_eq results_df "vehicle_id" driver_id) with
  | [] => Raise IndexError
  | row :: _ =>
      t ← py_float (row_get row "adj_total_time");
      p ← py_int (row_get row "adj_position");
      g ← py_float (row_get row "total_event_loss");
      Ok (mkEntry t p g)
  end.

(** The loop over [scenarios.items()], with its
    [except (IndexError, KeyError, ValueError): continue]. *)
Fixpoint compare_loop (items : list (string * DataFrame)) (driver_id : string)
    (comparison : gmap string ScenarioEntry) : result (gmap string ScenarioEntry) :=
  match items with
  | [] => Ok comparison
  | (scenario_name, results_df) :: items' =>
      match scenario_entry results_df driver_id with
      | Ok e => compare_loop items' driver_id (<[ scenario_name := e ]> comparison)
      | Raise IndexError | Raise KeyError | Raise ValueError =>
          compare_loop items' driver_id comparison
      | Raise e => Raise e
      end
  end.

(** The returned dict: its ["driver_id"] and its ["scenarios"]. *)
Definition compare_scenarios (scenarios : gmap string DataFrame) (driver_id : string)
    : result (string * gmap string ScenarioEntry) :=
  comparison ← compare_loop (map_to_list scenarios) driver_id ∅;
  Ok (driver_id, comparison).

(** *** Vocabulary of the statement about the comparator *)

(** The result of a scenario includes the vehicle. *)
Definition includes (s : SimResult) (driver_id : string) : Prop :=
  match s with
  | NoColumns => False
  | Table rs => ∃ r, r ∈ rs ∧ sr_vehicle_id r = Str driver_id
  end.

(** The projection of a result on the vehicle: its first row. *)
Definition projected_entry (s : SimResult) (driver_id : string) : option ScenarioEntry :=
  match s with
  | NoColumns => None
  | Table rs =>
      match List.find (λ r, cell_eqb (sr_vehicle_id r) (Str driver_id)) rs with
      | Some r => Some (mkEntry (Num (sr_adj_total_time r))
                                (Z.of_nat (sr_adj_position r))
                                (Num (sr_total_event_loss r)))
      | None => None
      end
  end.

(** * The event catalog ([scripts/generate_race_facts.py]) *)

(** [float(x)] and [int(x)] guarded by [pd.notna]: [None] for a missing
    value. *)
Definition float_if_notna (c : option cell) : result (option Q) :=
  match c with
  | Some (Num q) => Ok (Some q)
  | Some (Str _) => Raise ValueError
  | Some NaN | None => Ok None
  end.

Definition int_if_notna (c : option cell) : result (option Z) :=
  match c with
  | Some (Num q) => z ← py_int (Num q); Ok (Some z)
  | Some (Str _) => Raise ValueError
  | Some NaN | None => Ok None
  end.

(** The object built by [event_to_object], with the role the catalog
    adds. *)
Record EventObject : Type := mkEventObject {
  eo_event_type : option cell;
  eo_lap : option Z;
  eo_timestamp : option cell;
  eo_vehicle_id : option cell;
  eo_severity : option Q;
  eo_time_loss : option Q;
  eo_metrics : list (string * Q);
  eo_description : option cell;
  eo_role : option string
}.

(** One entry of [metrics]: present when the column exists and the
    value is not NaN; [speed_loss] is renamed. *)
Definition metric (ev_row : gmap string cell) (k : string) : result (list (string * Q)) :=
  v ← float_if_notna (ev_row !! k);
  match v with
  | Some q => Ok [(if bool_decide (k = "speed_loss") then "speed_loss_kph" else k, q)]
  | None => Ok []
  end.

Definition event_to_object (ev_row : gmap string cell) : result EventObject :=
  m1 ← metric ev_row "steering_correction_deg";
  m2 ← metric ev_row "latG_spike";
  m3 ← metric ev_row "speed_loss";
  m4 ← metric ev_row "rpm_drop";
  lap ← int_if_notna (ev_row !! "lap");
  severity ← float_if_notna (ev_row !! "severity_score");
  time_loss ← float_if_notna (ev_row !! "time_loss_estimate");
  Ok (mkEventObject (ev_row !! "event_type") lap (ev_row !! "timestamp")
        (ev_row !! "vehicle_id") severity time_loss (m1 ++ m2 ++ m3 ++ m4)
        (ev_row !! "description") None).

Definition with_role (role : string) (o : EventObject) : EventObject :=
  mkEventObject (eo_event_type o) (eo_lap o) (eo_timestamp o) (eo_vehicle_id o)
    (eo_severity o) (eo_time_loss o) (eo_metrics o) (eo_description o) (Some role).

(** The value of a sort key: a number, or nothing for NaN. *)
Definition key_value (c : cell) : option Q :=
  match c with Num q => Some q | _ => None end.

(** [x] sorts strictly before [y] in a descending column with NaN
    last. *)
Definition desc_lt (x y : option Q) : bool :=
  match x, y with
  | Some p, Some q => negb (Qle_bool p q)
  | Some _, None => true
  | None, _ => false
  end.

(** [a] need not move behind [b]: the order of
    [sort_values(['severity_score','time_loss_estimate'],
    ascending=[False, False])]. *)
Definition key_before (a b : gmap string cell) : bool :=
  let s1 := key_value (get a "severity_score") in
  let s2 := key_value (get b "severity_score") in
  let t1 := key_value (get a "time_loss_estimate") in
  let t2 := key_value (get b "time_loss_estimate") in
  if desc_lt s1 s2 then true
  else if desc_lt s2 s1 then false
  else negb (desc_lt t2 t1).


(** The multi-column [sort_values]: a stable sort (lexsort); a missing
    key column raises KeyError, a string among the keys TypeError. *)
Definition sort_values_desc (events : DataFrame) : result (list (gmap string cell)) :=
  if negb (has_column events "severity_score" && has_column events "time_loss_estimate")
  then Raise KeyError
  else if negb (no_string events "severity_score" && no_string events "time_loss_estimate")
  then Raise TypeError
  else Ok (isort key_before (rows events)).

(** [topn.iloc[0]] becomes the turning point, [topn.iloc[1..3]] the
    major mistakes. *)
Definition label_top (topn : list (gmap string cell)) : result (list EventObject) :=
  match topn with
  | [] => Ok []
  | first :: _ =>
      tp ← event_to_object first;
      rest ← traverse (λ r, em ← event_to_object r; Ok (with_role "major_mistake" em))
                      (take (Nat.min 4 (length topn) - 1) (drop 1 topn));
      Ok (with_role "race_turning_point" tp :: rest)
  end.

(** The [race_key_events] of [compose_race_facts]. *)
Definition race_key_events (events : DataFrame) : result (list EventObject) :=
  if negb (df_empty events) then
    evs_sorted ← sort_values_desc events;
    let topn := take 6 evs_sorted in
    label_top topn
  else Ok [].

(** *** Vocabulary of the statement about the catalog *)

(** The columns the catalog reads hold numbers or NaN. *)
Definition catalog_columns_numeric (events : DataFrame) : bool :=
  has_column events "severity_score" && has_column events "time_loss_estimate" &&
  forallb (no_string events)
    ["severity_score"; "time_loss_estimate"; "lap"; "steering_correction_deg";
     "latG_spike"; "speed_loss"; "rpm_drop"].




(** A detected event as a row of [event_detection.csv]. *)
Definition detected (id : string) (severity loss : Q) : gmap string cell :=
  <[ "event_id" := Str id ]> (<[ "severity_score" := Num severity ]>
  (<[ "time_loss_estimate" := Num loss ]> ∅)).

Definition detected_events : DataFrame :=
  mkDF ["event_id"; "severity_score"; "time_loss_estimate"]
       [detected "e1" 0.7 1; detected "e2" 1 0.5; detected "e3" 0.7 1;
        detected "e4" 0.7 4.5; detected "e5" 0.2 9; detected "e6" 1 0.5;
        detected "e7" 0.1 0.1].

(** * The event detector
      ([src/race_analysis_engine/analysis/event_detection.py]) *)

Inductive EventType : Type :=
  | pace_collapse
  | degradation_phase
  | lockup
  | near_spin
  | understeer
  | missed_shift.

(** The detector's event dict.  [event_id] keeps the parts the f-string
    joins: vehicle, the "degradation" tag, lap and formatted time. *)
Record Event : Type := mkEvent {
  event_id : cell * bool * Z * cell;
  vehicle_id : cell;
  lap : Z;
  timestamp : cell;
  event_type : EventType;
  severity_score : cell;
  time_loss_estimate : cell;
  steering_correction_deg : cell;
  brake_spike : bool;
  speed_loss : cell;
  latG_spike : cell;
  rpm_drop : cell;
  description : string
}.

(** ** Floats that may be NaN, for the lap-level rules *)

Definition fgt (a b : option Q) : bool :=
  match a, b with
  | Some p, Some q => negb (Qle_bool p q)
  | _, _ => false
  end.

Definition flt (a b : option Q) : bool := fgt b a.

Definition fsub (a b : option Q) : option Q :=
  match a, b with
  | Some p, Some q => Some (p - q)%Q
  | _, _ => None
  end.

Definition float_cell (a : option Q) : cell :=
  match a with Some q => Num q | None => NaN end.

Definition mean (qs : list Q) : Q :=
  (foldr Qplus 0 qs / inject_Z (Z.of_nat (length qs)))%Q.

(** [ts.strftime(...)]: NaT has no strftime (ValueError). *)
Definition strftime (ts : cell) : result cell :=
  match ts with
  | NaN => Raise ValueError
  | _ => Ok ts
  end.

(** ** Lap-level rules *)

(** The order of [sort_values(['vehicle_id', 'lap'])]: a stable sort,
    NaN last. *)
Definition lap_order (a b : gmap string cell) : bool :=
  let va := get a "vehicle_id" in
  let vb := get b "vehicle_id" in
  if negb (key_leb vb va) then true
  else if negb (key_leb va vb) then false
  else key_leb (get a "lap") (get b "lap").

(** The laps of the vehicle before row [i] of the sorted table. *)
Definition prior_laps (sorted : list (gmap string cell)) (i : nat) (vid : cell)
    : list (gmap string cell) :=
  if notna vid then List.filter (λ r, cell_eqb (get r "vehicle_id") vid) (take i sorted)
  else [].

(** [g.shift(1).rolling(3, min_periods=1).mean()] at a row: the mean of
    the values present among the previous 3 laps, NaN when there is
    none. *)
Definition trailing_mean (prior : list (gmap string cell)) (c : string) : option Q :=
  let window := drop (length prior - 3) prior in
  match omap (λ r, key_value (get r c)) window with
  | [] => None
  | vals => Some (mean vals)
  end.

(** [pd.to_datetime(x)].  In a time column a [Num] cell is a time
    stamp, written as its epoch value, and is returned as it is (a
    date in text form is the [Num] of its time stamp); a missing value
    becomes NaT; a [Str] cell is text that is no date and raises
    ValueError. *)
Definition to_datetime (x : cell) : result cell :=
  match x with
  | Str _ => Raise ValueError
  | _ => Ok x
  end.

(** [pd.to_datetime(row['end_time']) if 'end_time' in row
     else pd.to_datetime(row['start_time'])] *)
Definition lap_time_stamp (per_lap : DataFrame) (row : gmap string cell) : result cell :=
  if has_column per_lap "end_time" then to_datetime (get row "end_time")
  else if has_column per_lap "start_time" then to_datetime (get row "start_time")
  else Raise KeyError.

(** The body of the first loop, for row [i] of the sorted table. *)
Definition pace_collapse_rule (per_lap : DataFrame) (sorted : list (gmap string cell))
    (i : nat) (row : gmap string cell) : result (option Event) :=
  let vid := get row "vehicle_id" in
  lap ← py_int (get row "lap");
  ts ← lap_time_stamp per_lap row;
  let prior := prior_laps sorted i vid in
  let rm_lap_time := trailing_mean prior "lap_time_seconds" in
  let rm_latG := trailing_mean prior "peak_lat_G" in
  let rm_longG := trailing_mean prior "peak_long_G" in
  let lap_time := key_value (get row "lap_time_seconds") in
  match rm_lap_time with
  | Some rm =>
      if fgt lap_time (Some (1.015 * rm)%Q)
         && flt (key_value (get row "peak_lat_G")) (fsub rm_latG (Some 0.2%Q))
         && flt (key_value (get row "peak_long_G")) (fsub rm_longG (Some 0.15%Q))
      then
        stamp ← strftime ts;
        Ok (Some (mkEvent (vid, false, lap, stamp) vid lap ts pace_collapse
                    (Num 0.7)
                    (match lap_time with
                     | Some t => Num (Qmax 0.5 ((t - rm) / 1))
                     | None => Num 0.5
                     end)
                    NaN false NaN NaN NaN
                    "Lap time notably slower than previous 3-lap mean with reduced cornering/long G."))
      else Ok None
  | None => Ok None
  end.

(** [g['lap_time_seconds'].diff().fillna(0).clip(lower=0)] *)
Fixpoint clipped_diffs (prev : option Q) (ys : list (option Q)) : list Q :=
  match ys with
  | [] => []
  | y :: ys' =>
      match fsub y prev with
      | Some d => Qmax 0 d
      | None => 0%Q
      end :: clipped_diffs y ys'
  end.

Section Detector.

(** [np.polyfit(x, y, 1)[0]] inside its [try]: the slope of the
    least-squares line, [None] for NaN or an exception. *)
Variable polyfit_slope : list (option Q) → list (option Q) → option Q.

(** The body of the second loop, for the group of [vid]. *)
Definition degradation_rule (per_lap : DataFrame) (sorted : list (gmap string cell))
    (vid : cell) : result (option Event) :=
  let g := List.filter (λ r, cell_eqb (get r "vehicle_id") vid) sorted in
  if (length g <? 3)%nat then Ok None
  else
    x ← traverse (λ r, match get r "lap" with
                       | Str _ => Raise ValueError
                       | c => Ok (key_value c)
                       end) g;
    let y := map (λ r, key_value (get r "lap_time_seconds")) g in
    let slope := polyfit_slope x y in
    let lat_slope := polyfit_slope x (map (λ r, key_value (get r "peak_lat_G")) g) in
    match slope, lat_slope with
    | Some s, Some ls =>
        if negb (Qle_bool s 0.1) && negb (Qle_bool (-0.01) ls) then
          match last g with
          | Some last_row =>
              ts ← lap_time_stamp per_lap last_row;
              stamp ← strftime ts;
              lap ← py_int (get last_row "lap");
              let diffs := clipped_diffs None y in
              Ok (Some (mkEvent (vid, true, lap, stamp) vid lap ts degradation_phase
                          (Num (Qmin 1 (s / 0.5)))
                          (Num (mean (drop (length diffs - 3) diffs)))
                          NaN false NaN NaN NaN
                          "Slow steady increase in lap times with falling lateral capability."))
          | None => Raise IndexError
          end
        else Ok None
    | _, _ => Ok None
    end.

(** [sort_values] needs [vehicle_id] and [lap], the column selection
    after [groupby] needs the three metric columns (KeyError), and the
    rolling mean needs numbers (a string column cannot be averaged).
    The rows are assumed to carry distinct index labels, so that the
    rolling means are assigned back to their own rows. *)
Definition detect_lap_level_events (per_lap : DataFrame) : result (list Event) :=
  if negb (has_column per_lap "vehicle_id" && has_column per_lap "lap") then Raise KeyError
  else
    let sorted := isort lap_order (rows per_lap) in
    if negb (has_column per_lap "lap_time_seconds" && has_column per_lap "peak_lat_G"
             && has_column per_lap "peak_long_G")
    then Raise KeyError
    else if negb (no_string per_lap "lap_time_seconds" && no_string per_lap "peak_lat_G"
                  && no_string per_lap "peak_long_G")
    then Raise TypeError
    else
      pace ← traverse (λ ir : nat * gmap string cell,
                         pace_collapse_rule per_lap sorted ir.1 ir.2)
                      (imap (λ i r, (i, r)) sorted);
      degradation ← traverse (degradation_rule per_lap sorted)
                             (group_keys per_lap "vehicle_id");
      Ok (omap id pace ++ omap id degradation)%list.

End Detector.

(** ** Sample-level rules *)

(** Comparisons and arithmetic of one telemetry value: NaN compares
    false and propagates, a string raises TypeError. *)
Definition cell_gt (a : cell) (q : Q) : result bool :=
  match a with
  | Num p => Ok (negb (Qle_bool p q))
  | NaN => Ok false
  | Str _ => Raise TypeError
  end.

Definition cell_lt (a : cell) (q : Q) : result bool :=
  match a with
  | Num p => Ok (negb (Qle_bool q p))
  | NaN => Ok false
  | Str _ => Raise TypeError
  end.

Definition cell_abs (a : cell) : result cell :=
  match a with
  | Num p => Ok (Num (Qabs p))
  | NaN => Ok NaN
  | Str _ => Raise TypeError
  end.

Definition cell_div (a : cell) (q : Q) : result cell :=
  match a with
  | Num p => Ok (Num (p / q))
  | NaN => Ok NaN
  | Str _ => Raise TypeError
  end.

Definition cell_add (a b : cell) : result cell :=
  match a, b with
  | Num p, Num q => Ok (Num (p + q))
  | Str _, _ | _, Str _ => Raise TypeError
  | _, _ => Ok NaN
  end.

(** [x or 0] *)
Definition or_zero (a : cell) : cell :=
  match a with
  | Num p => if Qeq_bool p 0 then Num 0 else a
  | _ => a
  end.

(** [np.nanmean] *)
Definition nanmean (cs : list cell) : result cell :=
  s ← nansum cs;
  match List.filter notna cs with
  | [] => Ok NaN
  | present => Ok (Num (s / inject_Z (Z.of_nat (length present))))
  end.

(** [min(1.0, x)]: [x] when [x < 1.0], else 1.0 (also for NaN). *)
Definition min_one (a : cell) : result cell :=
  match a with
  | Num p => Ok (Num (if negb (Qle_bool 1 p) then p else 1))
  | NaN => Ok (Num 1)
  | Str _ => Raise TypeError
  end.

(** The row [row_t]: the channels of a sample and their lagged copies
    ([speed_m3] is the speed three samples earlier, and so on). *)
Record View : Type := mkView {
  pbrake_f : cell;  pbr_m2 : cell;
  speed : cell;  speed_m1 : cell;  speed_m3 : cell;
  accy_can : cell;  accy_m3 : cell;
  Steering_Angle : cell;  steer_m2 : cell;  steer_m3 : cell;
  gear : cell;  gear_m1 : cell;
  nmot : cell;  nmot_m1 : cell
}.

(** A lap's telemetry: the samples with their index label (the
    timestamp).  A channel the file lacks reads as NaN. *)
Definition Telemetry : Type := list (Z * gmap string cell).

(** [df[c].shift(k)] at position [i]. *)
Definition lagged (df : Telemetry) (c : string) (k i : nat) : cell :=
  if (i <? k)%nat then NaN
  else match df !! (i - k)%nat with
       | Some s => get s.2 c
       | None => NaN
       end.

Definition view_at (df : Telemetry) (i : nat) : View :=
  mkView (lagged df "pbrake_f" 0 i) (lagged df "pbrake_f" 2 i)
         (lagged df "speed" 0 i) (lagged df "speed" 1 i) (lagged df "speed" 3 i)
         (lagged df "accy_can" 0 i) (lagged df "accy_can" 3 i)
         (lagged df "Steering_Angle" 0 i) (lagged df "Steering_Angle" 2 i)
         (lagged df "Steering_Angle" 3 i)
         (lagged df "gear" 0 i) (lagged df "gear" 1 i)
         (lagged df "nmot" 0 i) (lagged df "nmot" 1 i).

(** The label occurs once in the index. *)
Definition unique_label (df : Telemetry) (idx : Z) : bool :=
  (length (List.filter (λ s : Z * gmap string cell, Z.eqb s.1 idx) df) =? 1)%nat.

(** [df.loc[idx]] used as a row: with a repeated label it is a frame,
    and the first [if] on it raises ValueError. *)
Definition loc (df : Telemetry) (idx : Z) (i : nat) : result View :=
  if unique_label df idx then Ok (view_at df i) else Raise ValueError.

Section SampleRules.
Variables (vid : cell) (lap_no : Z) (idx : Z).

Definition sample_event_record (type : EventType) (severity time_loss steer_corr : cell)
    (spike : bool) (loss lat rpm : cell) (text : string) : Event :=
  mkEvent (vid, false, lap_no, Num (inject_Z idx)) vid lap_no (Num (inject_Z idx)) type
          severity time_loss steer_corr spike loss lat rpm text.

(** [cond_lock] *)
Definition lockup_condition (row_t : View) : result bool :=
  if notna (pbrake_f row_t) && notna (pbr_m2 row_t) then
    rise ← cell_sub (pbrake_f row_t) (pbr_m2 row_t);
    spiked ← cell_gt rise 10;
    if (spiked : bool) then
      if notna (speed_m3 row_t) && notna (speed row_t)
         && notna (accy_m3 row_t) && notna (accy_can row_t) then
        ds ← cell_sub (speed_m3 row_t) (speed row_t);
        slowed ← cell_gt ds 6;
        if (slowed : bool) then
          da ← cell_sub (accy_m3 row_t) (accy_can row_t);
          cell_gt da 0.3
        else Ok false
      else Ok false
    else Ok false
  else Ok false.

Definition lockup_rule (row_t : View) : result (option Event) :=
  cond_lock ← lockup_condition row_t;
  if (cond_lock : bool) then
    speed_loss ← (if notna (speed_m3 row_t) && notna (speed row_t)
                  then d ← cell_sub (speed_m3 row_t) (speed row_t); py_float d
                  else Ok NaN);
    lat_spike ← (if notna (accy_m3 row_t) && notna (accy_can row_t)
                 then d ← cell_sub (accy_m3 row_t) (accy_can row_t); py_float d
                 else Ok NaN);
    steer_corr ← (if notna (Steering_Angle row_t) && notna (steer_m2 row_t)
                  then d ← cell_sub (Steering_Angle row_t) (steer_m2 row_t);
                       a ← cell_abs d; py_float a
                  else Ok NaN);
    rise ← cell_sub (pbrake_f row_t) (pbr_m2 row_t);
    rise ← cell_abs rise;
    r1 ← cell_div rise 50;
    r2 ← cell_div (or_zero speed_loss) 10;
    r3 ← cell_div (or_zero lat_spike) 2;
    m ← nanmean [r1; r2; r3];
    severity ← min_one m;
    time_loss ← (if notna speed_loss then d ← cell_div speed_loss 9; py_float d
                 else Ok NaN);
    Ok (Some (sample_event_record lockup severity time_loss steer_corr true
                speed_loss lat_spike NaN
                "Large front brake spike with notable speed and lateral G drop."))
  else Ok None.

(** [cond_spin] *)
Definition near_spin_condition (row_t : View) : result bool :=
  if notna (Steering_Angle row_t) && notna (steer_m2 row_t) then
    d ← cell_sub (Steering_Angle row_t) (steer_m2 row_t);
    a ← cell_abs d;
    turned ← cell_gt a 20;
    if (turned : bool) then
      if notna (accy_can row_t) && notna (accy_m3 row_t)
         && notna (speed_m3 row_t) && notna (speed row_t) then
        da ← cell_sub (accy_can row_t) (accy_m3 row_t);
        rose ← cell_gt da 1.5;
        if (rose : bool) then
          ds ← cell_sub (speed_m3 row_t) (speed row_t);
          cell_gt ds 4
        else Ok false
      else Ok false
    else Ok false
  else Ok false.

Definition near_spin_rule (row_t : View) : result (option Event) :=
  cond_spin ← near_spin_condition row_t;
  if (cond_spin : bool) then
    d ← cell_sub (speed_m3 row_t) (speed row_t);
    speed_loss ← py_float d;
    d ← cell_sub (accy_can row_t) (accy_m3 row_t);
    lat_spike ← py_float d;
    d ← cell_sub (Steering_Angle row_t) (steer_m2 row_t);
    a ← cell_abs d;
    steer_corr ← py_float a;
    r1 ← cell_div steer_corr 40;
    r2 ← cell_div lat_spike 3;
    r3 ← cell_div speed_loss 10;
    s ← cell_add r1 r2;
    s ← cell_add s r3;
    m ← cell_div s 3;
    severity ← min_one m;
    d ← cell_div speed_loss 9;
    time_loss ← py_float d;
    Ok (Some (sample_event_record near_spin severity time_loss steer_corr false
                speed_loss lat_spike NaN
                "Rapid large steering input with lateral G increase and speed drop."))
  else Ok None.

(** [cond_under] *)
Definition understeer_condition (row_t : View) : result bool :=
  if notna (Steering_Angle row_t) && notna (steer_m3 row_t) then
    d ← cell_sub (Steering_Angle row_t) (steer_m3 row_t);
    turned ← cell_gt d 8;
    if (turned : bool) then
      if notna (accy_can row_t) && notna (accy_m3 row_t) then
        da ← cell_sub (accy_can row_t) (accy_m3 row_t);
        a ← cell_abs da;
        flat ← cell_lt a 0.2;
        if (flat : bool) then
          ds ← cell_sub (speed_m3 row_t) (speed row_t);
          cell_gt ds 3
        else Ok false
      else Ok false
    else Ok false
  else Ok false.

Definition understeer_rule (row_t : View) : result (option Event) :=
  cond_under ← understeer_condition row_t;
  if (cond_under : bool) then
    d ← cell_sub (speed_m3 row_t) (speed row_t);
    speed_loss ← py_float d;
    d ← cell_sub (Steering_Angle row_t) (steer_m3 row_t);
    a ← cell_abs d;
    steer_corr ← py_float a;
    r1 ← cell_div steer_corr 20;
    r2 ← cell_div (or_zero speed_loss) 10;
    s ← cell_add r1 r2;
    m ← cell_div s 2;
    severity ← min_one m;
    time_loss ← (if notna speed_loss then d ← cell_div speed_loss 9; py_float d
                 else Ok NaN);
    lat ← (if notna (accy_can row_t) && notna (accy_m3 row_t)
           then d ← cell_sub (accy_can row_t) (accy_m3 row_t); a ← cell_abs d; py_float a
           else Ok NaN);
    Ok (Some (sample_event_record understeer severity time_loss steer_corr false
                speed_loss lat NaN
                "Steering increased but lateral G did not respond — likely understeer."))
  else Ok None.

Definition missed_shift_rule (row_t : View) : result (option Event) :=
  if notna (gear row_t) && notna (gear_m1 row_t)
     && negb (cell_eqb (gear row_t) (gear_m1 row_t)) then
    if notna (nmot_m1 row_t) && notna (nmot row_t) then
      d ← cell_sub (nmot_m1 row_t) (nmot row_t);
      dropped ← cell_gt d 1200;
      if (dropped : bool) && notna (speed row_t) && notna (speed_m1 row_t) then
        ds ← cell_sub (speed row_t) (speed_m1 row_t);
        a ← cell_abs ds;
        steady ← cell_lt a 1.5;
        if (steady : bool) then
          rpm ← py_float d;
          r ← cell_div rpm 4000;
          severity ← min_one r;
          loss ← py_float a;
          Ok (Some (sample_event_record missed_shift severity (Num 0.5) NaN false
                      loss NaN rpm
                      "Gear change with large RPM drop and minimal speed change — likely missed shift."))
        else Ok None
      else Ok None
    else Ok None
  else Ok None.

(** One [try: ... except Exception: pass]: an exception leaves the
    rule without event. *)
Definition attempt (rule : View → result (option Event)) (row_t : result View)
    : option Event :=
  match row_t ≫= rule with
  | Ok (Some ev) => Some ev
  | _ => None
  end.

(** The four rules in their order; the first event found ends the
    iteration ([continue]). *)
Definition sample_rules (row_t : result View) : option Event :=
  match attempt lockup_rule row_t with
  | Some ev => Some ev
  | None =>
    match attempt near_spin_rule row_t with
    | Some ev => Some ev
    | None =>
      match attempt understeer_rule row_t with
      | Some ev => Some ev
      | None => attempt missed_shift_rule row_t
      end
    end
  end.
End SampleRules.

(** The file names tried for a lap, in order. *)
Inductive FilePattern : Type :=
  | vid_lap_n    (* {vid}_lap_{lap}.parquet *)
  | vid_lapn     (* {vid}_lap{lap}.parquet *)
  | vid_lag_n.   (* {vid}_lag_{lap}.parquet *)

Section TelemetryDetector.

(** The directory of lap files: what [pd.read_parquet] returns for a
    file that exists. *)
Variable laps_dir : FilePattern → cell → Z → option Telemetry.

(** [df.sort_index()] *)
Variable sort_index : Telemetry → Telemetry.

Definition find_lap_file (vid : cell) (lap_no : Z) : option Telemetry :=
  match laps_dir vid_lap_n vid lap_no with
  | Some df => Some df
  | None =>
    match laps_dir vid_lapn vid lap_no with
    | Some df => Some df
    | None => laps_dir vid_lag_n vid lap_no
    end
  end.

(** The event, if any, of the sample at position [i] of the sorted
    frame. *)
Definition sample_event (vid : cell) (lap_no : Z) (df : Telemetry) (i : nat)
    : option Event :=
  match df !! i with
  | Some s => sample_rules vid lap_no s.1 (loc df s.1 i)
  | None => None
  end.

(** The loop over [df.index[3:]]. *)
Definition lap_sample_events (vid : cell) (lap_no : Z) (df : Telemetry) : list Event :=
  omap (sample_event vid lap_no df) (seq 3 (length df - 3)).

Definition detect_telemetry_events (per_lap : DataFrame) : result (list Event) :=
  per_row ← traverse
    (λ row : gmap string cell,
       vid ← (if has_column per_lap "vehicle_id" then Ok (get row "vehicle_id")
              else Raise KeyError);
       lap_no ← (if has_column per_lap "lap" then py_int (get row "lap")
                 else Raise KeyError);
       match find_lap_file vid lap_no with
       | Some df => Ok (lap_sample_events vid lap_no (sort_index df))
       | None => Ok []
       end)
    (rows per_lap);
  Ok (concat per_row).

End TelemetryDetector.

(** An instance of [polyfit_slope]: the exact least-squares slope,
    nothing when a value is missing or the abscissae coincide. *)
Definition lstsq_slope (x y : list (option Q)) : option Q :=
  match mapM (M := option) id x, mapM (M := option) id y with
  | Some xs, Some ys =>
      let n := inject_Z (Z.of_nat (length xs)) in
      let sx := foldr Qplus 0%Q xs in
      let sy := foldr Qplus 0%Q ys in
      let sxy := foldr Qplus 0%Q (zip_with Qmult xs ys) in
      let sxx := foldr Qplus 0%Q (zip_with Qmult xs xs) in
      let den := (n * sxx - sx * sx)%Q in
      if Qeq_bool den 0 then None else Some ((n * sxy - sx * sy) / den)%Q
  | _, _ => None
  end.

(** *** Laps and samples for the examples *)

Definition lap_metrics (v : string) (n : Z) (t lat long : Q) : gmap string cell :=
  <[ "vehicle_id" := Str v ]> (<[ "lap" := Num (inject_Z n) ]>
  (<[ "lap_time_seconds" := Num t ]> (<[ "peak_lat_G" := Num lat ]>
  (<[ "peak_long_G" := Num long ]> (<[ "end_time" := Num (inject_Z (1000 * n)) ]> ∅))))).

Definition lap_columns : list string :=
  ["vehicle_id"; "lap"; "lap_time_seconds"; "peak_lat_G"; "peak_long_G"; "end_time"].

(** Vehicle A: laps 1-3 at 90, 91 and 90.5 s, lap 4 at 95 s with less
    lateral and longitudinal G. *)
Definition four_laps : DataFrame :=
  mkDF lap_columns
       [lap_metrics "A" 1 90 1.4 1.1; lap_metrics "A" 2 91 1.4 1.1;
        lap_metrics "A" 3 90.5 1.4 1.1; lap_metrics "A" 4 95 1.0 0.8].

(** A lap whose time stamp is text that is no date. *)
Definition lap_with_text_stamp : DataFrame :=
  mkDF lap_columns [<[ "end_time" := Str "not a date" ]> (lap_metrics "A" 1 90 1.4 1.1)].

(** Vehicle A with one lap of history only. *)
Definition two_laps : DataFrame :=
  mkDF lap_columns [lap_metrics "A" 1 90 1.4 1.1; lap_metrics "A" 2 95 1.0 0.8].

(** The same table without the field [peak_long_G], and one whose lap
    number is missing. *)
Definition laps_without_long_G : DataFrame :=
  mkDF ["vehicle_id"; "lap"; "lap_time_seconds"; "peak_lat_G"; "end_time"]
       (map (delete "peak_long_G") (rows two_laps)).

Definition laps_without_lap_number : DataFrame :=
  mkDF lap_columns [<[ "lap" := NaN ]> (lap_metrics "A" 1 90 1.4 1.1)].

Definition sample (t : Z) (brake spd latg : Q) : Z * gmap string cell :=
  (t, <[ "pbrake_f" := Num brake ]> (<[ "speed" := Num spd ]>
      (<[ "accy_can" := Num latg ]> (<[ "Steering_Angle" := Num 0 ]>
      (<[ "gear" := Num 3 ]> (<[ "nmot" := Num 5000 ]> ∅)))))).

(** Vehicle B: at the fourth sample the front brake pressure is 15
    above the value two samples before and the speed 10 below the value
    three samples before; lateral G has DROPPED by 0.5 ... *)
Definition braking_with_G_drop : Telemetry :=
  [sample 0 5 120 1.0; sample 1 5 118 1.0; sample 2 6 115 0.8; sample 3 20 110 0.5].

(** ... or has RISEN by 0.5. *)
Definition braking_with_G_rise : Telemetry :=
  [sample 0 5 120 0.5; sample 1 5 118 0.5; sample 2 6 115 0.8; sample 3 20 110 1.0].

Definition one_lap_of_B : DataFrame :=
  mkDF lap_columns [lap_metrics "B" 1 90 1.4 1.1].

Definition only_file (df : Telemetry) (p : FilePattern) (vid : cell) (lap_no : Z)
    : option Telemetry :=
  match p with vid_lap_n => Some df | _ => None end.

Definition stable_sort_index : Telemetry → Telemetry :=
  isort (λ a b : Z * gmap string cell, Z.leb a.1 b.1).

(** *** Vocabulary of the statements about the detector *)

(** "0 ≤ severity ≤ 1 and time_loss_estimate ≥ 0." *)
Definition within_ranges (ev : Event) : Prop :=
  ∃ s t, severity_score ev = Num s ∧ time_loss_estimate ev = Num t ∧
         (0 <= s)%Q ∧ (s <= 1)%Q ∧ (0 <= t)%Q.

(** What the code requires for a lockup at position [i]: front brake
    pressure [b] against [b2] two samples before, speed [s0] against
    [s3] and lateral G [a0] against [a3] three samples before. *)
Definition lockup_signature (df : Telemetry) (i : nat) (b b2 s3 s0 a3 a0 : Q) : Prop :=
  lagged df "pbrake_f" 0 i = Num b ∧ lagged df "pbrake_f" 2 i = Num b2 ∧
  lagged df "speed" 3 i = Num s3 ∧ lagged df "speed" 0 i = Num s0 ∧
  lagged df "accy_can" 3 i = Num a3 ∧ lagged df "accy_can" 0 i = Num a0 ∧
  (10 < b - b2)%Q ∧ (6 < s3 - s0)%Q ∧ (0.3 < a3 - a0)%Q.

(** The same with lateral G RISING by more than 0.3, as the
    specification words it. *)
Definition lockup_signature_with_G_rise (df : Telemetry) (i : nat)
    (b b2 s3 s0 a3 a0 : Q) : Prop :=
  lagged df "pbrake_f" 0 i = Num b ∧ lagged df "pbrake_f" 2 i = Num b2 ∧
  lagged df "speed" 3 i = Num s3 ∧ lagged df "speed" 0 i = Num s0 ∧
  lagged df "accy_can" 3 i = Num a3 ∧ lagged df "accy_can" 0 i = Num a0 ∧
  (10 < b - b2)%Q ∧ (6 < s3 - s0)%Q ∧ (0.3 < a0 - a3)%Q.


(** *** The specification's scenario 4 *)

(** A totals 360 s and finished second, C totals 355 s and finished
    first; A's only event cost 10 s. *)
Definition duel_laps : DataFrame :=
  mkDF ["vehicle_id"; "lap"; "lap_time_seconds"]
       [lap_record "A" 1 180; lap_record "A" 2 180;
        lap_record "C" 1 177; lap_record "C" 2 178].

Definition duel_events : DataFrame :=
  mkDF ["event_id"; "vehicle_id"; "event_type"; "time_loss_estimate"]
       [event_record "A_L2" "A" "pace_collapse" 10].

Definition duel_results : DataFrame :=
  mkDF ["Vehicle"; " position "] 
       [<[ "Vehicle" := Str "A" ]> (<[ " position " := Num 2 ]> ∅);
        <[ "Vehicle" := Str "C" ]> (<[ " position " := Num 1 ]> ∅)].

(** *** Signatures of the other sample-level rules *)

(** What the code requires for a near spin at position [i]: steering
    angle [st] against [st2] two samples before, lateral G [a0] against
    [a3] and speed [s0] against [s3] three samples before. *)
Definition near_spin_signature (df : Telemetry) (i : nat) (st st2 a0 a3 s3 s0 : Q) : Prop :=
  lagged df "Steering_Angle" 0 i = Num st ∧ lagged df "Steering_Angle" 2 i = Num st2 ∧
  lagged df "accy_can" 0 i = Num a0 ∧ lagged df "accy_can" 3 i = Num a3 ∧
  lagged df "speed" 3 i = Num s3 ∧ lagged df "speed" 0 i = Num s0 ∧
  (20 < Qabs (st - st2))%Q ∧ (1.5 < a0 - a3)%Q ∧ (4 < s3 - s0)%Q.

(** What the code requires for understeer at position [i]: all values
    against those three samples before. *)
Definition understeer_signature (df : Telemetry) (i : nat) (st st3 a0 a3 s3 s0 : Q) : Prop :=
  lagged df "Steering_Angle" 0 i = Num st ∧ lagged df "Steering_Angle" 3 i = Num st3 ∧
  lagged df "accy_can" 0 i = Num a0 ∧ lagged df "accy_can" 3 i = Num a3 ∧
  lagged df "speed" 3 i = Num s3 ∧ lagged df "speed" 0 i = Num s0 ∧
  (8 < st - st3)%Q ∧ (Qabs (a0 - a3) < 0.2)%Q ∧ (3 < s3 - s0)%Q.

(** *** Samples for the other sample-level rules *)

Definition handling_sample (t : Z) (steer spd latg : Q) : Z * gmap string cell :=
  (t, <[ "pbrake_f" := Num 0 ]> (<[ "speed" := Num spd ]>
      (<[ "accy_can" := Num latg ]> (<[ "Steering_Angle" := Num steer ]>
      (<[ "gear" := Num 3 ]> (<[ "nmot" := Num 5000 ]> ∅)))))).

(** At the fourth sample the steering angle is 25 above the value two
    samples before, lateral G 2.0 above and speed 5 below the values
    three samples before. *)
Definition snap_of_steering : Telemetry :=
  [handling_sample 0 0 100 0.5; handling_sample 1 0 99 0.5;
   handling_sample 2 5 98 1.0; handling_sample 3 25 95 2.5].

(** At the fourth sample the steering angle is 10 above, lateral G 0.1
    above and speed 4 below the values three samples before. *)
Definition pushing_wide : Telemetry :=
  [handling_sample 0 0 100 1.0; handling_sample 1 3 99 1.0;
   handling_sample 2 6 98 1.0; handling_sample 3 10 96 1.1].

Definition shift_sample (t : Z) (g rpm spd : Q) : Z * gmap string cell :=
  (t, <[ "pbrake_f" := Num 0 ]> (<[ "speed" := Num spd ]>
      (<[ "accy_can" := Num 1 ]> (<[ "Steering_Angle" := Num 0 ]>
      (<[ "gear" := Num g ]> (<[ "nmot" := Num rpm ]> ∅)))))).

(** At the fourth sample the gear goes from 3 to 4, the engine speed
    falls by 1500 and the speed changes by 0.5. *)
Definition botched_upshift : Telemetry :=
  [shift_sample 0 3 6000 100; shift_sample 1 3 6000 100;
   shift_sample 2 3 6000 100; shift_sample 3 4 4500 100.5].

(** What the code requires for a missed shift at position [i]: the gear
    [g] differs from the gear [g1] one sample before, engine speed fell
    from [n1] to [n0] and speed moved from [s1] to [s0]. *)
Definition missed_shift_signature (df : Telemetry) (i : nat) (g g1 : cell)
    (n1 n0 s0 s1 : Q) : Prop :=
  lagged df "gear" 0 i = g ∧ lagged df "gear" 1 i = g1 ∧
  notna g = true ∧ notna g1 = true ∧ cell_eqb g g1 = false ∧
  lagged df "nmot" 1 i = Num n1 ∧ lagged df "nmot" 0 i = Num n0 ∧
  lagged df "speed" 0 i = Num s0 ∧ lagged df "speed" 1 i = Num s1 ∧
  (1200 < n1 - n0)%Q ∧ (Qabs (s0 - s1) < 1.5)%Q.

(** *** Vocabulary of the statements about the lap-level rules *)




(** *** Vocabulary of the further statements about the simulator *)

(** One criterion of the removal filter on a row: it holds when no value
    is asked for, when the table has no such column, or when the row
    has the value. *)
Definition criterion (df : DataFrame) (c : string) (v : option string)
    (row : gmap string cell) : bool :=
  match v with
  | Some x => if has_column df c then cell_eqb (get row c) (Str x) else true
  | None => true
  end.

Definition selected (df : DataFrame) (vehicle_id event_type role : option string)
    (row : gmap string cell) : bool :=
  criterion df "vehicle_id" vehicle_id row && criterion df "event_type" event_type row
  && criterion df "role" role row.

(** No two elements are equal under [eqb]. *)
Fixpoint distinct_by {A : Type} (eqb : A → A → bool) (l : list A) : bool :=
  match l with
  | [] => true
  | x :: l' => forallb (λ y, negb (eqb x y)) l' && distinct_by eqb l'
  end.

(** Every event of the table has its own [event_id]. *)
Definition distinct_event_ids (event_detection : DataFrame) : bool :=
  distinct_by cell_eqb (map (λ r, get r "event_id") (rows event_detection)).

(** The inner loop of the merge on [event_id] for one left row [l]: its
    partners among the rows of [X] that satisfy [P], projected on
    [event_id]. *)
Definition partners_by_id (P : gmap string cell → bool) (l : gmap string cell)
    (X : list (gmap string cell)) : list (gmap string cell) :=
  r ← map (λ r : gmap string cell, filter (λ kv : string * cell, kv.1 ∈ ["event_id"]) r)
          (List.filter P X);
  if keys_match ["event_id"] l r then [l ∪ r] else [].

(** Every recorded loss of the table is a non-negative number or
    missing. *)
Definition nonneg_losses (df : DataFrame) : bool :=
  match loss_column df with
  | Some col => forallb (λ r, match get r col with
                              | Num q => Qle_bool 0 q
                              | NaN => true
                              | Str _ => false
                              end) (rows df)
  | None => true
  end.

(** ** [build_what_if_payload] *)

(** What [frame.set_index("vehicle_id").loc[driver_id]] hands to the
    code: the row when the label occurs once, a frame when it occurs
    more often. *)
Inductive Selection : Type :=
  | OneRow (r : gmap string cell)
  | SubFrame (rs : list (gmap string cell)).

Definition loc_driver (df : DataFrame) (driver_id : string) : option Selection :=
  match rows (select_eq df "vehicle_id" driver_id) with
  | [] => None
  | [r] => Some (OneRow r)
  | rs => Some (SubFrame rs)
  end.

(** [o[c]]: [vehicle_id] has become the index and is no key any more. *)
Definition sel_item (df : DataFrame) (o : Selection) (c : string) : result pyval :=
  if has_column df c && negb (bool_decide (c = "vehicle_id")) then
    Ok (match o with
        | OneRow r => Scalar (get r c)
        | SubFrame rs => Column (map (λ r, get r c) rs)
        end)
  else Raise KeyError.

(** [o.get(c, default)] *)
Definition sel_get (df : DataFrame) (o : Selection) (c : string) (default : pyval) : pyval :=
  match sel_item df o c with
  | Ok v => v
  | Raise _ => default
  end.

(** [int(x)] and [float(x)]: a column of two or more values cannot be
    converted (TypeError). *)
Definition pv_int (v : pyval) : result Z :=
  match v with
  | Scalar c => py_int c
  | Column _ => Raise TypeError
  end.

Definition pv_float (v : pyval) : result cell :=
  match v with
  | Scalar c => py_float c
  | Column _ => Raise TypeError
  end.

(** The returned dict. *)
Record Payload : Type := mkPayload {
  scenario : string;
  driver_id : string;
  original_time_seconds : cell;
  adjusted_time_seconds : cell;
  time_gain_seconds : cell;
  time_gain_percent : cell;
  original_position : Z;
  adjusted_position : Z;
  position_change : option Z;
  result_improvement : string
}.

(** [int(...)] under [except (ValueError, TypeError)]. *)
Definition int_or_else (v : pyval) (handler : result Z) : result Z :=
  match pv_int v with
  | Ok z => Ok z
  | Raise ValueError | Raise TypeError => handler
  | Raise e => Raise e
  end.

Definition build_what_if_payload (driver_id scenario_label : string)
    (original_results adjusted_results : DataFrame) : result Payload :=
  if negb (has_column original_results "vehicle_id") then Raise KeyError
  else if negb (has_column adjusted_results "vehicle_id") then Raise KeyError
  else
    match loc_driver original_results driver_id with
    | None => Raise ValueError
    | Some o =>
      match loc_driver adjusted_results driver_id with
      | None => Raise ValueError
      | Some a =>
        o_real ← sel_item original_results o "real_total_time";
        a_adj ← sel_item adjusted_results a "adj_total_time";
        gain ← pv_sub o_real a_adj;
        orig_pos ← int_or_else
          (sel_get original_results o "real_position"
             (sel_get adjusted_results a "adj_position" (Scalar (Num 0))))
          (pv_int (sel_get original_results o "adj_position" (Scalar (Num 0))));
        a_pos ← sel_item adjusted_results a "adj_position";
        adj_pos ← int_or_else a_pos (Ok 0%Z);
        let pos_change :=
          if (0 <? orig_pos)%Z && (0 <? adj_pos)%Z then Some (orig_pos - adj_pos)%Z
          else None in
        original_time ← pv_float o_real;
        adjusted_time ← pv_float a_adj;
        time_gain ← pv_float gain;
        positive ← cell_gt original_time 0;
        let percent :=
          if (positive : bool) then
            match time_gain, original_time with
            | Num g, Num t => Num (g / t * 100)
            | _, _ => NaN
            end
          else Num 0 in
        Ok (mkPayload scenario_label driver_id original_time adjusted_time time_gain
              percent orig_pos adj_pos pos_change
              (match pos_change with
               | Some c => if (0 <? c)%Z then "improved"
                           else if (c =? 0)%Z then "unchanged" else "declined"
               | None => "declined"
               end))
      end
    end.

(** ** [simulate_event_removal_by_role] *)

(** The frame built for one affected vehicle. *)
Definition original_of (vid : cell) (total : Q) : DataFrame :=
  mkDF ["vehicle_id"; "real_total_time"; "adj_position"]
       [<[ "vehicle_id" := vid ]> (<[ "real_total_time" := Num total ]>
        (<[ "adj_position" := Num 0 ]> ∅))].

(** The body of the loop with its [except Exception: continue].  For a
    vehicle id that is no string, [str(vid)] is no label of the
    one-row index built from [vid] itself, so that
    [build_what_if_payload] raises ValueError. *)
Definition payload_of (lap_times : DataFrame) (adjusted : SimResult) (role : string)
    (vid : cell) : option (string * Payload) :=
  match vid with
  | Str v =>
      match
        total ← (if has_column lap_times "vehicle_id"
                    && has_column lap_times "lap_time_seconds"
                 then nansum (map (λ r, get r "lap_time_seconds")
                                  (group_rows lap_times "vehicle_id" vid))
                 else Raise KeyError);
        build_what_if_payload v ("Remove all " ++ role ++ " events")
          (original_of vid total) (select_eq (to_frame adjusted) "vehicle_id" v)
      with
      | Ok payload => Some (v, payload)
      | Raise _ => None
      end
  | _ => None
  end.

(** The returned dict as the list of its items, in insertion order. *)
Definition simulate_event_removal_by_role
    (sort_values : list TimeRow → list TimeRow)
    (lap_times event_detection results_df : DataFrame) (role : string)
    : result (list (string * Payload)) :=
  let events_to_remove := filter_events_for_removal event_detection None None (Some role) in
  if df_empty events_to_remove then Ok []
  else
    adjusted ← simulate_no_events sort_values lap_times event_detection
                 (Some events_to_remove) (Some results_df);
    affected_vehicles ←
      (if has_column events_to_remove "vehicle_id"
       then Ok (nub_by cell_eqb (map (λ r, get r "vehicle_id") (rows events_to_remove)))
       else Raise KeyError);
    Ok (omap (M := list) (payload_of lap_times adjusted role) affected_vehicles).

(** The duel's event, labelled as the race's turning point. *)
Definition duel_events_with_role : DataFrame :=
  mkDF ["event_id"; "vehicle_id"; "event_type"; "time_loss_estimate"; "role"]
       [<[ "role" := Str "race_turning_point" ]> (event_record "A_L2" "A" "pace_collapse" 10)].

(** *** A lap table the lap-level detector can process *)

(** The table has the columns the detector reads, its three metric
    columns hold no string, every lap number is a number and every
    row has a time stamp (no missing value, no unparsed text). *)
Definition lap_table_complete (per_lap : DataFrame) : bool :=
  forallb (has_column per_lap)
    ["vehicle_id"; "lap"; "lap_time_seconds"; "peak_lat_G"; "peak_long_G"]
  && (has_column per_lap "end_time" || has_column per_lap "start_time")
  && forallb (no_string per_lap) ["lap_time_seconds"; "peak_lat_G"; "peak_long_G"]
  && forallb (λ r, match get r "lap" with Num _ => true | _ => false end) (rows per_lap)
  && forallb (λ r, match get r (if has_column per_lap "end_time"
                                 then "end_time" else "start_time") with
                   | Num _ => true
                   | _ => false
                   end)
       (rows per_lap).

(** * Properties *)

(** ** The result monad *)

Lemma bind_Ok {A B : Type} (m : result A) (f : A → result B) (b : B) :
  (m ≫= f) = Ok b → ∃ a, m = Ok a ∧ f a = Ok b.
Proof. destruct m as [a|e]; simpl; [eauto | discriminate]. Qed.

Lemma traverse_Ok {A B : Type} (f : A → result B) (l : list A) (ys : list B) :
  traverse f l = Ok ys → Forall2 (λ x y, f x = Ok y) l ys.
Proof.
  revert ys. induction l as [|x l IH]; intros ys H; simpl in H.
  - injection H as <-. constructor.
  - apply bind_Ok in H as (y & Hy & H).
    apply bind_Ok in H as (ys' & Hys & H).
    injection H as <-. constructor; auto.
Qed.

Lemma traverse_total {A B : Type} (f : A → result B) (l : list A) :
  (∀ x, x ∈ l → ∃ y, f x = Ok y) → ∃ ys, traverse f l = Ok ys.
Proof.
  induction l as [|x l IH]; intros H; simpl.
  - eauto.
  - destruct (H x) as [y Hy]; [left|]. rewrite Hy. simpl.
    destruct IH as [ys Hys]; [intros z Hz; apply H; by right|].
    rewrite Hys. simpl. eauto.
Qed.

(** ** Insertion sort: permutation and order *)

Section InsertionSort.
Context {A : Type} (leb : A → A → bool).

Lemma insert_by_perm (x : A) (l : list A) : insert_by leb x l ≡ₚ x :: l.
Proof.
  induction l as [|y l IH]; simpl; [done|].
  destruct (leb x y); [done|]. rewrite IH. apply Permutation_swap.
Qed.

Lemma isort_perm (l : list A) : isort leb l ≡ₚ l.
Proof.
  induction l as [|x l IH]; simpl; [done|].
  rewrite insert_by_perm. by rewrite IH.
Qed.

Hypothesis leb_total : ∀ a b, leb a b = false → leb b a = true.

Lemma insert_by_sorted (x : A) (l : list A) :
  Sorted (λ a b, leb a b = true) l → Sorted (λ a b, leb a b = true) (insert_by leb x l).
Proof using leb_total.
  induction l as [|y l IH]; intros Hs; simpl.
  - repeat constructor.
  - destruct (leb x y) eqn:E.
    + constructor; [done|]. by constructor.
    + apply Sorted_inv in Hs as [Hs Hhd]. constructor; [by apply IH|].
      destruct l as [|z l]; simpl.
      * constructor. by apply leb_total.
      * destruct (leb x z); constructor; [by apply leb_total|].
        by apply HdRel_inv in Hhd.
Qed.

Lemma isort_sorted (l : list A) : Sorted (λ a b, leb a b = true) (isort leb l).
Proof using leb_total.
  induction l as [|x l IH]; simpl; [constructor|]. by apply insert_by_sorted.
Qed.

(** Stability: the elements that tie with [a] keep their order. *)
Hypothesis leb_trans : ∀ a b c, leb a b = true → leb b c = true → leb a c = true.



End InsertionSort.

(** ** Cells as keys *)

Lemma cell_eqb_refl (a : cell) : cell_eqb a a = true.
Proof. destruct a; simpl; [by apply bool_decide_eq_true | apply Qeq_bool_refl | done]. Qed.

Lemma cell_eqb_sym (a b : cell) : cell_eqb a b = cell_eqb b a.
Proof.
  destruct a, b; simpl; try done.
  - apply bool_decide_ext. split; congruence.
  - apply Qeq_bool_comm.
Qed.

Lemma cell_eqb_trans (a b c : cell) :
  cell_eqb a b = true → cell_eqb b c = true → cell_eqb a c = true.
Proof.
  destruct a, b, c; simpl; try done.
  - rewrite !bool_decide_eq_true. congruence.
  - apply Qeq_bool_trans.
Qed.

Lemma cell_eqb_cong (a b c : cell) :
  cell_eqb a b = true → cell_eqb c a = cell_eqb c b.
Proof.
  intros Hab. destruct (cell_eqb c a) eqn:E1, (cell_eqb c b) eqn:E2; try done.
  - by rewrite (cell_eqb_trans c a b) in E2.
  - rewrite cell_eqb_sym in Hab. by rewrite (cell_eqb_trans c b a) in E1.
Qed.

Lemma cell_eqb_Str (c : cell) (s : string) : cell_eqb c (Str s) = true ↔ c = Str s.
Proof.
  destruct c; simpl; try (split; [discriminate|congruence]).
  rewrite bool_decide_eq_true. split; congruence.
Qed.

Lemma cell_eqb_notna (a b : cell) : cell_eqb a b = true → notna a = notna b.
Proof. by destruct a, b. Qed.

(** ** [nub_by] and the group keys *)

Lemma elem_of_filter_bool {A : Type} (f : A → bool) (l : list A) (x : A) :
  x ∈ List.filter f l ↔ x ∈ l ∧ f x = true.
Proof. rewrite !list_elem_of_In. apply filter_In. Qed.

Lemma nub_by_subset {A : Type} (eqb : A → A → bool) (l : list A) (x : A) :
  x ∈ nub_by eqb l → x ∈ l.
Proof.
  induction l as [|y l IH]; simpl; [done|].
  rewrite elem_of_cons, elem_of_filter_bool. intros [->|[H _]]; [left|right]; auto.
Qed.

Lemma nub_by_covers (l : list cell) (x : cell) :
  x ∈ l → ∃ y, y ∈ nub_by cell_eqb l ∧ cell_eqb y x = true.
Proof.
  induction l as [|z l IH]; [by intros ?%elem_of_nil|].
  intros [->|Hx]%elem_of_cons; simpl.
  - exists z. split; [left | apply cell_eqb_refl].
  - destruct (IH Hx) as (y & Hy & Hyx).
    destruct (cell_eqb z y) eqn:E.
    + exists z. split; [left | by apply (cell_eqb_trans z y x)].
    + exists y. split; [|done]. right. apply elem_of_filter_bool. by rewrite E.
Qed.

Lemma group_keys_notna (df : DataFrame) (by_ : string) (k : cell) :
  k ∈ group_keys df by_ → notna k = true.
Proof.
  unfold group_keys. rewrite isort_perm. intros H%nub_by_subset.
  by apply elem_of_filter_bool in H as [_ ?].
Qed.

Lemma group_keys_covers (df : DataFrame) (by_ : string) (r : gmap string cell) :
  r ∈ rows df → notna (get r by_) = true →
  ∃ k, k ∈ group_keys df by_ ∧ cell_eqb k (get r by_) = true.
Proof.
  intros Hr Hna.
  destruct (nub_by_covers (List.filter notna (map (λ r, get r by_) (rows df))) (get r by_))
    as (k & Hk & Hkr).
  - apply elem_of_filter_bool. split; [|done].
    apply list_elem_of_fmap. eauto.
  - exists k. split; [|done]. unfold group_keys. by rewrite isort_perm.
Qed.

Lemma group_rows_cong (df : DataFrame) (by_ : string) (k v : cell) :
  cell_eqb k v = true → group_rows df by_ k = group_rows df by_ v.
Proof.
  intros H. unfold group_rows. apply filter_ext. intros r. by apply cell_eqb_cong.
Qed.

(** ** [groupby(...).sum()] *)

Lemma groupby_sum_Ok (df : DataFrame) (by_ col : string) (its : list (cell * Q)) :
  groupby_sum df by_ col = Ok its →
  its.*1 = group_keys df by_ ∧
  ∀ k s, (k, s) ∈ its → nansum (map (λ r, get r col) (group_rows df by_ k)) = Ok s.
Proof.
  unfold groupby_sum. intros H%traverse_Ok.
  induction H as [|k [k' s] ks its Hk H IH]; simpl.
  - split; [done|]. by intros k s ?%elem_of_nil.
  - apply bind_Ok in Hk as (s' & Hs' & Hk). injection Hk as <- <-.
    destruct IH as [IH1 IH2]. split; [by f_equal|].
    intros k0 s0 [Heq|Hin]%elem_of_cons; [by injection Heq as -> ->|eauto].
Qed.

(** The loss the left join finds for a vehicle is the sum over that
    vehicle's rows; a vehicle without a key in the series has no row. *)
Lemma groupby_sum_find (df : DataFrame) (by_ col : string) (its : list (cell * Q)) (v : cell) :
  groupby_sum df by_ col = Ok its → notna v = true →
  match List.find (λ kl : cell * Q, cell_eqb kl.1 v) its with
  | Some kl => nansum (map (λ r, get r col) (group_rows df by_ v)) = Ok kl.2
  | None => group_rows df by_ v = []
  end.
Proof.
  intros [Hkeys Hsum]%groupby_sum_Ok Hv.
  destruct (List.find _ its) as [[k s]|] eqn:Hf.
  - apply find_some in Hf as [Hin Hk]. simpl in *.
    rewrite <-(group_rows_cong df by_ k v Hk). apply Hsum. by apply list_elem_of_In.
  - unfold group_rows. destruct (List.filter _ (rows df)) as [|r rs'] eqn:E; [done|].
    exfalso.
    assert (Hr : r ∈ List.filter (λ r, cell_eqb (get r by_) v) (rows df))
      by (rewrite E; left).
    apply elem_of_filter_bool in Hr as [Hr Hrv].
    destruct (group_keys_covers df by_ r Hr) as (k & Hk & Hkr).
    { by rewrite (cell_eqb_notna _ _ Hrv). }
    rewrite <-Hkeys in Hk. apply list_elem_of_fmap in Hk as ([k' s] & -> & Hin).
    apply list_elem_of_In in Hin.
    pose proof (find_none _ _ Hf _ Hin) as Hnone. simpl in *.
    by rewrite (cell_eqb_trans k' (get r by_) v) in Hnone.
Qed.

Lemma nansum_total (cs : list cell) :
  (∀ c, c ∈ cs → ∀ s, c ≠ Str s) → ∃ q, nansum cs = Ok q.
Proof.
  induction cs as [|c cs IH]; intros H; simpl; [eauto|].
  destruct IH as [q Hq]; [intros c' Hc'; apply H; by right|].
  destruct c as [s|p|].
  - exfalso. apply (H (Str s) ltac:(left) s). reflexivity.
  - rewrite Hq. simpl. eauto.
  - eauto.
Qed.

Lemma groupby_sum_total (df : DataFrame) (by_ col : string) :
  no_string df col = true → ∃ its, groupby_sum df by_ col = Ok its.
Proof.
  intros Hns. unfold groupby_sum. apply traverse_total. intros k _.
  destruct (nansum_total (map (λ r, get r col) (group_rows df by_ k))) as [q Hq].
  - intros c Hc s ->. apply list_elem_of_fmap in Hc as (r & Hr & Hin).
    apply elem_of_filter_bool in Hin as [Hin _].
    unfold no_string in Hns. rewrite forallb_forall in Hns.
    apply list_elem_of_In in Hin. specialize (Hns r Hin). by rewrite <-Hr in Hns.
  - rewrite Hq. simpl. eauto.
Qed.

(** ** Sorted lists *)

Lemma StronglySorted_lookup_lt {A : Type} (R : A → A → Prop) (l : list A) (i j : nat) (x y : A) :
  StronglySorted R l → (i < j)%nat → l !! i = Some x → l !! j = Some y → R x y.
Proof.
  intros Hs. revert i j. induction Hs as [|a l Hs IH Hall]; intros i j Hij Hi Hj.
  - by rewrite lookup_nil in Hi.
  - destruct j as [|j]; [lia|]. destruct i as [|i]; simpl in *.
    + injection Hi as <-. rewrite Forall_forall in Hall. apply Hall.
      by apply list_elem_of_lookup_2 in Hj.
    + apply (IH i j); [lia|done..].
Qed.

Lemma Sorted_weaken {A : Type} (R1 R2 : A → A → Prop) (l : list A) :
  (∀ a b, R1 a b → R2 a b) → Sorted R1 l → Sorted R2 l.
Proof.
  intros HR Hs. induction Hs as [|a l Hs IH Hhd]; constructor; [done|].
  destruct Hhd; constructor; auto.
Qed.

Lemma stable_sort_values_contract : sort_contract stable_sort_values.
Proof.
  split; intros l; unfold stable_sort_values.
  - apply isort_perm.
  - unfold ascending.
    eapply Sorted_weaken; [|apply isort_sorted].
    + intros a b H. by apply Qle_bool_iff.
    + simpl. intros a b H. apply Qle_bool_iff.
      destruct (Qle_bool (tr_adj a) (tr_adj b)) eqn:E; [done|].
      assert (¬ (tr_adj a <= tr_adj b)%Q) by (rewrite <-Qle_bool_iff; congruence).
      lra.
Qed.

(** ** Positions that are numbers *)

Lemma pv_sub_numeric (p : pyval) (q : Q) :
  pv_numeric p = true → ∃ c, pv_sub p (Scalar (Num q)) = Ok c.
Proof.
  destruct p as [c|cs]; simpl; intros H.
  - destruct c; [done|eauto..].
  - destruct (traverse_total (λ x, cell_sub x (Num q)) cs) as [ys ->]; [|simpl; eauto].
    intros x Hx. rewrite forallb_forall in H. apply list_elem_of_In in Hx.
    specialize (H _ Hx). destruct x; [done|simpl; eauto..].
Qed.

Lemma pv_sub_Num (p q : Q) (c : pyval) :
  pv_sub (Scalar (Num p)) (Scalar (Num q)) = Ok c → c = Scalar (Num (p - q)).
Proof. simpl. by intros [= <-]. Qed.

(** The row the comparator and the payload builder read. *)
Lemma row_to_map_lookup (r : ScenarioRow) :
  get (row_to_map r) "vehicle_id" = sr_vehicle_id r ∧
  get (row_to_map r) "real_total_time" = Num (sr_real_total_time r) ∧
  get (row_to_map r) "total_event_loss" = Num (sr_total_event_loss r) ∧
  get (row_to_map r) "adj_total_time" = Num (sr_adj_total_time r) ∧
  get (row_to_map r) "adj_position" = Num (inject_Z (Z.of_nat (sr_adj_position r))).
Proof.
  unfold row_to_map, get.
  destruct (sr_real_position r), (sr_position_change r); repeat split; reflexivity.
Qed.

Lemma row_to_map_row_get (r : ScenarioRow) :
  row_get (row_to_map r) "total_event_loss" = Num (sr_total_event_loss r) ∧
  row_get (row_to_map r) "adj_total_time" = Num (sr_adj_total_time r) ∧
  row_get (row_to_map r) "adj_position" = Num (inject_Z (Z.of_nat (sr_adj_position r))).
Proof.
  unfold row_to_map, row_get.
  destruct (sr_real_position r), (sr_position_change r); repeat split; reflexivity.
Qed.

(** ** The simulator, step by step *)

Section SimulatorSteps.
Variable sort_values : list TimeRow → list TimeRow.

Lemma simulate_Ok lt ev rm res rs :
  simulate_no_events sort_values lt ev rm res = Ok (Table rs) →
  ∃ totals removed tl joined real_positions,
    groupby_sum lt "vehicle_id" "lap_time_seconds" = Ok totals ∧
    events_removed ev rm = Ok removed ∧
    event_losses removed = Ok tl ∧
    join_left totals tl = Ok joined ∧
    real_position_of res = Ok real_positions ∧
    Forall2 (λ (ir : nat * TimeRow) r, rank_row real_positions ir.1 ir.2 = Ok r)
      (imap (λ i r, (i, r)) (sort_values (map fill_and_adjust joined))) rs.
Proof.
  unfold simulate_no_events.
  destruct (has_column lt "vehicle_id" && has_column lt "lap_time_seconds"); [|discriminate].
  intros H.
  apply bind_Ok in H as (totals & Ht & H).
  apply bind_Ok in H as (removed & Hr & H).
  apply bind_Ok in H as (tl & Htl & H).
  apply bind_Ok in H as (joined & Hj & H).
  apply bind_Ok in H as (rp & Hrp & H).
  apply bind_Ok in H as (rs' & Hrs & H).
  injection H as <-. apply traverse_Ok in Hrs.
  by exists totals, removed, tl, joined, rp.
Qed.

Lemma rank_row_Ok (real_positions : cell → pyval) i t r :
  rank_row real_positions i t = Ok r →
  sr_vehicle_id r = tr_vehicle t ∧ sr_real_total_time r = tr_real t ∧
  sr_total_event_loss r = tr_loss t ∧ sr_adj_total_time r = tr_adj t ∧
  sr_adj_position r = S i ∧
  sr_real_position r = real_positions (tr_vehicle t) ∧
  pv_sub (sr_real_position r) (Scalar (Num (inject_Z (Z.of_nat (S i)))))
    = Ok (sr_position_change r).
Proof.
  unfold rank_row. intros H. apply bind_Ok in H as (c & Hc & H).
  injection H as <-. by simpl.
Qed.

Lemma ranked_lookup (df : list TimeRow) res rs i r :
  Forall2 (λ (ir : nat * TimeRow) r, rank_row res ir.1 ir.2 = Ok r)
    (imap (λ i r, (i, r)) df) rs →
  rs !! i = Some r → ∃ t, df !! i = Some t ∧ rank_row res i t = Ok r.
Proof.
  intros HF Hi. destruct (Forall2_lookup_r _ _ _ _ _ HF Hi) as ([i' t] & Hl & Hrank).
  apply list_lookup_imap_Some in Hl as (t' & Hl & [= -> ->]). eauto.
Qed.

Lemma ranked_vehicles (df : list TimeRow) res rs :
  Forall2 (λ (ir : nat * TimeRow) r, rank_row res ir.1 ir.2 = Ok r)
    (imap (λ i r, (i, r)) df) rs →
  map sr_vehicle_id rs = map tr_vehicle df.
Proof.
  intros HF. apply list_eq. intros i. rewrite !list_lookup_fmap.
  destruct (rs !! i) as [r|] eqn:Hr.
  - destruct (ranked_lookup _ _ _ _ _ HF Hr) as (t & -> & Hrank).
    apply rank_row_Ok in Hrank as (Hv & _). simpl. by rewrite Hv.
  - apply lookup_ge_None in Hr. apply Forall2_length in HF.
    rewrite length_imap in HF.
    by rewrite (proj2 (lookup_ge_None df i)) by lia.
Qed.

Lemma join_left_Ok totals tl joined :
  join_left totals tl = Ok joined →
  map (λ j, tr_vehicle (fill_and_adjust j)) joined = totals.*1 ∧
  ∀ t, t ∈ map fill_and_adjust joined →
    ∃ real, (tr_vehicle t, real) ∈ totals ∧ tr_real t = real ∧
      tr_loss t = match List.find (λ kl : cell * Q, cell_eqb kl.1 (tr_vehicle t)) (items tl) with
                  | Some kl => kl.2
                  | None => 0%Q
                  end ∧
      tr_adj t = (tr_real t - tr_loss t)%Q.
Proof.
  unfold join_left. destruct (name tl); [|discriminate]. intros [= <-]. split.
  - rewrite map_map. apply map_ext. by intros [k real].
  - intros t Ht. apply list_elem_of_fmap in Ht as (j & -> & Hj).
    apply list_elem_of_fmap in Hj as ([k real] & -> & Hin). simpl.
    exists real. split; [done|]. by destruct (List.find _ (items tl)).
Qed.
End SimulatorSteps.

(** ** The losses the simulator subtracts *)

Lemma event_losses_named (ev : DataFrame) (tl : Series) :
  event_losses ev = Ok tl →
  name tl ≠ None ↔ df_empty ev = false ∧ has_column ev "vehicle_id" = true.
Proof.
  unfold event_losses.
  destruct (df_empty ev), (has_column ev "vehicle_id"); simpl;
    try (intros [= <-]; simpl; split; [done | intros [? ?]; done]).
  intros H. apply bind_Ok in H as (its & _ & [= <-]). simpl. split; done.
Qed.

(** The loss joined to vehicle [v] is the sum of the loss column over
    the rows of [v] among the removed events. *)
Lemma event_losses_find (ev : DataFrame) (tl : Series) (v : cell) :
  event_losses ev = Ok tl → name tl ≠ None → notna v = true →
  match loss_column ev with
  | Some col =>
      nansum (map (λ r, get r col) (group_rows ev "vehicle_id" v))
      = Ok (match List.find (λ kl : cell * Q, cell_eqb kl.1 v) (items tl) with
            | Some kl => kl.2
            | None => 0%Q
            end)
  | None => items tl = []
  end.
Proof.
  intros Hev Hname Hv.
  pose proof (proj1 (event_losses_named ev tl Hev) Hname) as [He Hc].
  unfold event_losses in Hev. rewrite He, Hc in Hev. simpl in Hev.
  apply bind_Ok in Hev as (its & Hits & [= <-]). simpl.
  unfold loss_column.
  destruct (has_column ev "time_loss_estimate");
    [|destruct (has_column ev "time_loss"); [|by injection Hits as <-]].
  all: pose proof (groupby_sum_find _ _ _ _ v Hits Hv) as Hf;
    destruct (List.find _ its); [done | by rewrite Hf].
Qed.

Section SimulatorRows.
Variable sort_values : list TimeRow → list TimeRow.
Hypothesis sort_ok : sort_contract sort_values.

(** Every row of the result, in terms of the inputs. *)
Lemma simulate_rows lt ev rm res rs :
  simulate_no_events sort_values lt ev rm res = Ok (Table rs) →
  ∃ removed tl,
    events_removed ev rm = Ok removed ∧ event_losses removed = Ok tl ∧ name tl ≠ None ∧
    map sr_vehicle_id rs ≡ₚ group_keys lt "vehicle_id" ∧
    ∀ r, r ∈ rs →
      notna (sr_vehicle_id r) = true ∧
      nansum (map (λ x, get x "lap_time_seconds")
                  (group_rows lt "vehicle_id" (sr_vehicle_id r)))
        = Ok (sr_real_total_time r) ∧
      sr_total_event_loss r
        = match List.find (λ kl : cell * Q, cell_eqb kl.1 (sr_vehicle_id r)) (items tl) with
          | Some kl => kl.2
          | None => 0%Q
          end ∧
      sr_adj_total_time r = (sr_real_total_time r - sr_total_event_loss r)%Q ∧
      (∃ real_positions, real_position_of res = Ok real_positions ∧
         sr_real_position r = real_positions (sr_vehicle_id r)) ∧
      pv_sub (sr_real_position r) (Scalar (Num (inject_Z (Z.of_nat (sr_adj_position r)))))
        = Ok (sr_position_change r).
Proof using sort_ok.
  intros (totals & removed & tl & joined & rp & Ht & Hr & Htl & Hj & Hrpo & HF)%simulate_Ok.
  destruct sort_ok as [Hperm _].
  pose proof (groupby_sum_Ok _ _ _ _ Ht) as [Hkeys Hsum].
  pose proof (join_left_Ok _ _ _ Hj) as [Hjk Hjr].
  exists removed, tl. split; [done|]. split; [done|]. split.
  { unfold join_left in Hj. by destruct (name tl). }
  assert (Hveh : map sr_vehicle_id rs ≡ₚ group_keys lt "vehicle_id").
  { rewrite (ranked_vehicles _ _ _ HF), Hperm, <-Hkeys, <-Hjk. by rewrite map_map. }
  split; [done|].
  intros r Hin. apply list_elem_of_lookup in Hin as [i Hi].
  destruct (ranked_lookup _ _ _ _ _ HF Hi) as (t & Ht' & Hrank).
  apply rank_row_Ok in Hrank as (Hv & Hreal & Hloss & Hadj & Hpos & Hrp & Hch).
  assert (Hin : t ∈ map fill_and_adjust joined).
  { rewrite <-(Hperm (map fill_and_adjust joined)). by eapply list_elem_of_lookup_2. }
  destruct (Hjr t Hin) as (real & Htot & Hreal' & Hloss' & Hadj').
  rewrite Hv, Hreal, Hloss, Hadj, Hpos. repeat split; try done.
  all: try (by exists rp).
  - apply (group_keys_notna lt "vehicle_id"). rewrite <-Hkeys.
    apply list_elem_of_fmap. by exists (tr_vehicle t, real).
  - rewrite Hreal'. by apply Hsum.
Qed.
End SimulatorRows.

(** ** Ranking (C1) *)

(** C1, amended.  In every result of the simulator the vehicles are the
    vehicles with a lap-time total, each once; [adj_position] is the
    1-based place of the row in the result (1, 2, ..., n); and a
    strictly smaller [adj_total_time] gives a strictly smaller
    [adj_position].  The order among equal times is the one the sort
    leaves, which is not the order of the lap-times input. *)
Theorem adjusted_position_is_ascending_rank
    (sort_values : list TimeRow → list TimeRow)
    (lap_times event_detection : DataFrame)
    (events_to_remove results_df : option DataFrame) (rs : list ScenarioRow) :
  sort_contract sort_values →
  simulate_no_events sort_values lap_times event_detection events_to_remove results_df
    = Ok (Table rs) →
  map sr_vehicle_id rs ≡ₚ group_keys lap_times "vehicle_id" ∧
  (∀ i r, rs !! i = Some r → sr_adj_position r = S i) ∧
  (∀ r1 r2, r1 ∈ rs → r2 ∈ rs →
     (sr_adj_total_time r1 < sr_adj_total_time r2)%Q →
     (sr_adj_position r1 < sr_adj_position r2)%nat).
Proof.
  intros Hsort Hsim.
  destruct (simulate_rows _ Hsort _ _ _ _ _ Hsim) as (_ & _ & _ & _ & _ & Hveh & _).
  apply simulate_Ok in Hsim as (totals & removed & tl & joined & rp & _ & _ & _ & _ & _ & HF).
  split; [done|].
  assert (Hplace : ∀ i r, rs !! i = Some r →
            ∃ t, sort_values (map fill_and_adjust joined) !! i = Some t ∧
                 sr_adj_total_time r = tr_adj t ∧ sr_adj_position r = S i).
  { intros i r Hi. destruct (ranked_lookup _ _ _ _ _ HF Hi) as (t & Ht & Hrank).
    apply rank_row_Ok in Hrank as (_ & _ & _ & Hadj & Hpos & _). eauto. }
  split.
  - intros i r Hi. by destruct (Hplace i r Hi) as (_ & _ & _ & ?).
  - intros r1 r2 [i Hi]%list_elem_of_lookup [j Hj]%list_elem_of_lookup Hlt.
    destruct (Hplace i r1 Hi) as (t1 & Ht1 & Ha1 & ->).
    destruct (Hplace j r2 Hj) as (t2 & Ht2 & Ha2 & ->).
    rewrite Ha1, Ha2 in Hlt.
    destruct Hsort as [_ Hasc]. specialize (Hasc (map fill_and_adjust joined)).
    apply Sorted_StronglySorted in Hasc; [|intros a b c; apply Qle_trans].
    destruct (decide (i < j)%nat) as [|Hge]; [lia|]. exfalso.
    destruct (decide (i = j)) as [->|Hne].
    + rewrite Ht1 in Ht2. injection Ht2 as ->. lra.
    + pose proof (StronglySorted_lookup_lt _ _ j i t2 t1 Hasc ltac:(lia) Ht2 Ht1) as Hle.
      simpl in Hle. lra.
Qed.

Lemma adjusted_position_is_ascending_rank_witness :
  ∃ rs,
    simulate_no_events stable_sort_values race_laps race_events None (Some race_results)
      = Ok (Table rs) ∧
    map sr_vehicle_id rs ≡ₚ group_keys race_laps "vehicle_id" ∧
    (∀ i r, rs !! i = Some r → sr_adj_position r = S i) ∧
    (∀ r1 r2, r1 ∈ rs → r2 ∈ rs →
       (sr_adj_total_time r1 < sr_adj_total_time r2)%Q →
       (sr_adj_position r1 < sr_adj_position r2)%nat).
Proof.
  eexists. split; [vm_compute; reflexivity|].
  apply (adjusted_position_is_ascending_rank stable_sort_values race_laps race_events
           None (Some race_results)).
  - apply stable_sort_values_contract.
  - vm_compute; reflexivity.
Defined.

(** C1, as stated, fails: with the stable sort, A and B tie at 100 s and
    A is ranked before B although B comes first in the lap-times input
    ([groupby] has listed the vehicles by ascending id before the
    sort). *)
Lemma ties_not_in_input_order :
  sort_contract stable_sort_values ∧
  ∃ rs,
    simulate_no_events stable_sort_values race_laps race_events None None = Ok (Table rs) ∧
    ¬ ties_follow_input_order race_laps rs.
Proof.
  split; [apply stable_sort_values_contract|].
  eexists. split; [vm_compute; reflexivity|].
  intros H.
  specialize (H (mkScenarioRow (Str "B") 100 0 (100 - 0) 2 NaN NaN)
                (mkScenarioRow (Str "A") 100 0 (100 - 0) 1 NaN NaN) 0%nat 1%nat).
  simpl in H. enough (2 < 1)%nat by lia. apply H.
  - right; left.
  - left.
  - reflexivity.
  - reflexivity.
  - reflexivity.
  - lia.
Qed.

(** ** The simulator returns *)

Lemma simulate_total (sort_values : list TimeRow → list TimeRow)
    lt ev rm res removed tl :
  sort_contract sort_values →
  has_column lt "vehicle_id" = true → has_column lt "lap_time_seconds" = true →
  no_string lt "lap_time_seconds" = true →
  events_removed ev rm = Ok removed → event_losses removed = Ok tl → name tl ≠ None →
  numeric_positions res lt = true →
  ∃ rs, simulate_no_events sort_values lt ev rm res = Ok (Table rs).
Proof.
  intros [Hperm _] Hv Hl Hns Hrm Htl Hname Hnum.
  unfold simulate_no_events. rewrite Hv, Hl. simpl.
  destruct (groupby_sum_total lt "vehicle_id" "lap_time_seconds" Hns) as [totals Ht].
  rewrite Ht. simpl. rewrite Hrm. simpl. rewrite Htl. simpl.
  destruct (join_left totals tl) as [joined|e] eqn:Hj.
  2: { unfold join_left in Hj. by destruct (name tl). }
  simpl.
  unfold numeric_positions in Hnum.
  destruct (real_position_of res) as [rp|e]; [|discriminate]. simpl.
  pose proof (groupby_sum_Ok _ _ _ _ Ht) as [Hkeys _].
  pose proof (join_left_Ok _ _ _ Hj) as [Hjk _].
  destruct (traverse_total (λ ir : nat * TimeRow, rank_row rp ir.1 ir.2)
              (imap (λ i r, (i, r)) (sort_values (map fill_and_adjust joined)))) as [rs Hrs].
  - intros [i t] Hin. apply list_elem_of_lookup in Hin as [n Hn].
    apply list_lookup_imap_Some in Hn as (t' & Ht' & [= -> ->]). simpl.
    assert (Hkey : tr_vehicle t' ∈ group_keys lt "vehicle_id").
    { rewrite <-Hkeys, <-Hjk, <-(map_map fill_and_adjust tr_vehicle).
      apply list_elem_of_fmap. exists t'. split; [done|].
      rewrite <-(Hperm (map fill_and_adjust joined)). by eapply list_elem_of_lookup_2. }
    rewrite forallb_forall in Hnum.
    apply list_elem_of_In in Hkey. specialize (Hnum _ Hkey).
    unfold rank_row.
    destruct (pv_sub_numeric (rp (tr_vehicle t')) (inject_Z (Z.of_nat (S n))) Hnum)
      as [c ->].
    simpl. eauto.
  - rewrite Hrs. simpl. eauto.
Qed.

(** ** No removal filter (C9) *)

(** Numeric positions: the header of a results table that gives
    positions names the vehicle once. *)
Lemma numeric_positions_name_vehicle_once (res lap_times : DataFrame) :
  numeric_positions (Some res) lap_times = true →
  df_empty res = false → normalized_columns res "POSITION" ≠ [] →
  (length (normalized_columns res "VEHICLE") ≤ 1)%nat.
Proof.
  unfold numeric_positions, real_position_of. intros H He Hp.
  rewrite He in H. cbn [negb] in H.
  destruct (normalized_columns res "VEHICLE") as [|v [|v' vs]]; cbn [length]; [lia..|].
  by destruct (normalized_columns res "POSITION").
Qed.

(** C9.  Called without a removal filter on a table of detected events
    (not empty, with the columns [vehicle_id] and [time_loss_estimate]),
    with lap times that can be summed and results that name the
    vehicle once at most and hold no text among the positions of the
    ranked vehicles, the simulator returns one row per vehicle with a
    lap-time total, and in it [total_event_loss] is the sum of
    [time_loss_estimate] over ALL events of that vehicle, subtracted
    from the real total time. *)
Theorem no_filter_removes_every_event
    (sort_values : list TimeRow → list TimeRow)
    (lap_times event_detection : DataFrame) (results_df : option DataFrame) :
  sort_contract sort_values →
  has_column lap_times "vehicle_id" = true →
  has_column lap_times "lap_time_seconds" = true →
  no_string lap_times "lap_time_seconds" = true →
  df_empty event_detection = false →
  has_column event_detection "vehicle_id" = true →
  has_column event_detection "time_loss_estimate" = true →
  no_string event_detection "time_loss_estimate" = true →
  numeric_positions results_df lap_times = true →
  ∃ rs,
    simulate_no_events sort_values lap_times event_detection None results_df = Ok (Table rs) ∧
    map sr_vehicle_id rs ≡ₚ group_keys lap_times "vehicle_id" ∧
    ∀ r, r ∈ rs → ∃ real loss,
      nansum (map (λ x, get x "lap_time_seconds")
                  (group_rows lap_times "vehicle_id" (sr_vehicle_id r))) = Ok real ∧
      nansum (map (λ x, get x "time_loss_estimate")
                  (group_rows event_detection "vehicle_id" (sr_vehicle_id r))) = Ok loss ∧
      sr_real_total_time r = real ∧
      sr_total_event_loss r = loss ∧
      sr_adj_total_time r = (real - loss)%Q.
Proof.
  intros Hsort Hv Hl Hns He Hev Hetl Hens Hnum.
  assert (Hrm : events_removed event_detection None = Ok event_detection).
  { unfold events_removed. by rewrite He. }
  destruct (groupby_sum_total event_detection "vehicle_id" "time_loss_estimate" Hens)
    as [its Hits].
  assert (Htl : event_losses event_detection
                = Ok (mkSeries (Some "total_event_loss") its)).
  { unfold event_losses. rewrite He, Hev, Hetl. simpl. by rewrite Hits. }
  destruct (simulate_total sort_values lap_times event_detection None results_df
              _ _ Hsort Hv Hl Hns Hrm Htl ltac:(done) Hnum) as [rs Hrs].
  exists rs. split; [done|].
  destruct (simulate_rows _ Hsort _ _ _ _ _ Hrs)
    as (removed & tl & Hrm' & Htl' & Hname & Hveh & Hrows).
  rewrite Hrm in Hrm'. injection Hrm' as <-.
  rewrite Htl in Htl'. injection Htl' as <-.
  split; [done|]. intros r Hr.
  destruct (Hrows r Hr) as (Hna & Hreal & Hloss & Hadj & _).
  pose proof (event_losses_find _ _ (sr_vehicle_id r) Htl Hname Hna) as Hfind.
  unfold loss_column in Hfind. rewrite Hetl in Hfind.
  exists (sr_real_total_time r), (sr_total_event_loss r).
  rewrite Hloss at 1. by rewrite Hfind.
Qed.

Lemma no_filter_removes_every_event_witness :
  ∃ rs,
    simulate_no_events stable_sort_values race_laps race_events None (Some race_results)
      = Ok (Table rs) ∧
    map sr_vehicle_id rs ≡ₚ group_keys race_laps "vehicle_id" ∧
    ∀ r, r ∈ rs → ∃ real loss,
      nansum (map (λ x, get x "lap_time_seconds")
                  (group_rows race_laps "vehicle_id" (sr_vehicle_id r))) = Ok real ∧
      nansum (map (λ x, get x "time_loss_estimate")
                  (group_rows race_events "vehicle_id" (sr_vehicle_id r))) = Ok loss ∧
      sr_real_total_time r = real ∧
      sr_total_event_loss r = loss ∧
      sr_adj_total_time r = (real - loss)%Q.
Proof.
  apply (no_filter_removes_every_event stable_sort_values race_laps race_events
           (Some race_results)).
  - apply stable_sort_values_contract.
  - reflexivity.
  - reflexivity.
  - reflexivity.
  - reflexivity.
  - reflexivity.
  - reflexivity.
  - reflexivity.
  - vm_compute; reflexivity.
Defined.

(** Both of C's events are subtracted: 200 - (1 + 2). *)
Example no_filter_on_the_race :
  simulate_no_events stable_sort_values race_laps race_events None None
  = Ok (Table [mkScenarioRow (Str "A") 100 0 (100 - 0) 1 NaN NaN;
               mkScenarioRow (Str "B") 100 0 (100 - 0) 2 NaN NaN;
               mkScenarioRow (Str "C") 200 (1 + (2 + 0)) (200 - (1 + (2 + 0))) 3 NaN NaN]).
Proof. vm_compute. reflexivity. Qed.

(** Results whose header names the vehicle twice make the simulator
    raise TypeError (a series cannot be a key of the position dict);
    results that name the position twice give positions that are
    series. *)
Example twice_named_vehicle_raises :
  simulate_no_events stable_sort_values race_laps race_events None
    (Some results_naming_vehicle_twice) = Raise TypeError ∧
  numeric_positions (Some results_naming_vehicle_twice) race_laps = false.
Proof. split; vm_compute; reflexivity. Qed.

Example twice_named_position_gives_series :
  ∃ rs, simulate_no_events stable_sort_values race_laps race_events None
          (Some results_naming_position_twice) = Ok (Table rs) ∧
    map sr_vehicle_id rs = [Str "A"; Str "B"; Str "C"] ∧
    map sr_real_position rs
    = [Column [Num 2; Num 2]; Column [Num 1; Num 1]; Column [Num 3; Num 3]].
Proof. eexists. split; [vm_compute; reflexivity|]. split; reflexivity. Qed.

(** ** Vehicles without a removed event *)

(** In every result of the simulator, a vehicle none of whose events is
    among the removed ones has loss 0 and keeps its real total time
    (the sum of its lap times), and a vehicle with a known real
    position [p] has position change [p - adj_position]: 0 exactly
    when the supplied real position is its rank. *)
Lemma vehicle_without_removed_event_keeps_time
    (sort_values : list TimeRow → list TimeRow)
    (lap_times event_detection : DataFrame)
    (events_to_remove results_df : option DataFrame)
    (removed : DataFrame) (rs : list ScenarioRow) :
  sort_contract sort_values →
  simulate_no_events sort_values lap_times event_detection events_to_remove results_df
    = Ok (Table rs) →
  events_removed event_detection events_to_remove = Ok removed →
  ∀ r, r ∈ rs →
    nansum (map (λ x, get x "lap_time_seconds")
                (group_rows lap_times "vehicle_id" (sr_vehicle_id r)))
      = Ok (sr_real_total_time r) ∧
    (group_rows removed "vehicle_id" (sr_vehicle_id r) = [] →
       sr_total_event_loss r = 0%Q ∧
       (sr_adj_total_time r == sr_real_total_time r)%Q) ∧
    (∀ p, sr_real_position r = Num p →
       ∃ c, sr_position_change r = Num c ∧
            (c == p - inject_Z (Z.of_nat (sr_adj_position r)))%Q ∧
            (c == 0 ↔ p == inject_Z (Z.of_nat (sr_adj_position r)))%Q).
Proof.
  intros Hsort Hsim Hrm r Hr.
  destruct (simulate_rows _ Hsort _ _ _ _ _ Hsim)
    as (removed' & tl & Hrm' & Htl & Hname & _ & Hrows).
  rewrite Hrm in Hrm'. injection Hrm' as <-.
  destruct (Hrows r Hr) as (Hna & Hreal & Hloss & Hadj & _ & Hch).
  split; [done|]. split.
  - intros Hnone.
    assert (Hzero : sr_total_event_loss r = 0%Q).
    { rewrite Hloss.
      pose proof (event_losses_find _ _ (sr_vehicle_id r) Htl Hname Hna) as Hfind.
      destruct (loss_column removed).
      - rewrite Hnone in Hfind. simpl in Hfind. by injection Hfind as <-.
      - by rewrite Hfind. }
    split; [done|]. rewrite Hadj, Hzero. ring.
  - intros p Hp. rewrite Hp in Hch. apply pv_sub_Num in Hch as ->.
    eexists. split; [done|]. split; [reflexivity|]. split; intros H; lra.
Qed.

Lemma vehicle_without_removed_event_keeps_time_witness :
  let r := mkScenarioRow (Str "A") 100 0 (100 - 0) 1 (Num (inject_Z 2))
                         (Num (inject_Z 2 - inject_Z (Z.of_nat 1))) in
  nansum (map (λ x, get x "lap_time_seconds")
              (group_rows race_laps "vehicle_id" (sr_vehicle_id r)))
    = Ok (sr_real_total_time r) ∧
  (group_rows race_events "vehicle_id" (sr_vehicle_id r) = [] →
     sr_total_event_loss r = 0%Q ∧
     (sr_adj_total_time r == sr_real_total_time r)%Q) ∧
  (∀ p, sr_real_position r = Num p →
     ∃ c, sr_position_change r = Num c ∧
          (c == p - inject_Z (Z.of_nat (sr_adj_position r)))%Q ∧
          (c == 0 ↔ p == inject_Z (Z.of_nat (sr_adj_position r)))%Q).
Proof.
  intros r.
  eapply (vehicle_without_removed_event_keeps_time stable_sort_values race_laps
            race_events None (Some race_results) race_events).
  - apply stable_sort_values_contract.
  - vm_compute; reflexivity.
  - reflexivity.
  - left.
Defined.

(** Where the filter names only Z, which has no lap record, nothing is
    subtracted from any ranked vehicle and the real times are kept; A,
    officially second and first on time, has position change 1. *)
Example filter_on_a_vehicle_without_laps :
  simulate_no_events stable_sort_values race_laps events_with_stranger
    (Some (filter_events_for_removal events_with_stranger (Some "Z") None None))
    (Some race_results)
  = Ok (Table [mkScenarioRow (Str "A") (100 + 0) 0 (100 + 0 - 0) 1
                 (Num (inject_Z 2)) (Num (inject_Z 2 - inject_Z 1));
               mkScenarioRow (Str "B") (100 + 0) 0 (100 + 0 - 0) 2
                 (Num (inject_Z 1)) (Num (inject_Z 1 - inject_Z 2));
               mkScenarioRow (Str "C") (200 + 0) 0 (200 + 0 - 0) 3
                 (Num (inject_Z 3)) (Num (inject_Z 3 - inject_Z 3))]).
Proof. vm_compute. reflexivity. Qed.

(** ** An empty removal filter (C2) *)

Lemma event_losses_unnamed (ev : DataFrame) :
  df_empty ev = true ∨ has_column ev "vehicle_id" = false →
  event_losses ev = Ok (mkSeries None []).
Proof.
  unfold event_losses. intros [->| ->]; [done|]. by rewrite andb_false_r.
Qed.

Lemma simulate_raises_unnamed (sort_values : list TimeRow → list TimeRow)
    lt ed rm res removed :
  has_column lt "vehicle_id" = true → has_column lt "lap_time_seconds" = true →
  no_string lt "lap_time_seconds" = true →
  events_removed ed rm = Ok removed →
  df_empty removed = true ∨ has_column removed "vehicle_id" = false →
  simulate_no_events sort_values lt ed rm res = Raise ValueError.
Proof.
  intros Hv Hl Hns Hrm Hno. unfold simulate_no_events. rewrite Hv, Hl. simpl.
  destruct (groupby_sum_total lt "vehicle_id" "lap_time_seconds" Hns) as [totals ->].
  simpl. rewrite Hrm. simpl. by rewrite (event_losses_unnamed _ Hno).
Qed.

Lemma bind_no_rows {A B C : Type} (l : list A) (f : A → B → list C) :
  (x ← l; y ← []; f x y) = [].
Proof. induction l as [|x l IH]; [done|]. by rewrite bind_cons, IH. Qed.

Lemma merge_inner_no_rows (left right removed : DataFrame) (on : list string) :
  rows right = [] → merge_inner left right on = Ok removed → df_empty removed = true.
Proof.
  intros Hrows. unfold merge_inner.
  destruct (negb _); [discriminate|]. destruct on as [|k on]; [discriminate|].
  intros [= <-]. unfold df_empty. cbn [columns rows]. rewrite Hrows.
  rewrite bind_no_rows. by destruct (_ ++ _)%list.
Qed.

(** A removal filter without a row leaves no event. *)
Lemma events_removed_empty_filter (ed rm removed : DataFrame) :
  rows rm = [] → events_removed ed (Some rm) = Ok removed → df_empty removed = true.
Proof.
  intros Hrows. unfold events_removed.
  destruct (df_empty ed) eqn:He; cbn [negb].
  { cbn. by intros [= <-]. }
  rewrite He. cbn [negb].
  destruct (has_column rm "event_id"); apply merge_inner_no_rows; [|done].
  unfold project. cbn [rows]. by rewrite Hrows.
Qed.

(** A filter with the columns of the events table can be merged. *)
Lemma events_removed_selection (ed rm : DataFrame) :
  columns rm = columns ed → ∃ removed, events_removed ed (Some rm) = Ok removed.
Proof.
  intros Hcols. unfold events_removed.
  destruct (df_empty ed) eqn:He; cbn [negb]; [cbn; eauto|].
  rewrite He. cbn [negb].
  destruct (has_column rm "event_id") eqn:Hid.
  - unfold merge_inner. cbn [forallb]. unfold has_column at 1 2. cbn [project columns].
    unfold has_column in Hid. rewrite Hcols in Hid. rewrite Hid.
    rewrite (bool_decide_eq_true_2 ("event_id" ∈ ["event_id"])) by (by left).
    cbn. eauto.
  - set (on := List.filter _ (columns ed)).
    assert (Hon : on = columns ed).
    { unfold on. rewrite Hcols. apply forallb_filter_id, forallb_forall. intros c Hc.
      by apply bool_decide_eq_true, list_elem_of_In. }
    rewrite Hon. unfold merge_inner.
    assert (Hl : forallb (has_column ed) (columns ed) = true).
    { apply forallb_forall. intros c Hc.
      by apply bool_decide_eq_true, list_elem_of_In. }
    assert (Hr : forallb (has_column rm) (columns ed) = true).
    { apply forallb_forall. intros c Hc. unfold has_column. rewrite Hcols.
      by apply bool_decide_eq_true, list_elem_of_In. }
    rewrite Hl, Hr. cbn [andb negb].
    unfold df_empty in He. destruct (columns ed); [done|]. eauto.
Qed.

(** C2.  With an empty removal filter the simulator does not return
    the real times; it returns nothing.  For every lap-times table,
    every table of detected events, every results table and every
    removal filter without a row, the call yields no table of
    standings, so the idempotence law holds on no input.  Where the
    lap times can be summed and the filter has the columns of the
    events table (as every selection [filter_events_for_removal]
    makes), the call raises ValueError: no event is left after the
    merge, the series of losses is built without a name
    ([pd.Series(dtype=float)]), and [join] refuses a series without a
    name, before [fillna] can put the loss 0 the law expects. *)
Theorem empty_removal_filter_raises
    (sort_values : list TimeRow → list TimeRow)
    (lap_times event_detection empty_filter : DataFrame)
    (results_df : option DataFrame) :
  rows empty_filter = [] →
  (∀ rs, simulate_no_events sort_values lap_times event_detection (Some empty_filter)
           results_df ≠ Ok (Table rs)) ∧
  ¬ idempotent_on sort_values lap_times event_detection empty_filter results_df ∧
  (has_column lap_times "vehicle_id" = true →
   has_column lap_times "lap_time_seconds" = true →
   no_string lap_times "lap_time_seconds" = true →
   columns empty_filter = columns event_detection →
   simulate_no_events sort_values lap_times event_detection (Some empty_filter) results_df
   = Raise ValueError).
Proof.
  intros Hrows.
  assert (Hnone : ∀ rs, simulate_no_events sort_values lap_times event_detection
                          (Some empty_filter) results_df ≠ Ok (Table rs)).
  { intros rs Hsim.
    apply simulate_Ok in Hsim
      as (totals & removed & tl & joined & rp & _ & Hrm & Htl & Hj & _).
    assert (Hname : name tl ≠ None).
    { unfold join_left in Hj. by destruct (name tl). }
    apply (event_losses_named _ _ Htl) in Hname as [He _].
    by rewrite (events_removed_empty_filter _ _ _ Hrows Hrm) in He. }
  split; [done|]. split.
  - intros (rs & Hrs & _). by apply (Hnone rs).
  - intros Hv Hl Hns Hcols.
    destruct (events_removed_selection event_detection empty_filter Hcols)
      as [removed Hrm].
    apply (simulate_raises_unnamed _ _ _ _ _ removed); try done.
    left. by apply (events_removed_empty_filter _ _ _ Hrows Hrm).
Qed.

Lemma empty_removal_filter_raises_witness :
  let empty_filter := filter_events_for_removal race_events None (Some "missed_shift") None in
  (∀ rs, simulate_no_events stable_sort_values race_laps race_events (Some empty_filter)
           (Some race_results) ≠ Ok (Table rs)) ∧
  ¬ idempotent_on stable_sort_values race_laps race_events empty_filter (Some race_results) ∧
  simulate_no_events stable_sort_values race_laps race_events (Some empty_filter)
    (Some race_results) = Raise ValueError.
Proof.
  intros empty_filter.
  destruct (empty_removal_filter_raises stable_sort_values race_laps race_events
              empty_filter (Some race_results)) as (Hnone & Hlaw & Hraise).
  - vm_compute; reflexivity.
  - split; [exact Hnone|]. split; [exact Hlaw|].
    apply Hraise; vm_compute; reflexivity.
Defined.

(** ** Criteria on absent columns (C10) *)

Lemma select_eq_columns (df : DataFrame) (c v : string) (c' : string) :
  has_column (select_eq df c v) c' = has_column df c'.
Proof. done. Qed.

(** C10.  A criterion whose column the events table lacks is ignored:
    without a [role] column any role argument gives the result of no
    role argument, and likewise for [vehicle_id] and [event_type]. *)
Theorem absent_column_criterion_is_ignored
    (event_detection : DataFrame) (vehicle_id event_type role : option string) :
  (has_column event_detection "role" = false →
     filter_events_for_removal event_detection vehicle_id event_type role
     = filter_events_for_removal event_detection vehicle_id event_type None) ∧
  (has_column event_detection "vehicle_id" = false →
     filter_events_for_removal event_detection vehicle_id event_type role
     = filter_events_for_removal event_detection None event_type role) ∧
  (has_column event_detection "event_type" = false →
     filter_events_for_removal event_detection vehicle_id event_type role
     = filter_events_for_removal event_detection vehicle_id None role).
Proof.
  unfold filter_events_for_removal, has_column.
  split; [|split]; intros H.
  - destruct role as [r|]; [|reflexivity].
    destruct vehicle_id as [v|], event_type as [t|];
      try destruct (bool_decide ("vehicle_id" ∈ columns event_detection));
      cbn [columns select_eq];
      try destruct (bool_decide ("event_type" ∈ columns event_detection));
      cbn [columns select_eq]; rewrite H; reflexivity.
  - destruct vehicle_id as [v|]; [|reflexivity]. rewrite H. reflexivity.
  - destruct event_type as [t|]; [|reflexivity].
    destruct vehicle_id as [v|];
      [destruct (bool_decide ("vehicle_id" ∈ columns event_detection))|];
      cbn [columns select_eq]; rewrite H; reflexivity.
Qed.

Lemma absent_column_criterion_is_ignored_witness :
  filter_events_for_removal race_events (Some "C") None (Some "major_mistake")
  = filter_events_for_removal race_events (Some "C") None None ∧
  filter_events_for_removal bare_events (Some "C") (Some "lockup") None = bare_events.
Proof.
  split.
  - apply (proj1 (absent_column_criterion_is_ignored race_events (Some "C") None
                    (Some "major_mistake"))). reflexivity.
  - etransitivity.
    + apply (proj1 (proj2 (absent_column_criterion_is_ignored bare_events (Some "C")
                             (Some "lockup") None))).
      reflexivity.
    + apply (proj2 (proj2 (absent_column_criterion_is_ignored bare_events None
                             (Some "lockup") None))).
      reflexivity.
Defined.

(** ** The comparator (C8) *)

Lemma filter_map_comm {A B : Type} (f : B → bool) (g : A → B) (l : list A) :
  List.filter f (map g l) = map g (List.filter (λ x, f (g x)) l).
Proof.
  induction l as [|x l IH]; simpl; [done|]. destruct (f (g x)); simpl; by rewrite IH.
Qed.

Lemma filter_head_find {A : Type} (f : A → bool) (l : list A) :
  List.find f l = head (List.filter f l).
Proof. induction l as [|x l IH]; simpl; [done|]. by destruct (f x). Qed.

Lemma py_int_of_nat (n : nat) : py_int (Num (inject_Z (Z.of_nat n))) = Ok (Z.of_nat n).
Proof. simpl. by rewrite Z.quot_1_r. Qed.

Lemma scenario_entry_of_result (s : SimResult) (d : string) :
  match projected_entry s d with
  | Some e => scenario_entry (to_frame s) d = Ok e
  | None => scenario_entry (to_frame s) d = Raise KeyError
            ∨ scenario_entry (to_frame s) d = Raise IndexError
  end.
Proof.
  destruct s as [|rs]; simpl; [by left|].
  unfold scenario_entry, select_eq. simpl.
  rewrite filter_map_comm, filter_head_find.
  rewrite (filter_ext (λ x : ScenarioRow, cell_eqb (get (row_to_map x) "vehicle_id") (Str d))
                      (λ r : ScenarioRow, cell_eqb (sr_vehicle_id r) (Str d)))
    by (intros r; by rewrite (proj1 (row_to_map_lookup r))).
  destruct (List.filter _ rs) as [|r rest]; cbn [head map]; [by right|].
  destruct (row_to_map_row_get r) as (-> & -> & ->).
  cbn [py_float mbind result_bind]. rewrite py_int_of_nat. done.
Qed.

Lemma projected_entry_includes (s : SimResult) (d : string) :
  is_Some (projected_entry s d) ↔ includes s d.
Proof.
  destruct s as [|rs]; simpl; [split; [by intros [? ?]|done]|].
  destruct (List.find _ rs) as [r|] eqn:Hf; split.
  - intros _. apply find_some in Hf as [Hin Heq]. exists r.
    split; [by apply list_elem_of_In | by apply cell_eqb_Str].
  - eauto.
  - by intros [? ?].
  - intros (r & Hin & Hv). apply list_elem_of_In in Hin.
    pose proof (find_none _ _ Hf r Hin) as Hn. simpl in Hn.
    by rewrite (proj2 (cell_eqb_Str _ _) Hv) in Hn.
Qed.

Lemma compare_loop_results (items : list (string * SimResult)) (d : string)
    (acc : gmap string ScenarioEntry) :
  NoDup items.*1 →
  ∃ out, compare_loop (prod_map id to_frame <$> items) d acc = Ok out ∧
    (∀ s sr, (s, sr) ∈ items →
       out !! s = match projected_entry sr d with Some e => Some e | None => acc !! s end) ∧
    (∀ s, s ∉ items.*1 → out !! s = acc !! s).
Proof.
  revert acc. induction items as [|[s0 sr0] items IH]; intros acc Hnd.
  - exists acc. split; [done|]. split; [by intros s sr ?%elem_of_nil | done].
  - apply NoDup_cons in Hnd as [Hs0 Hnd].
    change (compare_loop (prod_map id to_frame <$> (s0, sr0) :: items) d acc)
      with (match scenario_entry (to_frame sr0) d with
            | Ok e => compare_loop (prod_map id to_frame <$> items) d (<[s0:=e]> acc)
            | Raise IndexError | Raise KeyError | Raise ValueError =>
                compare_loop (prod_map id to_frame <$> items) d acc
            | Raise e => Raise e
            end).
    pose proof (scenario_entry_of_result sr0 d) as Hentry.
    destruct (projected_entry sr0 d) as [e|] eqn:Hp.
    + rewrite Hentry.
      destruct (IH (<[s0:=e]> acc) Hnd) as (out & Hout & Hin & Hnotin).
      exists out. split; [done|]. split.
      * intros s sr [[= -> ->]|Hel]%elem_of_cons.
        -- rewrite Hp, (Hnotin s0 Hs0). apply lookup_insert_eq.
        -- rewrite (Hin s sr Hel). destruct (projected_entry sr d); [done|].
           apply lookup_insert_ne. intros ->. apply Hs0.
           apply list_elem_of_fmap. by exists (s, sr).
      * intros s Hs. apply not_elem_of_cons in Hs as [Hne Hs].
        rewrite (Hnotin s Hs). by apply lookup_insert_ne.
    + assert (Hskip : match scenario_entry (to_frame sr0) d with
                      | Ok e => compare_loop (prod_map id to_frame <$> items) d (<[s0:=e]> acc)
                      | Raise IndexError | Raise KeyError | Raise ValueError =>
                          compare_loop (prod_map id to_frame <$> items) d acc
                      | Raise e => Raise e
                      end = compare_loop (prod_map id to_frame <$> items) d acc).
      { by destruct Hentry as [-> | ->]. }
      rewrite Hskip.
      destruct (IH acc Hnd) as (out & Hout & Hin & Hnotin).
      exists out. split; [done|]. split.
      * intros s sr [[= -> ->]|Hel]%elem_of_cons; [|by apply Hin].
        rewrite Hp. by apply Hnotin.
      * intros s Hs. apply not_elem_of_cons in Hs as [Hne Hs]. by apply Hnotin.
Qed.

(** C8.  On simulator results the comparator returns, and its output
    has an entry for a scenario exactly when that scenario's result
    includes the vehicle; the entry is the projection of the result on
    the vehicle.  A scenario without the vehicle is left out. *)
Theorem comparator_keeps_scenarios_with_vehicle
    (scenarios : gmap string SimResult) (driver_id : string) :
  ∃ comparison,
    compare_scenarios (to_frame <$> scenarios) driver_id = Ok (driver_id, comparison) ∧
    (∀ s, comparison !! s = scenarios !! s ≫= λ sr, projected_entry sr driver_id) ∧
    (∀ s, is_Some (comparison !! s) ↔
          ∃ sr, scenarios !! s = Some sr ∧ includes sr driver_id).
Proof.
  unfold compare_scenarios. rewrite map_to_list_fmap.
  destruct (compare_loop_results (map_to_list scenarios) driver_id ∅
              (NoDup_fst_map_to_list scenarios)) as (out & Hout & Hin & Hnotin).
  exists out. rewrite Hout. split; [done|].
  assert (Heq : ∀ s, out !! s = scenarios !! s ≫= λ sr, projected_entry sr driver_id).
  { intros s. destruct (scenarios !! s) as [sr|] eqn:Hs; simpl.
    - rewrite (Hin s sr) by (by apply elem_of_map_to_list).
      by destruct (projected_entry sr driver_id).
    - rewrite Hnotin; [done|].
      intros ([s' sr] & -> & Hel)%list_elem_of_fmap.
      apply elem_of_map_to_list in Hel. simpl in Hs. congruence. }
  split; [done|]. intros s. rewrite Heq.
  destruct (scenarios !! s) as [sr|]; simpl.
  - rewrite projected_entry_includes. split; [eauto|]. by intros (? & [= <-] & ?).
  - split; [by intros [? ?] | by intros (? & ? & _)].
Qed.

(** ** The event catalog (C6) *)

Lemma Qle_bool_false (p q : Q) : Qle_bool p q = false ↔ (q < p)%Q.
Proof.
  destruct (Qle_bool p q) eqn:E.
  - apply Qle_bool_iff in E. split; [discriminate | lra].
  - split; [|done]. intros _.
    assert (¬ (p <= q)%Q) by (rewrite <-Qle_bool_iff; congruence). lra.
Qed.

Lemma desc_lt_Some (p q : Q) : desc_lt (Some p) (Some q) = true ↔ (q < p)%Q.
Proof. simpl. rewrite negb_true_iff. apply Qle_bool_false. Qed.

Lemma desc_lt_trans (x y z : option Q) :
  desc_lt x y = true → desc_lt y z = true → desc_lt x z = true.
Proof.
  destruct x as [p|], y as [q|], z as [r|]; try done.
  rewrite !desc_lt_Some. lra.
Qed.

Lemma desc_lt_negtrans (x y z : option Q) :
  desc_lt x y = false → desc_lt y z = false → desc_lt x z = false.
Proof.
  destruct x as [p|], y as [q|], z as [r|]; try done.
  rewrite <-!not_true_iff_false, !desc_lt_Some. lra.
Qed.

Lemma desc_lt_asym (x y : option Q) : desc_lt x y = true → desc_lt y x = false.
Proof.
  destruct x as [p|], y as [q|]; try done.
  rewrite <-not_true_iff_false, !desc_lt_Some. lra.
Qed.

(** What the order says: a higher severity first (NaN last); on equal
    severity a higher or equal time loss first. *)
Lemma key_before_spec (a b : gmap string cell) :
  key_before a b = true ↔
  let s1 := key_value (get a "severity_score") in
  let s2 := key_value (get b "severity_score") in
  let t1 := key_value (get a "time_loss_estimate") in
  let t2 := key_value (get b "time_loss_estimate") in
  desc_lt s1 s2 = true ∨
  (desc_lt s1 s2 = false ∧ desc_lt s2 s1 = false ∧ desc_lt t2 t1 = false).
Proof.
  unfold key_before. simpl.
  destruct (desc_lt (key_value (get a "severity_score")) _).
  { split; [by left | done]. }
  destruct (desc_lt (key_value (get b "severity_score")) _).
  { split; [done | by intros [?|(_ & ? & _)]]. }
  rewrite negb_true_iff. split; [by right | by intros [?|(_ & _ & ?)]].
Qed.

Lemma key_before_total (a b : gmap string cell) :
  key_before a b = false → key_before b a = true.
Proof.
  rewrite <-not_true_iff_false, !key_before_spec. simpl. intros H.
  destruct (desc_lt (key_value (get a "severity_score"))
                    (key_value (get b "severity_score"))) eqn:E1.
  { destruct H. by left. }
  destruct (desc_lt (key_value (get b "severity_score"))
                    (key_value (get a "severity_score"))) eqn:E2; [by left|].
  right. split; [done|]. split; [done|].
  destruct (desc_lt (key_value (get b "time_loss_estimate"))
                    (key_value (get a "time_loss_estimate"))) eqn:E3.
  - by apply desc_lt_asym.
  - destruct H. by right.
Qed.

Lemma key_before_trans (a b c : gmap string cell) :
  key_before a b = true → key_before b c = true → key_before a c = true.
Proof.
  rewrite !key_before_spec. simpl.
  set (s1 := key_value (get a "severity_score")).
  set (s2 := key_value (get b "severity_score")).
  set (s3 := key_value (get c "severity_score")).
  set (t1 := key_value (get a "time_loss_estimate")).
  set (t2 := key_value (get b "time_loss_estimate")).
  set (t3 := key_value (get c "time_loss_estimate")).
  intros [H1|(H1 & H1' & H1'')] [H2|(H2 & H2' & H2'')].
  - left. by apply (desc_lt_trans s1 s2 s3).
  - left. destruct (desc_lt s1 s3) eqn:E; [done|].
    by rewrite (desc_lt_negtrans s1 s3 s2) in H1.
  - left. destruct (desc_lt s1 s3) eqn:E; [done|].
    by rewrite (desc_lt_negtrans s2 s1 s3) in H2.
  - right. split; [by apply (desc_lt_negtrans s1 s2 s3)|].
    split; [by apply (desc_lt_negtrans s3 s2 s1) | by apply (desc_lt_negtrans t3 t2 t1)].
Qed.

Lemma event_to_object_total (events : DataFrame) (r : gmap string cell) :
  catalog_columns_numeric events = true → r ∈ rows events →
  ∃ o, event_to_object r = Ok o.
Proof.
  intros Hnum Hr. unfold catalog_columns_numeric in Hnum.
  apply andb_true_iff in Hnum as [_ Hnum]. rewrite forallb_forall in Hnum.
  assert (Hcell : ∀ k, In k ["severity_score"; "time_loss_estimate"; "lap";
                               "steering_correction_deg"; "latG_spike"; "speed_loss";
                               "rpm_drop"] →
                       ∀ s, r !! k ≠ Some (Str s)).
  { intros k Hk s Hs. specialize (Hnum k Hk). unfold no_string in Hnum.
    rewrite forallb_forall in Hnum. apply list_elem_of_In in Hr.
    specialize (Hnum r Hr). unfold get in Hnum. by rewrite Hs in Hnum. }
  assert (Hfloat : ∀ k, In k ["severity_score"; "time_loss_estimate"; "lap";
                                "steering_correction_deg"; "latG_spike"; "speed_loss";
                                "rpm_drop"] →
                        ∃ v, float_if_notna (r !! k) = Ok v).
  { intros k Hk. specialize (Hcell k Hk).
    destruct (r !! k) as [[s|q|]|]; simpl; eauto. by destruct (Hcell s). }
  assert (Hmetric : ∀ k, In k ["severity_score"; "time_loss_estimate"; "lap";
                                 "steering_correction_deg"; "latG_spike"; "speed_loss";
                                 "rpm_drop"] →
                         ∃ m, metric r k = Ok m).
  { intros k Hk. unfold metric. destruct (Hfloat k Hk) as [[q|] ->]; simpl; eauto. }
  unfold event_to_object.
  destruct (Hmetric "steering_correction_deg") as [m1 ->]; [simpl; tauto|].
  destruct (Hmetric "latG_spike") as [m2 ->]; [simpl; tauto|].
  destruct (Hmetric "speed_loss") as [m3 ->]; [simpl; tauto|].
  destruct (Hmetric "rpm_drop") as [m4 ->]; [simpl; tauto|].
  destruct (Hfloat "severity_score") as [sv ->]; [simpl; tauto|].
  destruct (Hfloat "time_loss_estimate") as [tv ->]; [simpl; tauto|].
  assert (Hlap : ∃ z, int_if_notna (r !! "lap") = Ok z).
  { pose proof (Hcell "lap" ltac:(simpl; tauto)) as Hl.
    destruct (r !! "lap") as [[s|q|]|]; simpl; eauto. by destruct (Hl s). }
  destruct Hlap as [z ->]. simpl. eauto.
Qed.

Lemma traverse_with_role (role : string) (l : list (gmap string cell)) (objs : list EventObject) :
  traverse event_to_object l = Ok objs →
  traverse (λ r, em ← event_to_object r; Ok (with_role role em)) l
  = Ok (map (with_role role) objs).
Proof.
  revert objs. induction l as [|r l IH]; intros objs H; simpl in *.
  - by injection H as <-.
  - apply bind_Ok in H as (o & Ho & H). apply bind_Ok in H as (os & Hos & [= <-]).
    rewrite Ho. simpl. rewrite (IH os Hos). done.
Qed.

Lemma take_min_length {A : Type} (n : nat) (l : list A) :
  take (Nat.min n (length l)) l = take n l.
Proof.
  destruct (decide (n ≤ length l)%nat).
  - by rewrite Nat.min_l.
  - rewrite Nat.min_r by lia. rewrite !take_ge; [done|lia..].
Qed.

Lemma label_top_Ok (topn : list (gmap string cell)) (objs : list EventObject) :
  traverse event_to_object (take 4 topn) = Ok objs →
  label_top topn
  = Ok (imap (λ i o, with_role (match i with
                                | O => "race_turning_point"
                                | S _ => "major_mistake"
                                end) o) objs).
Proof.
  destruct topn as [|first rest].
  - simpl. by intros [= <-].
  - change (take 4 (first :: rest)) with (first :: take 3 rest).
    intros H. cbn [traverse] in H. apply bind_Ok in H as (tp & Htp & H).
    apply bind_Ok in H as (os & Hos & [= <-]).
    cbn [label_top]. rewrite Htp. cbn [mbind result_bind].
    replace (Nat.min 4 (length (first :: rest)) - 1)%nat with (Nat.min 3 (length rest))
      by (cbn [length]; lia).
    change (drop 1 (first :: rest)) with rest. rewrite take_min_length.
    rewrite (traverse_with_role "major_mistake" _ os Hos). cbn [mbind result_bind imap].
    do 2 f_equal. symmetry.
    etransitivity; [|apply (imap_const (with_role "major_mistake"))].
    by apply imap_ext.
Qed.







(** Of the seven detected events, e2 and e6 tie at the top and keep
    their order; four events are labelled. *)
Example key_events_of_the_race :
  map (λ o, (eo_severity o, eo_time_loss o, eo_role o)) <$$> race_key_events detected_events
  = Ok [(Some 1, Some 0.5, Some "race_turning_point");
        (Some 1, Some 0.5, Some "major_mistake");
        (Some 0.7, Some 4.5, Some "major_mistake");
        (Some 0.7, Some 1, Some "major_mistake")]%Q
  ∧ map (λ r, get r "event_id") <$$> sort_values_desc detected_events
  = Ok [Str "e2"; Str "e6"; Str "e4"; Str "e1"; Str "e3"; Str "e5"; Str "e7"].
Proof. split; vm_compute; reflexivity. Qed.

(** ** Lap-level rules *)


Lemma pace_collapse_rule_Some per_lap sorted i row ev :
  pace_collapse_rule per_lap sorted i row = Ok (Some ev) →
  (∃ rm, trailing_mean (prior_laps sorted i (get row "vehicle_id")) "lap_time_seconds"
         = Some rm) ∧
  event_type ev = pace_collapse ∧
  vehicle_id ev = get row "vehicle_id" ∧
  py_int (get row "lap") = Ok (lap ev) ∧
  severity_score ev = Num 0.7 ∧
  ∃ t, time_loss_estimate ev = Num t ∧ (0.5 <= t)%Q.
Proof.
  unfold pace_collapse_rule. intros H.
  apply bind_Ok in H as (lap_no & Hlap & H).
  apply bind_Ok in H as (ts & Hts & H).
  destruct (trailing_mean _ "lap_time_seconds") as [rm|] eqn:Hrm; [|discriminate].
  destruct (_ && _); [|discriminate].
  apply bind_Ok in H as (stamp & Hstamp & [= <-]). simpl.
  split; [eauto|]. repeat split; try done.
  destruct (key_value (get row "lap_time_seconds")) as [t|];
    eexists; (split; [reflexivity|]); [apply Q.le_max_l | lra].
Qed.

Lemma mean_nonneg (qs : list Q) : Forall (λ q, (0 <= q)%Q) qs → (0 <= mean qs)%Q.
Proof.
  intros H. unfold mean.
  assert (Hsum : (0 <= foldr Qplus 0 qs)%Q).
  { induction H as [|q qs Hq _ IH]; simpl; lra. }
  destruct qs as [|q qs]; [simpl; unfold Qdiv; rewrite Qmult_0_l; lra|].
  apply Qle_shift_div_l; [|lra].
  change 0%Q with (inject_Z 0). rewrite <-Zlt_Qlt. simpl length. lia.
Qed.

Lemma clipped_diffs_nonneg (prev : option Q) (ys : list (option Q)) :
  Forall (λ q, (0 <= q)%Q) (clipped_diffs prev ys).
Proof.
  revert prev. induction ys as [|y ys IH]; intros prev; simpl; constructor; [|apply IH].
  destruct (fsub y prev); [apply Q.le_max_l | lra].
Qed.

Lemma degradation_rule_Some polyfit_slope per_lap sorted vid ev :
  degradation_rule polyfit_slope per_lap sorted vid = Ok (Some ev) →
  event_type ev = degradation_phase ∧
  (3 ≤ length (List.filter (λ r, cell_eqb (get r "vehicle_id") vid) sorted))%nat ∧
  within_ranges ev.
Proof.
  unfold degradation_rule. intros H.
  destruct (length _ <? 3)%nat eqn:Hlen; [discriminate|].
  apply Nat.ltb_ge in Hlen.
  apply bind_Ok in H as (x & Hx & H).
  destruct (polyfit_slope x _) as [s|]; [|discriminate].
  destruct (polyfit_slope x _) as [ls|]; [|discriminate].
  destruct (negb (Qle_bool s 0.1) && _) eqn:Hcond; [|discriminate].
  apply andb_true_iff in Hcond as [Hs _]. apply negb_true_iff, Qle_bool_false in Hs.
  destruct (last _) as [last_row|]; [|discriminate].
  apply bind_Ok in H as (ts & Hts & H).
  apply bind_Ok in H as (stamp & Hstamp & H).
  apply bind_Ok in H as (lap_no & Hlap & [= <-]). simpl.
  split; [done|]. split; [done|].
  unfold within_ranges. simpl. eexists _, _. split; [done|]. split; [done|].
  split; [|split].
  - apply Q.min_glb; [lra|]. apply Qle_shift_div_l; lra.
  - apply Q.le_min_l.
  - apply mean_nonneg, Forall_drop, clipped_diffs_nonneg.
Qed.

Lemma elem_of_omap_id {A : Type} (l : list (option A)) (x : A) :
  x ∈ omap id l ↔ Some x ∈ l.
Proof.
  rewrite list_elem_of_omap. split.
  - by intros ([y|] & Hy & [= <-]).
  - intros H. by exists (Some x).
Qed.

(** Every lap-level event comes from one of the two rules. *)
Lemma detect_lap_level_events_Ok polyfit_slope per_lap evs ev :
  detect_lap_level_events polyfit_slope per_lap = Ok evs → ev ∈ evs →
  let sorted := isort lap_order (rows per_lap) in
  (∃ i row, sorted !! i = Some row ∧
            pace_collapse_rule per_lap sorted i row = Ok (Some ev)) ∨
  (∃ vid, degradation_rule polyfit_slope per_lap sorted vid = Ok (Some ev)).
Proof.
  unfold detect_lap_level_events. intros H Hev.
  destruct (negb (has_column per_lap "vehicle_id" && _)); [discriminate|].
  destruct (negb (has_column per_lap "lap_time_seconds" && _ && _)); [discriminate|].
  destruct (negb (no_string per_lap "lap_time_seconds" && _ && _)); [discriminate|].
  apply bind_Ok in H as (pace & Hpace & H).
  apply bind_Ok in H as (degr & Hdegr & [= <-]).
  apply traverse_Ok in Hpace. apply traverse_Ok in Hdegr.
  apply elem_of_app in Hev as [Hev|Hev]; apply elem_of_omap_id in Hev;
    apply list_elem_of_lookup in Hev as [n Hn].
  - left. destruct (Forall2_lookup_r _ _ _ _ _ Hpace Hn) as ([i row] & Hl & Hrule).
    apply list_lookup_imap_Some in Hl as (row' & Hl & [= -> ->]). eauto.
  - right. destruct (Forall2_lookup_r _ _ _ _ _ Hdegr Hn) as (vid & _ & Hrule). eauto.
Qed.

(** ** Sample-level rules *)

Lemma Qle_bool_true (p q : Q) : Qle_bool p q = true ↔ (p <= q)%Q.
Proof. apply Qle_bool_iff. Qed.

(** Turn the boolean tests in the context into inequalities. *)
Ltac reflect_tests :=
  repeat match goal with
         | H : Qle_bool _ _ = true |- _ => apply Qle_bool_true in H
         | H : Qle_bool _ _ = false |- _ => apply Qle_bool_false in H
         | H : Qeq_bool _ _ = true |- _ => apply Qeq_bool_iff in H
         | H : Qeq_bool _ _ = false |- _ => apply Qeq_bool_neq in H
         end.

(** One step of evaluating a rule on a row whose cells are being
    analysed: a cell under a test is split into its three forms, a
    numeric test into its two outcomes. *)
Ltac rule_step :=
  cbn [mbind result_bind cell_sub cell_gt cell_lt cell_abs cell_div cell_add py_float
       min_one nanmean nansum notna or_zero andb negb List.filter length
       pbrake_f pbr_m2 speed speed_m1 speed_m3 accy_can accy_m3 Steering_Angle
       steer_m2 steer_m3 gear gear_m1 nmot nmot_m1];
  try (intros; discriminate);
  match goal with
  | |- context [notna ?c] => is_var c; destruct c
  | |- context [cell_sub ?c _] => is_var c; destruct c
  | |- context [cell_sub _ ?c] => is_var c; destruct c
  | |- context [match ?c with Str _ => _ | Num _ => _ | NaN => _ end] =>
      is_var c; destruct c
  | |- context [Qle_bool ?a ?b] => destruct (Qle_bool a b) eqn:?
  | |- context [Qeq_bool ?a ?b] => destruct (Qeq_bool a b) eqn:?
  | |- context [cell_eqb ?a ?b] => destruct (cell_eqb a b) eqn:?
  end.

Lemma within_ranges_record vid lap_no idx type (s t : Q) corr spike loss lat rpm text :
  (0 <= s)%Q ∧ (s <= 1)%Q ∧ (0 <= t)%Q →
  within_ranges (sample_event_record vid lap_no idx type (Num s) (Num t)
                   corr spike loss lat rpm text).
Proof. intros H. by exists s, t. Qed.

(** Close the arithmetic that remains: absolute values are only known
    to be non-negative. *)
Ltac bounds :=
  reflect_tests;
  change (inject_Z (Z.of_nat 3)) with 3%Q in *;
  repeat match goal with
         | |- context [Qabs ?x] =>
             let a := fresh "a" in
             pose proof (Qabs_nonneg x); set (a := Qabs x) in *; clearbody a
         | H : context [Qabs ?x] |- _ =>
             let a := fresh "a" in
             pose proof (Qabs_nonneg x); set (a := Qabs x) in *; clearbody a
         end;
  unfold Qdiv in *; cbn [Qinv Qnum Qden] in *;
  repeat split; lra.

#[local] Opaque Qabs.

Lemma lockup_rule_Some vid lap_no idx row_t ev :
  lockup_rule vid lap_no idx row_t = Ok (Some ev) →
  event_type ev = lockup ∧ within_ranges ev.
Proof.
  destruct row_t as [pf pm2 sp sp1 sp3 ac ac3 st st2 st3 g g1 n n1].
  unfold lockup_rule, lockup_condition.
  repeat rule_step.
  all: intros [= <-]; (split; [reflexivity|]).
  all: apply within_ranges_record; bounds.
Qed.

Lemma near_spin_rule_Some vid lap_no idx row_t ev :
  near_spin_rule vid lap_no idx row_t = Ok (Some ev) →
  event_type ev = near_spin ∧ within_ranges ev.
Proof.
  destruct row_t as [pf pm2 sp sp1 sp3 ac ac3 st st2 st3 g g1 n n1].
  unfold near_spin_rule, near_spin_condition.
  repeat rule_step.
  all: intros [= <-]; (split; [reflexivity|]).
  all: apply within_ranges_record; bounds.
Qed.

Lemma understeer_rule_Some vid lap_no idx row_t ev :
  understeer_rule vid lap_no idx row_t = Ok (Some ev) →
  event_type ev = understeer ∧ within_ranges ev.
Proof.
  destruct row_t as [pf pm2 sp sp1 sp3 ac ac3 st st2 st3 g g1 n n1].
  unfold understeer_rule, understeer_condition.
  repeat rule_step.
  all: intros [= <-]; (split; [reflexivity|]).
  all: apply within_ranges_record; bounds.
Qed.

Lemma missed_shift_rule_Some vid lap_no idx row_t ev :
  missed_shift_rule vid lap_no idx row_t = Ok (Some ev) →
  event_type ev = missed_shift ∧ within_ranges ev.
Proof.
  destruct row_t as [pf pm2 sp sp1 sp3 ac ac3 st st2 st3 g g1 n n1].
  unfold missed_shift_rule.
  repeat rule_step.
  all: intros [= <-]; (split; [reflexivity|]).
  all: apply within_ranges_record; bounds.
Qed.

Lemma attempt_Some (rule : View → result (option Event)) row_t ev :
  attempt rule row_t = Some ev ↔ ∃ v, row_t = Ok v ∧ rule v = Ok (Some ev).
Proof.
  unfold attempt. destruct row_t as [v|e]; simpl.
  - split.
    + destruct (rule v) as [[ev'|]|e] eqn:E; try discriminate.
      intros [= <-]. eauto.
    + intros (v' & [= <-] & H). by rewrite H.
  - split; [discriminate | by intros (? & ? & _)].
Qed.

(** An event of a sample comes from one of the four rules. *)
Lemma sample_rules_Some vid lap_no idx row_t ev :
  sample_rules vid lap_no idx row_t = Some ev →
  ∃ v, row_t = Ok v ∧
    (lockup_rule vid lap_no idx v = Ok (Some ev) ∨
     near_spin_rule vid lap_no idx v = Ok (Some ev) ∨
     understeer_rule vid lap_no idx v = Ok (Some ev) ∨
     missed_shift_rule vid lap_no idx v = Ok (Some ev)).
Proof.
  unfold sample_rules.
  destruct (attempt _ row_t) as [e1|] eqn:E1.
  { intros [= <-]. apply attempt_Some in E1 as (v & Hv & H).
    exists v. split; [done|]. by left. }
  destruct (attempt (near_spin_rule _ _ _) row_t) as [e2|] eqn:E2.
  { intros [= <-]. apply attempt_Some in E2 as (v & Hv & H).
    exists v. split; [done|]. right. by left. }
  destruct (attempt (understeer_rule _ _ _) row_t) as [e3|] eqn:E3.
  { intros [= <-]. apply attempt_Some in E3 as (v & Hv & H).
    exists v. split; [done|]. right. right. by left. }
  intros E4. apply attempt_Some in E4 as (v & Hv & H).
  exists v. split; [done|]. by do 3 right.
Qed.

Lemma sample_rules_within_ranges vid lap_no idx row_t ev :
  sample_rules vid lap_no idx row_t = Some ev → within_ranges ev.
Proof.
  intros (v & _ & [H|[H|[H|H]]])%sample_rules_Some.
  - by apply lockup_rule_Some in H as [_ ?].
  - by apply near_spin_rule_Some in H as [_ ?].
  - by apply understeer_rule_Some in H as [_ ?].
  - by apply missed_shift_rule_Some in H as [_ ?].
Qed.

Lemma elem_of_lap_sample_events vid lap_no df ev :
  ev ∈ lap_sample_events vid lap_no df ↔
  ∃ i, (3 ≤ i < length df)%nat ∧ sample_event vid lap_no df i = Some ev.
Proof.
  unfold lap_sample_events. rewrite list_elem_of_omap. split.
  - intros (i & Hi & Hev). apply elem_of_seq in Hi. exists i. split; [lia|done].
  - intros (i & Hi & Hev). exists i. split; [|done]. apply elem_of_seq. lia.
Qed.

Lemma detect_telemetry_events_Ok laps_dir sort_index per_lap evs ev :
  detect_telemetry_events laps_dir sort_index per_lap = Ok evs → ev ∈ evs →
  ∃ vid lap_no df i, (3 ≤ i < length df)%nat ∧ sample_event vid lap_no df i = Some ev.
Proof.
  unfold detect_telemetry_events. intros H Hev.
  apply bind_Ok in H as (per_row & Hrows & [= <-]).
  apply traverse_Ok in Hrows.
  apply list_elem_of_In, in_concat in Hev as (l & Hl & Hev).
  apply list_elem_of_In in Hl, Hev.
  apply list_elem_of_lookup in Hl as [n Hn].
  destruct (Forall2_lookup_r _ _ _ _ _ Hrows Hn) as (row & _ & Hrow).
  apply bind_Ok in Hrow as (vid & _ & Hrow).
  apply bind_Ok in Hrow as (lap_no & _ & Hrow).
  destruct (find_lap_file laps_dir vid lap_no) as [df|]; injection Hrow as <-.
  - apply elem_of_lap_sample_events in Hev as (i & Hi & Hi'). eauto 6.
  - by apply elem_of_nil in Hev.
Qed.

(** ** Ranges of severity and time loss (C5) *)

(** C5.  Every event of the lap-level detector and every event of the
    sample-level detector has 0 ≤ severity ≤ 1 and
    time_loss_estimate ≥ 0. *)
Theorem detected_events_within_ranges
    (polyfit_slope : list (option Q) → list (option Q) → option Q)
    (laps_dir : FilePattern → cell → Z → option Telemetry)
    (sort_index : Telemetry → Telemetry) (per_lap : DataFrame) :
  (∀ evs, detect_lap_level_events polyfit_slope per_lap = Ok evs →
          ∀ ev, ev ∈ evs → within_ranges ev) ∧
  (∀ evs, detect_telemetry_events laps_dir sort_index per_lap = Ok evs →
          ∀ ev, ev ∈ evs → within_ranges ev).
Proof.
  split; intros evs Hevs ev Hev.
  - destruct (detect_lap_level_events_Ok _ _ _ _ Hevs Hev) as [(i & row & _ & H)|(vid & H)].
    + apply pace_collapse_rule_Some in H as (_ & _ & _ & _ & Hs & t & Ht & Hle).
      exists 0.7%Q, t. repeat split; try done; lra.
    + by apply degradation_rule_Some in H as (_ & _ & ?).
  - destruct (detect_telemetry_events_Ok _ _ _ _ _ Hevs Hev) as (vid & lap_no & df & i & _ & H).
    unfold sample_event in H. case_match; [|done].
    by apply sample_rules_within_ranges in H.
Qed.

Lemma detected_events_within_ranges_witness :
  ∃ lap_events sample_events,
    detect_lap_level_events lstsq_slope four_laps = Ok lap_events ∧
    length lap_events = 2%nat ∧
    (∀ ev, ev ∈ lap_events → within_ranges ev) ∧
    detect_telemetry_events (only_file braking_with_G_drop) stable_sort_index one_lap_of_B
      = Ok sample_events ∧
    length sample_events = 1%nat ∧
    (∀ ev, ev ∈ sample_events → within_ranges ev).
Proof.
  eexists _, _.
  split; [vm_compute; reflexivity|]. split; [reflexivity|].
  split.
  { apply (proj1 (detected_events_within_ranges lstsq_slope
                    (only_file braking_with_G_drop) stable_sort_index four_laps)).
    vm_compute; reflexivity. }
  split; [vm_compute; reflexivity|]. split; [reflexivity|].
  apply (proj2 (detected_events_within_ranges lstsq_slope
                  (only_file braking_with_G_drop) stable_sort_index one_lap_of_B)).
  vm_compute; reflexivity.
Defined.

(** ** The lockup rule (C3) *)

Lemma lockup_rule_signature vid lap_no idx row_t ev :
  lockup_rule vid lap_no idx row_t = Ok (Some ev) →
  ∃ b b2 s3 s0 a3 a0,
    pbrake_f row_t = Num b ∧ pbr_m2 row_t = Num b2 ∧
    speed_m3 row_t = Num s3 ∧ speed row_t = Num s0 ∧
    accy_m3 row_t = Num a3 ∧ accy_can row_t = Num a0 ∧
    (10 < b - b2)%Q ∧ (6 < s3 - s0)%Q ∧ (0.3 < a3 - a0)%Q.
Proof.
  destruct row_t as [pf pm2 sp sp1 sp3 ac ac3 st st2 st3 g g1 n n1].
  unfold lockup_rule, lockup_condition.
  repeat rule_step.
  all: intros _; eexists _, _, _, _, _, _.
  all: do 6 (split; [reflexivity|]).
  all: reflect_tests; repeat split; lra.
Qed.

Lemma min_one_value (m m' v : Q) :
  (m == m')%Q → (v == m ∧ m < 1 ∨ v == 1 ∧ 1 <= m)%Q → (v == Qmin 1 m')%Q.
Proof.
  intros Hm [[Hv Hlt]|[Hv Hle]].
  - rewrite Q.min_r by lra. lra.
  - rewrite Q.min_l by lra. lra.
Qed.

Lemma lockup_rule_fires vid lap_no idx row_t (b b2 s3 s0 a3 a0 : Q) :
  pbrake_f row_t = Num b → pbr_m2 row_t = Num b2 →
  speed_m3 row_t = Num s3 → speed row_t = Num s0 →
  accy_m3 row_t = Num a3 → accy_can row_t = Num a0 →
  (10 < b - b2)%Q → (6 < s3 - s0)%Q → (0.3 < a3 - a0)%Q →
  (∀ t, Steering_Angle row_t ≠ Str t) → (∀ t, steer_m2 row_t ≠ Str t) →
  ∃ ev sev tl,
    lockup_rule vid lap_no idx row_t = Ok (Some ev) ∧
    event_type ev = lockup ∧
    severity_score ev = Num sev ∧ time_loss_estimate ev = Num tl ∧
    (sev == Qmin 1 ((Qabs (b - b2) / 50 + (s3 - s0) / 10 + (a3 - a0) / 2) / 3))%Q ∧
    (tl == (s3 - s0) / 9)%Q.
Proof.
  destruct row_t as [pf pm2 sp sp1 sp3 ac ac3 st st2 st3 g g1 n n1]. simpl.
  intros -> -> -> -> -> -> Hb Hs Ha Hst Hst2.
  destruct st as [t| |]; [by destruct (Hst t)|..];
    (destruct st2 as [t| |]; [by destruct (Hst2 t)|..]).
  all: unfold lockup_rule, lockup_condition.
  all: repeat rule_step.
  all: try (exfalso; reflect_tests; lra).
  all: eexists _, _, _.
  all: do 4 (split; [reflexivity|]).
  all: (split; [|reflexivity]).
  all: reflect_tests.
  all: eapply min_one_value;
    [|first [left; split; [reflexivity|eassumption]
            |right; split; [reflexivity|eassumption]]].
  all: cbn [negb]; change (inject_Z (Z.of_nat 3)) with 3%Q; unfold Qdiv; ring.
Qed.

Lemma sample_rules_lockup vid lap_no idx v ev :
  sample_rules vid lap_no idx (Ok v) = Some ev ∧ event_type ev = lockup ↔
  lockup_rule vid lap_no idx v = Ok (Some ev).
Proof.
  split.
  - intros [H Htype].
    apply sample_rules_Some in H as (v' & [= <-] & [H|[H|[H|H]]]); [done|..].
    + apply near_spin_rule_Some in H as [H _]. congruence.
    + apply understeer_rule_Some in H as [H _]. congruence.
    + apply missed_shift_rule_Some in H as [H _]. congruence.
  - intros H. split; [|by apply lockup_rule_Some in H as [? _]].
    unfold sample_rules, attempt. simpl. by rewrite H.
Qed.

(** C3, amended.  At a sample after the third of a lap whose timestamp
    occurs once in the lap and whose steering values are numbers or
    missing, a lockup event is emitted exactly when front brake
    pressure rose by more than 10 over the prior 2 samples, speed
    dropped by more than 6 and lateral G DROPPED by more than 0.3 over
    the prior 3 samples; its severity is
    min(1, mean(brake rise/50, speed loss/10, lateral-G drop/2)) and its
    time loss is speed loss/9. *)
Theorem lockup_exactly_on_brake_spike_speed_loss_and_G_drop
    (vid : cell) (lap_no : Z) (df : Telemetry) (i : nat) (idx : Z)
    (smp : gmap string cell) :
  (3 ≤ i)%nat → df !! i = Some (idx, smp) → unique_label df idx = true →
  (∀ t, lagged df "Steering_Angle" 0 i ≠ Str t) →
  (∀ t, lagged df "Steering_Angle" 2 i ≠ Str t) →
  ((∃ ev, ev ∈ lap_sample_events vid lap_no df ∧
          sample_event vid lap_no df i = Some ev ∧ event_type ev = lockup) ↔
   (∃ b b2 s3 s0 a3 a0, lockup_signature df i b b2 s3 s0 a3 a0)) ∧
  (∀ b b2 s3 s0 a3 a0, lockup_signature df i b b2 s3 s0 a3 a0 →
     ∃ ev sev tl,
       sample_event vid lap_no df i = Some ev ∧ event_type ev = lockup ∧
       severity_score ev = Num sev ∧ time_loss_estimate ev = Num tl ∧
       (sev == Qmin 1 ((Qabs (b - b2) / 50 + (s3 - s0) / 10 + (a3 - a0) / 2) / 3))%Q ∧
       (tl == (s3 - s0) / 9)%Q).
Proof.
  intros Hi Hdf Huniq Hst Hst2.
  assert (Hev : sample_event vid lap_no df i
                = sample_rules vid lap_no idx (Ok (view_at df i))).
  { unfold sample_event, loc. rewrite Hdf. simpl. by rewrite Huniq. }
  assert (Hfires : ∀ b b2 s3 s0 a3 a0, lockup_signature df i b b2 s3 s0 a3 a0 →
     ∃ ev sev tl,
       sample_event vid lap_no df i = Some ev ∧ event_type ev = lockup ∧
       severity_score ev = Num sev ∧ time_loss_estimate ev = Num tl ∧
       (sev == Qmin 1 ((Qabs (b - b2) / 50 + (s3 - s0) / 10 + (a3 - a0) / 2) / 3))%Q ∧
       (tl == (s3 - s0) / 9)%Q).
  { intros b b2 s3 s0 a3 a0 (Hb & Hb2 & Hs3 & Hs0 & Ha3 & Ha0 & Hrise & Hloss & Hdrop).
    destruct (lockup_rule_fires vid lap_no idx (view_at df i) b b2 s3 s0 a3 a0)
      as (ev & sev & tl & Hrule & Htype & Hsev & Htl & Hsv & Htv); try done.
    exists ev, sev, tl. rewrite Hev.
    by rewrite (proj1 (proj2 (sample_rules_lockup _ _ _ _ _) Hrule)). }
  split; [|done]. split.
  - intros (ev & _ & Hsome & Htype). rewrite Hev in Hsome.
    pose proof (proj1 (sample_rules_lockup _ _ _ _ _) (conj Hsome Htype)) as Hrule.
    apply lockup_rule_signature in Hrule
      as (b & b2 & s3 & s0 & a3 & a0 & ? & ? & ? & ? & ? & ? & ? & ? & ?).
    by exists b, b2, s3, s0, a3, a0.
  - intros (b & b2 & s3 & s0 & a3 & a0 & Hsig).
    destruct (Hfires _ _ _ _ _ _ Hsig) as (ev & _ & _ & Hsome & Htype & _).
    exists ev. split; [|done]. apply elem_of_lap_sample_events. exists i.
    split; [|done]. apply lookup_lt_Some in Hdf. lia.
Qed.

Lemma lockup_exactly_on_brake_spike_speed_loss_and_G_drop_witness :
  ∃ ev sev tl,
    sample_event (Str "B") 1 braking_with_G_drop 3 = Some ev ∧ event_type ev = lockup ∧
    severity_score ev = Num sev ∧ time_loss_estimate ev = Num tl ∧
    (sev == Qmin 1 ((Qabs (20 - 5) / 50 + (120 - 110) / 10 + (1.0 - 0.5) / 2) / 3))%Q ∧
    (tl == (120 - 110) / 9)%Q.
Proof.
  refine (proj2 (lockup_exactly_on_brake_spike_speed_loss_and_G_drop
                   (Str "B") 1 braking_with_G_drop 3 3 _ _ _ _ _ _)
                20%Q 5%Q 120%Q 110%Q 1.0%Q 0.5%Q _).
  - lia.
  - reflexivity.
  - reflexivity.
  - intros t; vm_compute; discriminate.
  - intros t; vm_compute; discriminate.
  - unfold lockup_signature. repeat split; try (vm_compute; reflexivity).
Defined.

(** C3, as stated, fails: brake pressure up by 15, speed down by 10 and
    lateral G UP by 0.5 is the specification's signature, and no event
    is emitted for that sample. *)
Lemma no_lockup_when_lateral_G_rises :
  lockup_signature_with_G_rise braking_with_G_rise 3 20 5 120 110 0.5 1.0 ∧
  sample_event (Str "B") 1 braking_with_G_rise 3 = None ∧
  detect_telemetry_events (only_file braking_with_G_rise) stable_sort_index one_lap_of_B
  = Ok [].
Proof.
  split; [|split]; [|vm_compute; reflexivity..].
  unfold lockup_signature_with_G_rise. repeat split; vm_compute; reflexivity.
Qed.

(** ** History needed by pace_collapse (C4) *)




(** ** Exceptions of the detector (C7) *)

(** C7 fails on the code: a lap table without the field [peak_long_G]
    makes the lap-level detector raise KeyError, and a lap record whose
    lap number is missing makes both detectors raise ValueError. *)
Theorem detector_raises_on_missing_field :
  (∀ polyfit_slope,
     detect_lap_level_events polyfit_slope laps_without_long_G = Raise KeyError) ∧
  (∀ polyfit_slope,
     detect_lap_level_events polyfit_slope laps_without_lap_number = Raise ValueError) ∧
  (∀ laps_dir sort_index,
     detect_telemetry_events laps_dir sort_index laps_without_lap_number
     = Raise ValueError).
Proof. repeat split; intros; vm_compute; reflexivity. Qed.

(** What does hold: once the lap table has its [vehicle_id] column and
    numeric lap numbers, the sample-level detector returns, whatever
    the telemetry holds. *)
Lemma telemetry_detector_returns laps_dir sort_index per_lap :
  has_column per_lap "vehicle_id" = true → has_column per_lap "lap" = true →
  (∀ row, row ∈ rows per_lap → ∃ q, get row "lap" = Num q) →
  ∃ evs, detect_telemetry_events laps_dir sort_index per_lap = Ok evs.
Proof.
  intros Hv Hl Hlaps. unfold detect_telemetry_events. rewrite Hv, Hl.
  destruct (traverse_total
    (λ row : gmap string cell,
       vid ← Ok (get row "vehicle_id");
       lap_no ← py_int (get row "lap");
       match find_lap_file laps_dir vid lap_no with
       | Some df => Ok (lap_sample_events vid lap_no (sort_index df))
       | None => Ok []
       end) (rows per_lap)) as [per_row Hrows].
  - intros row Hrow. destruct (Hlaps row Hrow) as [q ->]. simpl.
    destruct (find_lap_file _ _ _); eauto.
  - rewrite Hrows. simpl. eauto.
Qed.

(** ** The scenarios of the specification *)

(** Scenario 1: laps of 90, 91 and 90.5 s, then 95 s with less lateral
    and longitudinal G: pace_collapse at lap 4, severity 0.7, time loss
    95 - 90.5 = 4.5. *)
Example scenario_pace_collapse :
  (λ evs, map (λ ev, (lap ev, event_type ev)) evs)
    <$$> detect_lap_level_events lstsq_slope four_laps
  = Ok [(4%Z, pace_collapse); (4%Z, degradation_phase)] ∧
  ∃ ev sev tl,
    pace_collapse_rule four_laps (isort lap_order (rows four_laps)) 3
      (lap_metrics "A" 4 95 1.0 0.8) = Ok (Some ev) ∧
    severity_score ev = Num sev ∧ time_loss_estimate ev = Num tl ∧
    (sev == 0.7)%Q ∧ (tl == 4.5)%Q.
Proof.
  split; [vm_compute; reflexivity|].
  eexists _, _, _. split; [vm_compute; reflexivity|].
  split; [reflexivity|]. split; [reflexivity|]. split; reflexivity.
Qed.

(** Scenario 2: brake pressure up by 15, speed down by 10, lateral G
    down by 0.5: lockup with time loss 10/9. *)
Example scenario_lockup :
  ∃ ev tl,
    sample_event (Str "B") 1 braking_with_G_drop 3 = Some ev ∧
    event_type ev = lockup ∧ time_loss_estimate ev = Num tl ∧ (tl == 10 / 9)%Q.
Proof.
  eexists _, _. split; [vm_compute; reflexivity|].
  split; [reflexivity|]. split; reflexivity.
Qed.

(** Scenarios 3 and 4: removing A's pace_collapse takes its 10 s off A's
    360 s; A then ranks first, C second, and A's position change is
    2 - 1 = 1. *)
Example scenario_removed_event_changes_rank :
  simulate_no_events stable_sort_values duel_laps duel_events
    (Some (filter_events_for_removal duel_events (Some "A") (Some "pace_collapse") None))
    (Some duel_results)
  = Ok (Table [mkScenarioRow (Str "A") (180 + (180 + 0)) (10 + 0)
                 (180 + (180 + 0) - (10 + 0)) 1 (Num 2) (Num (2 - inject_Z 1));
               mkScenarioRow (Str "C") (177 + (178 + 0)) 0
                 (177 + (178 + 0) - 0) 2 (Num 1) (Num (1 - inject_Z 2))]).
Proof. vm_compute. reflexivity. Qed.

(** * Further properties of the detector *)

Lemma filter_bool_Permutation {A : Type} (f : A → bool) (l l' : list A) :
  l ≡ₚ l' → List.filter f l ≡ₚ List.filter f l'.
Proof.
  induction 1 as [|x l l' _ IH|x y l|l l' l'' _ IH1 _ IH2]; simpl.
  - done.
  - destruct (f x); [by constructor | done].
  - destruct (f x), (f y); try done. apply perm_swap.
  - by etrans.
Qed.

Lemma degradation_rule_vehicle polyfit_slope per_lap sorted vid ev :
  degradation_rule polyfit_slope per_lap sorted vid = Ok (Some ev) → vehicle_id ev = vid.
Proof.
  unfold degradation_rule. intros H.
  destruct (length _ <? 3)%nat; [discriminate|].
  apply bind_Ok in H as (x & _ & H).
  destruct (polyfit_slope x _); [|discriminate].
  destruct (polyfit_slope x _); [|discriminate].
  destruct (_ && _); [|discriminate].
  destruct (last _); [|discriminate].
  apply bind_Ok in H as (ts & _ & H). apply bind_Ok in H as (stamp & _ & H).
  by apply bind_Ok in H as (lap_no & _ & [= <-]).
Qed.

(** X1.  A degradation_phase event is emitted only for a vehicle with
    at least 3 lap records. *)
Theorem degradation_needs_three_laps
    (polyfit_slope : list (option Q) → list (option Q) → option Q)
    (per_lap : DataFrame) (evs : list Event) (ev : Event) :
  detect_lap_level_events polyfit_slope per_lap = Ok evs → ev ∈ evs →
  event_type ev = degradation_phase →
  (3 ≤ length (group_rows per_lap "vehicle_id" (vehicle_id ev)))%nat.
Proof.
  intros Hevs Hev Htype.
  destruct (detect_lap_level_events_Ok _ _ _ _ Hevs Hev) as [(i & row & _ & H)|(vid & H)].
  - apply pace_collapse_rule_Some in H as (_ & Hpace & _). congruence.
  - rewrite (degradation_rule_vehicle _ _ _ _ _ H).
    apply degradation_rule_Some in H as (_ & Hlen & _).
    unfold group_rows.
    by rewrite <-(Permutation_length
                   (filter_bool_Permutation _ _ _ (isort_perm lap_order (rows per_lap)))).
Qed.

Lemma degradation_needs_three_laps_witness :
  ∃ evs ev,
    detect_lap_level_events lstsq_slope four_laps = Ok evs ∧ ev ∈ evs ∧
    event_type ev = degradation_phase ∧
    (3 ≤ length (group_rows four_laps "vehicle_id" (vehicle_id ev)))%nat.
Proof.
  eexists _, _.
  assert (Hevs : detect_lap_level_events lstsq_slope four_laps
                 = Ok [mkEvent (Str "A", false, 4%Z, Num (inject_Z 4000)) (Str "A") 4
                         (Num (inject_Z 4000)) pace_collapse (Num 0.7)
                         (Num (Qmax 0.5 ((95 - mean [90.5; 91; 90]%Q) / 1))) NaN false NaN NaN
                         NaN
                         "Lap time notably slower than previous 3-lap mean with reduced cornering/long G.";
                       mkEvent (Str "A", true, 4%Z, Num (inject_Z 4000)) (Str "A") 4
                         (Num (inject_Z 4000)) degradation_phase (Num 1)
                         (Num (mean [1; 0; 4.5]%Q)) NaN false NaN NaN NaN
                         "Slow steady increase in lap times with falling lateral capability."]).
  { vm_compute. reflexivity. }
  split; [exact Hevs|]. split; [right; left|]. split; [reflexivity|].
  apply (degradation_needs_three_laps lstsq_slope four_laps _ _ Hevs); [right; left|reflexivity].
Defined.

(** Who and when: every rule stamps its event with vehicle, lap and the
    index label of the sample. *)
Ltac stamped_by_rule row_t :=
  destruct row_t as [pf pm2 sp sp1 sp3 ac ac3 st st2 st3 g g1 n n1];
  repeat rule_step;
  intros [= <-]; repeat split; reflexivity.

Lemma sample_rules_stamp vid lap_no idx row_t ev :
  sample_rules vid lap_no idx row_t = Some ev →
  vehicle_id ev = vid ∧ lap ev = lap_no ∧ timestamp ev = Num (inject_Z idx).
Proof.
  intros (v & _ & [H|[H|[H|H]]])%sample_rules_Some; revert H.
  - unfold lockup_rule, lockup_condition. stamped_by_rule v.
  - unfold near_spin_rule, near_spin_condition. stamped_by_rule v.
  - unfold understeer_rule, understeer_condition. stamped_by_rule v.
  - unfold missed_shift_rule. stamped_by_rule v.
Qed.

Lemma sample_event_Some vid lap_no df i ev :
  sample_event vid lap_no df i = Some ev →
  ∃ idx smp, df !! i = Some (idx, smp) ∧ unique_label df idx = true ∧
             sample_rules vid lap_no idx (Ok (view_at df i)) = Some ev.
Proof.
  unfold sample_event. destruct (df !! i) as [[idx smp]|] eqn:Hdf; [|done].
  simpl. unfold loc. destruct (unique_label df idx) eqn:Hu.
  - intros H. by exists idx, smp.
  - intros (v & [=] & _)%sample_rules_Some.
Qed.

(** Where an event of the sample-level detector comes from. *)
Lemma detect_telemetry_events_origin laps_dir sort_index per_lap evs ev :
  detect_telemetry_events laps_dir sort_index per_lap = Ok evs → ev ∈ evs →
  ∃ row lap_no file i,
    row ∈ rows per_lap ∧ py_int (get row "lap") = Ok lap_no ∧
    find_lap_file laps_dir (get row "vehicle_id") lap_no = Some file ∧
    (3 ≤ i < length (sort_index file))%nat ∧
    sample_event (get row "vehicle_id") lap_no (sort_index file) i = Some ev.
Proof.
  unfold detect_telemetry_events. intros H Hev.
  apply bind_Ok in H as (per_row & Hrows & [= <-]).
  apply traverse_Ok in Hrows.
  apply list_elem_of_In, in_concat in Hev as (l & Hl & Hev).
  apply list_elem_of_In in Hl, Hev.
  apply list_elem_of_lookup in Hl as [n Hn].
  destruct (Forall2_lookup_r _ _ _ _ _ Hrows Hn) as (row & Hrow_in & Hrow).
  apply list_elem_of_lookup_2 in Hrow_in.
  apply bind_Ok in Hrow as (vid & Hvid & Hrow).
  apply bind_Ok in Hrow as (lap_no & Hlap & Hrow).
  destruct (has_column per_lap "vehicle_id"); [|discriminate]. injection Hvid as <-.
  destruct (has_column per_lap "lap"); [|discriminate].
  destruct (find_lap_file laps_dir _ lap_no) as [file|] eqn:Hfile; injection Hrow as <-.
  - apply elem_of_lap_sample_events in Hev as (i & Hi & Hi'). by exists row, lap_no, file, i.
  - by apply elem_of_nil in Hev.
Qed.

(** X2.  Every event of the sample-level detector belongs to a lap
    record whose file exists and to a sample of that file that has at
    least three samples before it and whose timestamp occurs once in
    the lap; the event carries that record's vehicle and lap and that
    sample's timestamp. *)
Theorem sample_event_has_three_predecessors
    (laps_dir : FilePattern → cell → Z → option Telemetry)
    (sort_index : Telemetry → Telemetry) (per_lap : DataFrame)
    (evs : list Event) (ev : Event) :
  detect_telemetry_events laps_dir sort_index per_lap = Ok evs → ev ∈ evs →
  ∃ row file i idx smp,
    row ∈ rows per_lap ∧
    find_lap_file laps_dir (get row "vehicle_id") (lap ev) = Some file ∧
    sort_index file !! i = Some (idx, smp) ∧ (3 ≤ i)%nat ∧
    unique_label (sort_index file) idx = true ∧
    vehicle_id ev = get row "vehicle_id" ∧
    py_int (get row "lap") = Ok (lap ev) ∧
    timestamp ev = Num (inject_Z idx).
Proof.
  intros Hevs Hev.
  destruct (detect_telemetry_events_origin _ _ _ _ _ Hevs Hev)
    as (row & lap_no & file & i & Hrow & Hlap & Hfile & Hi & Hsome).
  apply sample_event_Some in Hsome as (idx & smp & Hdf & Hu & Hrules).
  apply sample_rules_stamp in Hrules as (Hv & Hl & Ht). subst lap_no.
  exists row, file, i, idx, smp. repeat split; try done. lia.
Qed.

Lemma sample_event_has_three_predecessors_witness :
  ∃ evs ev row file i idx smp,
    detect_telemetry_events (only_file braking_with_G_drop) stable_sort_index one_lap_of_B
      = Ok evs ∧ ev ∈ evs ∧
    row ∈ rows one_lap_of_B ∧
    find_lap_file (only_file braking_with_G_drop) (get row "vehicle_id") (lap ev) = Some file ∧
    stable_sort_index file !! i = Some (idx, smp) ∧ (3 ≤ i)%nat ∧
    unique_label (stable_sort_index file) idx = true ∧
    vehicle_id ev = get row "vehicle_id" ∧
    py_int (get row "lap") = Ok (lap ev) ∧
    timestamp ev = Num (inject_Z idx).
Proof.
  destruct (detect_telemetry_events (only_file braking_with_G_drop) stable_sort_index
              one_lap_of_B) as [evs|e] eqn:Hevs; [|vm_compute in Hevs; discriminate].
  destruct evs as [|ev evs]; [vm_compute in Hevs; discriminate|].
  exists (ev :: evs), ev.
  destruct (sample_event_has_three_predecessors _ _ _ _ ev Hevs ltac:(left))
    as (row & file & i & idx & smp & H).
  exists row, file, i, idx, smp. split; [reflexivity|]. split; [left|]. exact H.
Defined.

(** ** The three handling rules exclude each other *)

Lemma near_spin_rule_signature vid lap_no idx row_t ev :
  near_spin_rule vid lap_no idx row_t = Ok (Some ev) →
  ∃ st st2 a0 a3 s3 s0,
    Steering_Angle row_t = Num st ∧ steer_m2 row_t = Num st2 ∧
    accy_can row_t = Num a0 ∧ accy_m3 row_t = Num a3 ∧
    speed_m3 row_t = Num s3 ∧ speed row_t = Num s0 ∧
    (20 < Qabs (st - st2))%Q ∧ (1.5 < a0 - a3)%Q ∧ (4 < s3 - s0)%Q.
Proof.
  destruct row_t as [pf pm2 sp sp1 sp3 ac ac3 st st2 st3 g g1 n n1].
  unfold near_spin_rule, near_spin_condition.
  repeat rule_step.
  all: intros _; eexists _, _, _, _, _, _.
  all: do 6 (split; [reflexivity|]).
  all: reflect_tests; repeat split; lra.
Qed.

Lemma understeer_rule_signature vid lap_no idx row_t ev :
  understeer_rule vid lap_no idx row_t = Ok (Some ev) →
  ∃ st st3 a0 a3 s3 s0,
    Steering_Angle row_t = Num st ∧ steer_m3 row_t = Num st3 ∧
    accy_can row_t = Num a0 ∧ accy_m3 row_t = Num a3 ∧
    speed_m3 row_t = Num s3 ∧ speed row_t = Num s0 ∧
    (8 < st - st3)%Q ∧ (Qabs (a0 - a3) < 0.2)%Q ∧ (3 < s3 - s0)%Q.
Proof.
  destruct row_t as [pf pm2 sp sp1 sp3 ac ac3 st st2 st3 g g1 n n1].
  unfold understeer_rule, understeer_condition.
  repeat rule_step.
  all: intros _; eexists _, _, _, _, _, _.
  all: do 6 (split; [reflexivity|]).
  all: reflect_tests; repeat split; lra.
Qed.

Lemma Qabs_lt_both (x y : Q) : (Qabs x < y)%Q → (- y < x ∧ x < y)%Q.
Proof.
  intros H. pose proof (Qle_Qabs x). pose proof (Qle_Qabs (- x)) as H'.
  rewrite Qabs_opp in H'. split; lra.
Qed.

(** Two rules that both yield an event on one row contradict each
    other on lateral G. *)
Ltac by_signatures :=
  repeat match goal with
  | H : lockup_rule _ _ _ _ = Ok (Some _) |- _ =>
      apply lockup_rule_signature in H
        as (? & ? & ? & ? & ? & ? & ? & ? & ? & ? & ? & ? & ? & ? & ?)
  | H : near_spin_rule _ _ _ _ = Ok (Some _) |- _ =>
      apply near_spin_rule_signature in H
        as (? & ? & ? & ? & ? & ? & ? & ? & ? & ? & ? & ? & ? & ? & ?)
  | H : understeer_rule _ _ _ _ = Ok (Some _) |- _ =>
      apply understeer_rule_signature in H
        as (? & ? & ? & ? & ? & ? & ? & ? & ? & ? & ? & ? & ? & ? & ?)
  end;
  repeat match goal with
  | H1 : ?c = Num ?p, H2 : ?c = Num ?q |- _ => rewrite H1 in H2; injection H2 as <-
  end;
  repeat match goal with
  | H : (Qabs _ < _)%Q |- _ => apply Qabs_lt_both in H
  end;
  lra.

Lemma attempt_None (rule : View → result (option Event)) (v : View) :
  (∀ ev, rule v ≠ Ok (Some ev)) → attempt rule (Ok v) = None.
Proof.
  intros H. unfold attempt. simpl. destruct (rule v) as [[ev|]|e] eqn:E; try done.
  by destruct (H ev).
Qed.

(** X3.  On one sample at most one of the lockup, near-spin and
    understeer rules yields an event: they ask lateral G to have fallen
    by more than 0.3, risen by more than 1.5, or moved by less than 0.2
    over the same three samples.  The order in which the three are
    tried therefore never decides between them. *)
Theorem lockup_near_spin_understeer_exclude_each_other
    (vid : cell) (lap_no idx : Z) (row_t : View) (ev : Event) :
  (lockup_rule vid lap_no idx row_t = Ok (Some ev) →
     (∀ ev', near_spin_rule vid lap_no idx row_t ≠ Ok (Some ev')) ∧
     (∀ ev', understeer_rule vid lap_no idx row_t ≠ Ok (Some ev'))) ∧
  (near_spin_rule vid lap_no idx row_t = Ok (Some ev) →
     (∀ ev', lockup_rule vid lap_no idx row_t ≠ Ok (Some ev')) ∧
     (∀ ev', understeer_rule vid lap_no idx row_t ≠ Ok (Some ev'))) ∧
  (understeer_rule vid lap_no idx row_t = Ok (Some ev) →
     (∀ ev', lockup_rule vid lap_no idx row_t ≠ Ok (Some ev')) ∧
     (∀ ev', near_spin_rule vid lap_no idx row_t ≠ Ok (Some ev'))).
Proof.
  split; [|split]; intros H; split; intros ev' H'; by_signatures.
Qed.

Lemma lockup_near_spin_understeer_exclude_each_other_witness :
  ∃ ev, lockup_rule (Str "B") 1 3 (view_at braking_with_G_drop 3) = Ok (Some ev) ∧
    (∀ ev', near_spin_rule (Str "B") 1 3 (view_at braking_with_G_drop 3) ≠ Ok (Some ev')) ∧
    (∀ ev', understeer_rule (Str "B") 1 3 (view_at braking_with_G_drop 3) ≠ Ok (Some ev')).
Proof.
  destruct (lockup_rule (Str "B") 1 3 (view_at braking_with_G_drop 3)) as [[ev|]|e] eqn:H;
    [|vm_compute in H; discriminate..].
  exists ev. split; [reflexivity|].
  exact (proj1 (lockup_near_spin_understeer_exclude_each_other
                  (Str "B") 1 3 (view_at braking_with_G_drop 3) ev) H).
Defined.

(** ** The near-spin rule *)

Lemma near_spin_rule_fires vid lap_no idx row_t (st st2 a0 a3 s3 s0 : Q) :
  Steering_Angle row_t = Num st → steer_m2 row_t = Num st2 →
  accy_can row_t = Num a0 → accy_m3 row_t = Num a3 →
  speed_m3 row_t = Num s3 → speed row_t = Num s0 →
  (20 < Qabs (st - st2))%Q → (1.5 < a0 - a3)%Q → (4 < s3 - s0)%Q →
  ∃ ev sev tl,
    near_spin_rule vid lap_no idx row_t = Ok (Some ev) ∧
    event_type ev = near_spin ∧
    severity_score ev = Num sev ∧ time_loss_estimate ev = Num tl ∧
    (sev == Qmin 1 ((Qabs (st - st2) / 40 + (a0 - a3) / 3 + (s3 - s0) / 10) / 3))%Q ∧
    (tl == (s3 - s0) / 9)%Q ∧
    steering_correction_deg ev = Num (Qabs (st - st2)) ∧
    latG_spike ev = Num (a0 - a3) ∧ speed_loss ev = Num (s3 - s0).
Proof.
  destruct row_t as [pf pm2 sp sp1 sp3 ac ac3 sa sa2 sa3 g g1 n n1]. simpl.
  intros -> -> -> -> -> -> Hst Ha Hs.
  unfold near_spin_rule, near_spin_condition.
  repeat rule_step.
  all: try (exfalso; reflect_tests; lra).
  all: eexists _, _, _.
  all: do 4 (split; [reflexivity|]).
  all: (split; [|repeat split; reflexivity]).
  all: reflect_tests.
  all: eapply min_one_value;
    [|first [left; split; [reflexivity|eassumption]
            |right; split; [reflexivity|eassumption]]].
  all: reflexivity.
Qed.

Lemma sample_rules_near_spin vid lap_no idx v ev :
  sample_rules vid lap_no idx (Ok v) = Some ev ∧ event_type ev = near_spin ↔
  near_spin_rule vid lap_no idx v = Ok (Some ev).
Proof.
  split.
  - intros [H Htype].
    apply sample_rules_Some in H as (v' & [= <-] & [H|[H|[H|H]]]); [|done|..].
    + apply lockup_rule_Some in H as [H _]. congruence.
    + apply understeer_rule_Some in H as [H _]. congruence.
    + apply missed_shift_rule_Some in H as [H _]. congruence.
  - intros H. split; [|by apply near_spin_rule_Some in H as [? _]].
    unfold sample_rules. rewrite attempt_None.
    + unfold attempt. simpl. by rewrite H.
    + intros ev' H'. by_signatures.
Qed.

(** X4.  At a sample after the third of a lap whose timestamp occurs
    once in the lap, a near_spin event is emitted exactly when the
    steering angle moved by more than 20 over the prior 2 samples,
    lateral G rose by more than 1.5 and speed dropped by more than 4
    over the prior 3 samples; its severity is
    min(1, (steering move/40 + lateral-G rise/3 + speed loss/10)/3), its
    time loss is speed loss/9, and it records the three differences. *)
Theorem near_spin_exactly_on_steering_G_rise_and_speed_loss
    (vid : cell) (lap_no : Z) (df : Telemetry) (i : nat) (idx : Z)
    (smp : gmap string cell) :
  (3 ≤ i)%nat → df !! i = Some (idx, smp) → unique_label df idx = true →
  ((∃ ev, ev ∈ lap_sample_events vid lap_no df ∧
          sample_event vid lap_no df i = Some ev ∧ event_type ev = near_spin) ↔
   (∃ st st2 a0 a3 s3 s0, near_spin_signature df i st st2 a0 a3 s3 s0)) ∧
  (∀ st st2 a0 a3 s3 s0, near_spin_signature df i st st2 a0 a3 s3 s0 →
     ∃ ev sev tl,
       sample_event vid lap_no df i = Some ev ∧ event_type ev = near_spin ∧
       severity_score ev = Num sev ∧ time_loss_estimate ev = Num tl ∧
       (sev == Qmin 1 ((Qabs (st - st2) / 40 + (a0 - a3) / 3 + (s3 - s0) / 10) / 3))%Q ∧
       (tl == (s3 - s0) / 9)%Q ∧
       steering_correction_deg ev = Num (Qabs (st - st2)) ∧
       latG_spike ev = Num (a0 - a3) ∧ speed_loss ev = Num (s3 - s0)).
Proof.
  intros Hi Hdf Huniq.
  assert (Hev : sample_event vid lap_no df i
                = sample_rules vid lap_no idx (Ok (view_at df i))).
  { unfold sample_event, loc. rewrite Hdf. simpl. by rewrite Huniq. }
  assert (Hfires : ∀ st st2 a0 a3 s3 s0, near_spin_signature df i st st2 a0 a3 s3 s0 →
     ∃ ev sev tl,
       sample_event vid lap_no df i = Some ev ∧ event_type ev = near_spin ∧
       severity_score ev = Num sev ∧ time_loss_estimate ev = Num tl ∧
       (sev == Qmin 1 ((Qabs (st - st2) / 40 + (a0 - a3) / 3 + (s3 - s0) / 10) / 3))%Q ∧
       (tl == (s3 - s0) / 9)%Q ∧
       steering_correction_deg ev = Num (Qabs (st - st2)) ∧
       latG_spike ev = Num (a0 - a3) ∧ speed_loss ev = Num (s3 - s0)).
  { intros st st2 a0 a3 s3 s0 (Hst & Hst2 & Ha0 & Ha3 & Hs3 & Hs0 & Hturn & Hrise & Hloss).
    destruct (near_spin_rule_fires vid lap_no idx (view_at df i) st st2 a0 a3 s3 s0)
      as (ev & sev & tl & Hrule & Hrest); try done.
    exists ev, sev, tl. rewrite Hev.
    by rewrite (proj1 (proj2 (sample_rules_near_spin _ _ _ _ _) Hrule)). }
  split; [|done]. split.
  - intros (ev & _ & Hsome & Htype). rewrite Hev in Hsome.
    pose proof (proj1 (sample_rules_near_spin _ _ _ _ _) (conj Hsome Htype)) as Hrule.
    apply near_spin_rule_signature in Hrule
      as (st & st2 & a0 & a3 & s3 & s0 & ? & ? & ? & ? & ? & ? & ? & ? & ?).
    by exists st, st2, a0, a3, s3, s0.
  - intros (st & st2 & a0 & a3 & s3 & s0 & Hsig).
    destruct (Hfires _ _ _ _ _ _ Hsig) as (ev & _ & _ & Hsome & Htype & _).
    exists ev. split; [|done]. apply elem_of_lap_sample_events. exists i.
    split; [|done]. apply lookup_lt_Some in Hdf. lia.
Qed.

Lemma near_spin_exactly_on_steering_G_rise_and_speed_loss_witness :
  ∃ ev sev tl,
    sample_event (Str "B") 1 snap_of_steering 3 = Some ev ∧ event_type ev = near_spin ∧
    severity_score ev = Num sev ∧ time_loss_estimate ev = Num tl ∧
    (sev == Qmin 1 ((Qabs (25 - 0) / 40 + (2.5 - 0.5) / 3 + (100 - 95) / 10) / 3))%Q ∧
    (tl == (100 - 95) / 9)%Q ∧
    steering_correction_deg ev = Num (Qabs (25 - 0)) ∧
    latG_spike ev = Num (2.5 - 0.5) ∧ speed_loss ev = Num (100 - 95).
Proof.
  refine (proj2 (near_spin_exactly_on_steering_G_rise_and_speed_loss
                   (Str "B") 1 snap_of_steering 3 3 _ _ _ _)
                25%Q 0%Q 2.5%Q 0.5%Q 100%Q 95%Q _).
  - lia.
  - reflexivity.
  - reflexivity.
  - unfold near_spin_signature. repeat split; try (vm_compute; reflexivity).
Defined.

(** ** The understeer rule *)

Lemma understeer_rule_fires vid lap_no idx row_t (st st3 a0 a3 s3 s0 : Q) :
  Steering_Angle row_t = Num st → steer_m3 row_t = Num st3 →
  accy_can row_t = Num a0 → accy_m3 row_t = Num a3 →
  speed_m3 row_t = Num s3 → speed row_t = Num s0 →
  (8 < st - st3)%Q → (Qabs (a0 - a3) < 0.2)%Q → (3 < s3 - s0)%Q →
  ∃ ev sev tl,
    understeer_rule vid lap_no idx row_t = Ok (Some ev) ∧
    event_type ev = understeer ∧
    severity_score ev = Num sev ∧ time_loss_estimate ev = Num tl ∧
    (sev == Qmin 1 ((Qabs (st - st3) / 20 + (s3 - s0) / 10) / 2))%Q ∧
    (tl == (s3 - s0) / 9)%Q ∧
    steering_correction_deg ev = Num (Qabs (st - st3)) ∧
    latG_spike ev = Num (Qabs (a0 - a3)) ∧ speed_loss ev = Num (s3 - s0).
Proof.
  destruct row_t as [pf pm2 sp sp1 sp3 ac ac3 sa sa2 sa3 g g1 n n1]. simpl.
  intros -> -> -> -> -> -> Hst Ha Hs.
  unfold understeer_rule, understeer_condition.
  repeat rule_step.
  all: try (exfalso; reflect_tests; lra).
  all: eexists _, _, _.
  all: do 4 (split; [reflexivity|]).
  all: (split; [|repeat split; reflexivity]).
  all: reflect_tests.
  all: eapply min_one_value;
    [|first [left; split; [reflexivity|eassumption]
            |right; split; [reflexivity|eassumption]]].
  all: reflexivity.
Qed.

Lemma sample_rules_understeer vid lap_no idx v ev :
  sample_rules vid lap_no idx (Ok v) = Some ev ∧ event_type ev = understeer ↔
  understeer_rule vid lap_no idx v = Ok (Some ev).
Proof.
  split.
  - intros [H Htype].
    apply sample_rules_Some in H as (v' & [= <-] & [H|[H|[H|H]]]); [| |done|].
    + apply lockup_rule_Some in H as [H _]. congruence.
    + apply near_spin_rule_Some in H as [H _]. congruence.
    + apply missed_shift_rule_Some in H as [H _]. congruence.
  - intros H. split; [|by apply understeer_rule_Some in H as [? _]].
    unfold sample_rules. rewrite attempt_None.
    + rewrite attempt_None.
      * unfold attempt. simpl. by rewrite H.
      * intros ev' H'. by_signatures.
    + intros ev' H'. by_signatures.
Qed.

(** X5.  At a sample after the third of a lap whose timestamp occurs
    once in the lap, an understeer event is emitted exactly when, over
    the prior 3 samples, the steering angle grew by more than 8, lateral
    G moved by less than 0.2 and speed dropped by more than 3; its
    severity is min(1, (steering growth/20 + speed loss/10)/2), its time
    loss is speed loss/9. *)
Theorem understeer_exactly_on_steering_without_G_response
    (vid : cell) (lap_no : Z) (df : Telemetry) (i : nat) (idx : Z)
    (smp : gmap string cell) :
  (3 ≤ i)%nat → df !! i = Some (idx, smp) → unique_label df idx = true →
  ((∃ ev, ev ∈ lap_sample_events vid lap_no df ∧
          sample_event vid lap_no df i = Some ev ∧ event_type ev = understeer) ↔
   (∃ st st3 a0 a3 s3 s0, understeer_signature df i st st3 a0 a3 s3 s0)) ∧
  (∀ st st3 a0 a3 s3 s0, understeer_signature df i st st3 a0 a3 s3 s0 →
     ∃ ev sev tl,
       sample_event vid lap_no df i = Some ev ∧ event_type ev = understeer ∧
       severity_score ev = Num sev ∧ time_loss_estimate ev = Num tl ∧
       (sev == Qmin 1 ((Qabs (st - st3) / 20 + (s3 - s0) / 10) / 2))%Q ∧
       (tl == (s3 - s0) / 9)%Q ∧
       steering_correction_deg ev = Num (Qabs (st - st3)) ∧
       latG_spike ev = Num (Qabs (a0 - a3)) ∧ speed_loss ev = Num (s3 - s0)).
Proof.
  intros Hi Hdf Huniq.
  assert (Hev : sample_event vid lap_no df i
                = sample_rules vid lap_no idx (Ok (view_at df i))).
  { unfold sample_event, loc. rewrite Hdf. simpl. by rewrite Huniq. }
  assert (Hfires : ∀ st st3 a0 a3 s3 s0, understeer_signature df i st st3 a0 a3 s3 s0 →
     ∃ ev sev tl,
       sample_event vid lap_no df i = Some ev ∧ event_type ev = understeer ∧
       severity_score ev = Num sev ∧ time_loss_estimate ev = Num tl ∧
       (sev == Qmin 1 ((Qabs (st - st3) / 20 + (s3 - s0) / 10) / 2))%Q ∧
       (tl == (s3 - s0) / 9)%Q ∧
       steering_correction_deg ev = Num (Qabs (st - st3)) ∧
       latG_spike ev = Num (Qabs (a0 - a3)) ∧ speed_loss ev = Num (s3 - s0)).
  { intros st st3 a0 a3 s3 s0 (Hst & Hst3 & Ha0 & Ha3 & Hs3 & Hs0 & Hturn & Hflat & Hloss).
    destruct (understeer_rule_fires vid lap_no idx (view_at df i) st st3 a0 a3 s3 s0)
      as (ev & sev & tl & Hrule & Hrest); try done.
    exists ev, sev, tl. rewrite Hev.
    by rewrite (proj1 (proj2 (sample_rules_understeer _ _ _ _ _) Hrule)). }
  split; [|done]. split.
  - intros (ev & _ & Hsome & Htype). rewrite Hev in Hsome.
    pose proof (proj1 (sample_rules_understeer _ _ _ _ _) (conj Hsome Htype)) as Hrule.
    apply understeer_rule_signature in Hrule
      as (st & st3 & a0 & a3 & s3 & s0 & ? & ? & ? & ? & ? & ? & ? & ? & ?).
    by exists st, st3, a0, a3, s3, s0.
  - intros (st & st3 & a0 & a3 & s3 & s0 & Hsig).
    destruct (Hfires _ _ _ _ _ _ Hsig) as (ev & _ & _ & Hsome & Htype & _).
    exists ev. split; [|done]. apply elem_of_lap_sample_events. exists i.
    split; [|done]. apply lookup_lt_Some in Hdf. lia.
Qed.

Lemma understeer_exactly_on_steering_without_G_response_witness :
  ∃ ev sev tl,
    sample_event (Str "B") 1 pushing_wide 3 = Some ev ∧ event_type ev = understeer ∧
    severity_score ev = Num sev ∧ time_loss_estimate ev = Num tl ∧
    (sev == Qmin 1 ((Qabs (10 - 0) / 20 + (100 - 96) / 10) / 2))%Q ∧
    (tl == (100 - 96) / 9)%Q ∧
    steering_correction_deg ev = Num (Qabs (10 - 0)) ∧
    latG_spike ev = Num (Qabs (1.1 - 1.0)) ∧ speed_loss ev = Num (100 - 96).
Proof.
  refine (proj2 (understeer_exactly_on_steering_without_G_response
                   (Str "B") 1 pushing_wide 3 3 _ _ _ _)
                10%Q 0%Q 1.1%Q 1.0%Q 100%Q 96%Q _).
  - lia.
  - reflexivity.
  - reflexivity.
  - unfold understeer_signature. repeat split; try (vm_compute; reflexivity).
Defined.

(** ** The missed-shift rule *)

Lemma missed_shift_rule_signature vid lap_no idx row_t ev :
  missed_shift_rule vid lap_no idx row_t = Ok (Some ev) →
  ∃ n1 n0 s0 s1 sev,
    notna (gear row_t) = true ∧ notna (gear_m1 row_t) = true ∧
    cell_eqb (gear row_t) (gear_m1 row_t) = false ∧
    nmot_m1 row_t = Num n1 ∧ nmot row_t = Num n0 ∧
    speed row_t = Num s0 ∧ speed_m1 row_t = Num s1 ∧
    (1200 < n1 - n0)%Q ∧ (Qabs (s0 - s1) < 1.5)%Q ∧
    severity_score ev = Num sev ∧ (sev == Qmin 1 ((n1 - n0) / 4000))%Q ∧
    time_loss_estimate ev = Num 0.5 ∧
    rpm_drop ev = Num (n1 - n0) ∧ speed_loss ev = Num (Qabs (s0 - s1)).
Proof.
  destruct row_t as [pf pm2 sp sp1 sp3 ac ac3 st st2 st3 g g1 n n1].
  unfold missed_shift_rule.
  repeat rule_step.
  all: intros [= <-]; eexists _, _, _, _, _.
  all: cbn [gear gear_m1 nmot nmot_m1 speed speed_m1 notna severity_score
            time_loss_estimate rpm_drop speed_loss sample_event_record].
  all: do 2 (split; [reflexivity|]).
  all: (split; [first [assumption | reflexivity]|]).
  all: do 4 (split; [reflexivity|]).
  all: reflect_tests.
  all: (split; [lra|]); (split; [lra|]); (split; [reflexivity|]).
  all: (split; [|repeat split; reflexivity]).
  all: eapply min_one_value;
    [|first [left; split; [reflexivity|eassumption]
            |right; split; [reflexivity|eassumption]]].
  all: reflexivity.
Qed.

Lemma missed_shift_rule_fires vid lap_no idx row_t (n1 n0 s0 s1 : Q) :
  notna (gear row_t) = true → notna (gear_m1 row_t) = true →
  cell_eqb (gear row_t) (gear_m1 row_t) = false →
  nmot_m1 row_t = Num n1 → nmot row_t = Num n0 →
  speed row_t = Num s0 → speed_m1 row_t = Num s1 →
  (1200 < n1 - n0)%Q → (Qabs (s0 - s1) < 1.5)%Q →
  ∃ ev, missed_shift_rule vid lap_no idx row_t = Ok (Some ev).
Proof.
  destruct row_t as [pf pm2 sp sp1 sp3 ac ac3 st st2 st3 g g1 n n1']. simpl.
  intros Hg Hg1 Hne -> -> -> -> Hn Hs.
  unfold missed_shift_rule. cbn [gear gear_m1 nmot nmot_m1 speed speed_m1].
  rewrite Hg, Hg1, Hne.
  repeat rule_step.
  all: try (exfalso; reflect_tests; lra).
  all: eauto.
Qed.

Lemma attempt_is_None (rule : View → result (option Event)) (v : View) :
  attempt rule (Ok v) = None → ∀ ev, rule v ≠ Ok (Some ev).
Proof. unfold attempt. simpl. intros H ev E. by rewrite E in H. Qed.

(** X6.  At a sample after the third of a lap whose timestamp occurs
    once in the lap, a missed_shift event is emitted exactly when none
    of the lockup, near-spin and understeer rules yields an event and
    the gear differs from the gear one sample before, engine speed fell
    by more than 1200 and speed moved by less than 1.5 over that
    sample; the event's time loss is the constant 0.5, its severity
    min(1, rpm drop/4000), and it records the rpm drop and the speed
    change. *)
Theorem missed_shift_exactly_on_gear_change_and_rpm_drop
    (vid : cell) (lap_no : Z) (df : Telemetry) (i : nat) (idx : Z)
    (smp : gmap string cell) :
  (3 ≤ i)%nat → df !! i = Some (idx, smp) → unique_label df idx = true →
  ((∃ ev, ev ∈ lap_sample_events vid lap_no df ∧
          sample_event vid lap_no df i = Some ev ∧ event_type ev = missed_shift) ↔
   ((∃ g g1 n1 n0 s0 s1, missed_shift_signature df i g g1 n1 n0 s0 s1) ∧
    (∀ ev, lockup_rule vid lap_no idx (view_at df i) ≠ Ok (Some ev)) ∧
    (∀ ev, near_spin_rule vid lap_no idx (view_at df i) ≠ Ok (Some ev)) ∧
    (∀ ev, understeer_rule vid lap_no idx (view_at df i) ≠ Ok (Some ev)))) ∧
  (∀ ev g g1 n1 n0 s0 s1,
     sample_event vid lap_no df i = Some ev → event_type ev = missed_shift →
     missed_shift_signature df i g g1 n1 n0 s0 s1 →
     ∃ sev, severity_score ev = Num sev ∧ (sev == Qmin 1 ((n1 - n0) / 4000))%Q ∧
            time_loss_estimate ev = Num 0.5 ∧
            rpm_drop ev = Num (n1 - n0) ∧ speed_loss ev = Num (Qabs (s0 - s1))).
Proof.
  intros Hi Hdf Huniq.
  assert (Hev : sample_event vid lap_no df i
                = sample_rules vid lap_no idx (Ok (view_at df i))).
  { unfold sample_event, loc. rewrite Hdf. simpl. by rewrite Huniq. }
  assert (Hrule : ∀ ev, sample_event vid lap_no df i = Some ev →
            event_type ev = missed_shift →
            missed_shift_rule vid lap_no idx (view_at df i) = Ok (Some ev) ∧
            (∀ ev, lockup_rule vid lap_no idx (view_at df i) ≠ Ok (Some ev)) ∧
            (∀ ev, near_spin_rule vid lap_no idx (view_at df i) ≠ Ok (Some ev)) ∧
            (∀ ev, understeer_rule vid lap_no idx (view_at df i) ≠ Ok (Some ev))).
  { intros ev Hsome Htype. rewrite Hev in Hsome. unfold sample_rules in Hsome.
    destruct (attempt (lockup_rule _ _ _) _) as [e1|] eqn:E1.
    { injection Hsome as ->. apply attempt_Some in E1 as (v & [= <-] & H).
      apply lockup_rule_Some in H as [H _]. congruence. }
    destruct (attempt (near_spin_rule _ _ _) _) as [e2|] eqn:E2.
    { injection Hsome as ->. apply attempt_Some in E2 as (v & [= <-] & H).
      apply near_spin_rule_Some in H as [H _]. congruence. }
    destruct (attempt (understeer_rule _ _ _) _) as [e3|] eqn:E3.
    { injection Hsome as ->. apply attempt_Some in E3 as (v & [= <-] & H).
      apply understeer_rule_Some in H as [H _]. congruence. }
    apply attempt_Some in Hsome as (v & [= <-] & H).
    split; [done|]. split; [|split]; by apply attempt_is_None. }
  split; [split|].
  - intros (ev & _ & Hsome & Htype).
    destruct (Hrule ev Hsome Htype) as (Hms & Hrest). split; [|done].
    apply missed_shift_rule_signature in Hms
      as (n1 & n0 & s0 & s1 & sev & ? & ? & ? & ? & ? & ? & ? & ? & ? & _).
    exists (lagged df "gear" 0 i), (lagged df "gear" 1 i), n1, n0, s0, s1.
    unfold missed_shift_signature. by repeat split.
  - intros ((g & g1 & n1 & n0 & s0 & s1 & Hsig) & Hl & Hn & Hu).
    destruct Hsig as (<- & <- & Hg & Hg1 & Hne & Hn1 & Hn0 & Hs0 & Hs1 & Hdrop & Hsteady).
    destruct (missed_shift_rule_fires vid lap_no idx (view_at df i) n1 n0 s0 s1)
      as [ev Hms]; try done.
    assert (Hsome : sample_event vid lap_no df i = Some ev).
    { rewrite Hev. unfold sample_rules. rewrite !attempt_None by done.
      unfold attempt. simpl. by rewrite Hms. }
    exists ev. split; [|split; [done|]].
    + apply elem_of_lap_sample_events. exists i. split; [|done].
      apply lookup_lt_Some in Hdf. lia.
    + by apply missed_shift_rule_Some in Hms as [? _].
  - intros ev g g1 n1 n0 s0 s1 Hsome Htype
      (<- & <- & Hg & Hg1 & Hne & Hn1 & Hn0 & Hs0 & Hs1 & Hdrop & Hsteady).
    destruct (Hrule ev Hsome Htype) as (Hms & _).
    apply missed_shift_rule_signature in Hms
      as (n1' & n0' & s0' & s1' & sev & _ & _ & _ & Hn1' & Hn0' & Hs0' & Hs1' & _ & _ & Hval).
    simpl in *.
    rewrite Hn1 in Hn1'. injection Hn1' as <-. rewrite Hn0 in Hn0'. injection Hn0' as <-.
    rewrite Hs0 in Hs0'. injection Hs0' as <-. rewrite Hs1 in Hs1'. injection Hs1' as <-.
    exists sev. exact Hval.
Qed.

Lemma missed_shift_exactly_on_gear_change_and_rpm_drop_witness :
  ∃ ev sev,
    ev ∈ lap_sample_events (Str "B") 1 botched_upshift ∧
    sample_event (Str "B") 1 botched_upshift 3 = Some ev ∧ event_type ev = missed_shift ∧
    severity_score ev = Num sev ∧ (sev == Qmin 1 ((6000 - 4500) / 4000))%Q ∧
    time_loss_estimate ev = Num 0.5 ∧
    rpm_drop ev = Num (6000 - 4500) ∧ speed_loss ev = Num (Qabs (100.5 - 100)).
Proof.
  assert (Hsig : missed_shift_signature botched_upshift 3 (Num 4) (Num 3)
                   6000 4500 100.5 100).
  { unfold missed_shift_signature. repeat split; vm_compute; reflexivity. }
  pose proof (missed_shift_exactly_on_gear_change_and_rpm_drop
                (Str "B") 1 botched_upshift 3 3 _ ltac:(lia) eq_refl eq_refl) as [Hiff Hval].
  destruct (proj2 Hiff) as (ev & Hin & Hsome & Htype).
  { split; [by exists (Num 4), (Num 3), 6000%Q, 4500%Q, 100.5%Q, 100%Q|].
    split; [|split]; intros ev H; vm_compute in H; discriminate. }
  destruct (Hval ev _ _ _ _ _ _ Hsome Htype Hsig) as (sev & H).
  exists ev, sev. split; [done|]. split; [done|]. split; [done|]. exact H.
Defined.

(** * Further properties of the lap-level rules *)













(** * Further properties of the what-if simulator *)

(** ** The removal filter *)

Lemma filter_filter_andb {A : Type} (f g : A → bool) (l : list A) :
  List.filter f (List.filter g l) = List.filter (λ x, g x && f x) l.
Proof.
  induction l as [|x l IH]; simpl; [done|].
  destruct (g x); simpl; [destruct (f x); by rewrite IH | done].
Qed.

Lemma filter_true {A : Type} (l : list A) : List.filter (λ _, true) l = l.
Proof. induction l as [|x l IH]; simpl; [done | by rewrite IH]. Qed.

(** One step of the filter. *)
Lemma filter_step (df0 df : DataFrame) (c : string) (v : option string) :
  columns df = columns df0 →
  let df' := match v with
             | Some x => if has_column df c then select_eq df c x else df
             | None => df
             end in
  columns df' = columns df0 ∧ rows df' = List.filter (criterion df0 c v) (rows df).
Proof.
  intros Hc. unfold criterion, has_column. rewrite Hc.
  destruct v as [x|]; [destruct (bool_decide (c ∈ columns df0))|]; simpl;
    by rewrite ?filter_true.
Qed.

Lemma filter_events_for_removal_rows (df : DataFrame) (v t r : option string) :
  columns (filter_events_for_removal df v t r) = columns df ∧
  rows (filter_events_for_removal df v t r) = List.filter (selected df v t r) (rows df).
Proof.
  unfold filter_events_for_removal. cbv zeta.
  destruct (filter_step df df "vehicle_id" v eq_refl) as [Hc1 Hr1]. cbv zeta in Hc1, Hr1.
  destruct (filter_step df _ "event_type" t Hc1) as [Hc2 Hr2]. cbv zeta in Hc2, Hr2.
  destruct (filter_step df _ "role" r Hc2) as [Hc3 Hr3]. cbv zeta in Hc3, Hr3.
  split; [exact Hc3|]. rewrite Hr3, Hr2, Hr1, !filter_filter_andb.
  apply filter_ext. intros row. unfold selected.
  by destruct (criterion df "vehicle_id" v row), (criterion df "event_type" t row).
Qed.

Lemma DataFrame_eq (a b : DataFrame) : columns a = columns b → rows a = rows b → a = b.
Proof. destruct a, b. simpl. by intros -> ->. Qed.

Lemma selected_columns (df df' : DataFrame) (v t r : option string) :
  columns df' = columns df → selected df' v t r = selected df v t r.
Proof. intros H. unfold selected, criterion, has_column. by rewrite H. Qed.

(** X9.  The removal filter keeps the columns and keeps, in their
    order, exactly the rows that satisfy every criterion given; a
    criterion holds for a row when its column is absent from the table
    or the row has the value asked for.  Without any criterion the
    table is returned unchanged. *)
Theorem filter_keeps_exactly_the_selected_rows
    (event_detection : DataFrame) (vehicle_id event_type role : option string) :
  columns (filter_events_for_removal event_detection vehicle_id event_type role)
  = columns event_detection ∧
  rows (filter_events_for_removal event_detection vehicle_id event_type role)
  = List.filter (selected event_detection vehicle_id event_type role) (rows event_detection) ∧
  (∀ row, row ∈ rows (filter_events_for_removal event_detection vehicle_id event_type role) ↔
          row ∈ rows event_detection ∧
          selected event_detection vehicle_id event_type role row = true) ∧
  filter_events_for_removal event_detection None None None = event_detection.
Proof.
  destruct (filter_events_for_removal_rows event_detection vehicle_id event_type role)
    as [Hc Hr].
  split; [done|]. split; [done|]. split; [|done].
  intros row. rewrite Hr. apply elem_of_filter_bool.
Qed.

(** X10.  Filters compose: filtering a filtered table is filtering the
    table by both sets of criteria, so the order of two filters does
    not matter and repeating a filter changes nothing. *)
Theorem filters_commute_and_are_idempotent
    (event_detection : DataFrame) (v t r v' t' r' : option string) :
  rows (filter_events_for_removal (filter_events_for_removal event_detection v t r) v' t' r')
  = List.filter (λ row, selected event_detection v t r row
                        && selected event_detection v' t' r' row) (rows event_detection) ∧
  filter_events_for_removal (filter_events_for_removal event_detection v t r) v' t' r'
  = filter_events_for_removal (filter_events_for_removal event_detection v' t' r') v t r ∧
  filter_events_for_removal (filter_events_for_removal event_detection v t r) v t r
  = filter_events_for_removal event_detection v t r.
Proof.
  assert (Hrows : ∀ a b c a' b' c',
    rows (filter_events_for_removal (filter_events_for_removal event_detection a b c) a' b' c')
    = List.filter (λ row, selected event_detection a b c row
                          && selected event_detection a' b' c' row) (rows event_detection)).
  { intros a b c a' b' c'.
    destruct (filter_events_for_removal_rows event_detection a b c) as [Hc Hr].
    destruct (filter_events_for_removal_rows
                (filter_events_for_removal event_detection a b c) a' b' c') as [Hc' Hr'].
    rewrite Hr', Hr, filter_filter_andb. by rewrite (selected_columns _ _ _ _ _ Hc). }
  assert (Hcols : ∀ a b c a' b' c',
    columns (filter_events_for_removal (filter_events_for_removal event_detection a b c)
               a' b' c') = columns event_detection).
  { intros a b c a' b' c'.
    destruct (filter_events_for_removal_rows event_detection a b c) as [Hc _].
    destruct (filter_events_for_removal_rows
                (filter_events_for_removal event_detection a b c) a' b' c') as [Hc' _].
    by rewrite Hc'. }
  split; [apply Hrows|]. split.
  - apply DataFrame_eq; [by rewrite !Hcols|]. rewrite !Hrows.
    apply filter_ext. intros row. apply andb_comm.
  - apply DataFrame_eq.
    + rewrite Hcols. symmetry. apply filter_events_for_removal_rows.
    + rewrite Hrows. rewrite (proj2 (filter_events_for_removal_rows event_detection v t r)).
      apply filter_ext. intros row. by destruct (selected event_detection v t r row).
Qed.

(** ** The removal filter followed by the simulator *)

Lemma get_project_row (r : gmap string cell) (cs : list string) (c : string) :
  c ∈ cs → get (filter (λ kv : string * cell, kv.1 ∈ cs) r) c = get r c.
Proof.
  intros Hc. unfold get. destruct (r !! c) as [x|] eqn:E.
  - by rewrite (map_lookup_filter_Some_2 _ r c x).
  - by rewrite map_lookup_filter_None_2 by (by left).
Qed.

Lemma union_project_row (r : gmap string cell) (cs : list string) :
  r ∪ filter (λ kv : string * cell, kv.1 ∈ cs) r = r.
Proof.
  apply map_eq. intros k. destruct (r !! k) as [x|] eqn:E.
  - by apply lookup_union_Some_l.
  - rewrite lookup_union_r by done. by apply map_lookup_filter_None_2; left.
Qed.

Section MergeOnEventId.
Variable P : gmap string cell → bool.

Lemma partners_cons l x X :
  partners_by_id P l (x :: X)
  = ((if P x && cell_eqb (get l "event_id") (get x "event_id")
      then [l ∪ filter (λ kv : string * cell, kv.1 ∈ ["event_id"]) x] else [])
     ++ partners_by_id P l X)%list.
Proof.
  unfold partners_by_id. simpl. destruct (P x); simpl; [|done].
  rewrite get_project_row by (by left). rewrite andb_true_r.
  by destruct (cell_eqb _ _).
Qed.

Lemma partners_stranger l X :
  forallb (λ y, negb (cell_eqb (get l "event_id") y)) (map (λ r, get r "event_id") X) = true →
  partners_by_id P l X = [].
Proof.
  induction X as [|x X IH]; [done|]. simpl. intros [Hx HX]%andb_true_iff.
  rewrite partners_cons, IH by done. apply negb_true_iff in Hx. rewrite Hx.
  by rewrite andb_false_r.
Qed.

Lemma partners_member l X :
  distinct_by cell_eqb (map (λ r, get r "event_id") X) = true → l ∈ X →
  partners_by_id P l X = if P l then [l] else [].
Proof.
  induction X as [|x X IH]; [by intros _ ?%elem_of_nil|].
  simpl. intros [Hx HX]%andb_true_iff Hl. rewrite partners_cons.
  apply elem_of_cons in Hl as [->|Hl].
  - rewrite partners_stranger by done. rewrite cell_eqb_refl, andb_true_r, app_nil_r.
    by rewrite union_project_row.
  - rewrite IH by done.
    assert (Hne : cell_eqb (get l "event_id") (get x "event_id") = false).
    { rewrite forallb_forall in Hx. rewrite cell_eqb_sym. apply negb_true_iff, Hx.
      apply list_elem_of_In, list_elem_of_fmap. by exists l. }
    by rewrite Hne, andb_false_r.
Qed.

Lemma merge_rows_on_event_id (L : list (gmap string cell)) :
  distinct_by cell_eqb (map (λ r, get r "event_id") L) = true →
  (l ← L; partners_by_id P l L) = List.filter P L.
Proof.
  intros Hd.
  assert (H : ∀ M, (∀ l, l ∈ M → l ∈ L) → (l ← M; partners_by_id P l L) = List.filter P M).
  { induction M as [|m M IH]; intros Hsub; [done|]. rewrite bind_cons.
    rewrite IH by (intros l Hl; apply Hsub; by right).
    rewrite partners_member by (done || apply Hsub; left).
    simpl. by destruct (P m). }
  by apply H.
Qed.
End MergeOnEventId.

(** With distinct event ids, the merge on [event_id] of the events with
    a filtered part of them gives back the filtered part. *)
Lemma events_removed_filter (ed : DataFrame) (v t r : option string) :
  df_empty ed = false → has_column ed "event_id" = true → distinct_event_ids ed = true →
  events_removed ed (Some (filter_events_for_removal ed v t r))
  = Ok (filter_events_for_removal ed v t r).
Proof.
  intros He Hid Hd.
  destruct (filter_events_for_removal_rows ed v t r) as [Hc Hr].
  unfold events_removed. rewrite He. simpl. rewrite He. simpl.
  unfold has_column at 1. rewrite Hc. fold (has_column ed "event_id"). rewrite Hid.
  unfold merge_inner. simpl. rewrite Hid. simpl.
  f_equal. apply DataFrame_eq; simpl.
  - by rewrite app_nil_r, Hc.
  - rewrite Hr. by apply (merge_rows_on_event_id (selected ed v t r)).
Qed.

Lemma loss_column_columns (df df' : DataFrame) :
  columns df' = columns df → loss_column df' = loss_column df.
Proof. intros H. unfold loss_column, has_column. by rewrite H. Qed.

(** X11.  The filter composed with the simulator: when every event has
    its own event_id and the simulator is given the filter's result, it
    subtracts from each vehicle the sum of the losses of exactly those
    of its events that passed the filter; a vehicle none of whose events
    passed keeps its real time. *)
Theorem removing_filtered_events_subtracts_their_losses
    (sort_values : list TimeRow → list TimeRow)
    (lap_times event_detection : DataFrame)
    (vehicle_id event_type role : option string)
    (results_df : option DataFrame) (rs : list ScenarioRow) :
  sort_contract sort_values →
  has_column event_detection "event_id" = true →
  distinct_event_ids event_detection = true →
  simulate_no_events sort_values lap_times event_detection
    (Some (filter_events_for_removal event_detection vehicle_id event_type role)) results_df
    = Ok (Table rs) →
  ∀ row, row ∈ rs →
    let passed := List.filter
                    (λ e, cell_eqb (get e "vehicle_id") (sr_vehicle_id row)
                          && selected event_detection vehicle_id event_type role e)
                    (rows event_detection) in
    match loss_column event_detection with
    | Some col => nansum (map (λ e, get e col) passed) = Ok (sr_total_event_loss row)
    | None => sr_total_event_loss row = 0%Q
    end ∧
    sr_adj_total_time row = (sr_real_total_time row - sr_total_event_loss row)%Q ∧
    (passed = [] → sr_total_event_loss row = 0%Q).
Proof.
  intros Hsort Hid Hd Hsim row Hrow.
  destruct (simulate_rows _ Hsort _ _ _ _ _ Hsim)
    as (removed & tl & Hrm & Htl & Hname & _ & Hrows).
  assert (He : df_empty event_detection = false).
  { destruct (df_empty event_detection) eqn:He; [|done]. exfalso.
    unfold events_removed in Hrm. rewrite He in Hrm. simpl in Hrm. injection Hrm as <-.
    by apply (event_losses_named _ _ Htl) in Hname as [? _]. }
  rewrite (events_removed_filter _ _ _ _ He Hid Hd) in Hrm. injection Hrm as <-.
  destruct (filter_events_for_removal_rows event_detection vehicle_id event_type role)
    as [Hc Hr].
  destruct (Hrows row Hrow) as (Hna & _ & Hloss & Hadj & _).
  pose proof (event_losses_find _ _ (sr_vehicle_id row) Htl Hname Hna) as Hfind.
  rewrite (loss_column_columns _ _ Hc) in Hfind.
  unfold group_rows in Hfind. rewrite Hr, filter_filter_andb in Hfind.
  assert (Hsame : List.filter (λ x, selected event_detection vehicle_id event_type role x
                                    && cell_eqb (get x "vehicle_id") (sr_vehicle_id row))
                    (rows event_detection)
                  = List.filter (λ e, cell_eqb (get e "vehicle_id") (sr_vehicle_id row)
                                      && selected event_detection vehicle_id event_type role e)
                      (rows event_detection)).
  { apply filter_ext. intros e. apply andb_comm. }
  rewrite Hsame in Hfind. cbv zeta. rewrite Hloss.
  split; [|split; [by rewrite <-Hloss|]].
  - destruct (loss_column event_detection); [done | by rewrite Hfind].
  - intros Hnil. destruct (loss_column event_detection).
    + rewrite Hnil in Hfind. simpl in Hfind. by injection Hfind as <-.
    + by rewrite Hfind.
Qed.

Lemma removing_filtered_events_subtracts_their_losses_witness :
  let row := mkScenarioRow (Str "A") (180 + (180 + 0)) (10 + 0)
               (180 + (180 + 0) - (10 + 0)) 1 (Num 2) (Num (2 - inject_Z 1)) in
  let passed := List.filter
                  (λ e, cell_eqb (get e "vehicle_id") (sr_vehicle_id row)
                        && selected duel_events (Some "A") (Some "pace_collapse") None e)
                  (rows duel_events) in
  match loss_column duel_events with
  | Some col => nansum (map (λ e, get e col) passed) = Ok (sr_total_event_loss row)
  | None => sr_total_event_loss row = 0%Q
  end ∧
  sr_adj_total_time row = (sr_real_total_time row - sr_total_event_loss row)%Q ∧
  (passed = [] → sr_total_event_loss row = 0%Q).
Proof.
  intros row.
  apply (removing_filtered_events_subtracts_their_losses stable_sort_values duel_laps
           duel_events (Some "A") (Some "pace_collapse") None (Some duel_results)
           [row; mkScenarioRow (Str "C") (177 + (178 + 0)) 0
                   (177 + (178 + 0) - 0) 2 (Num 1) (Num (1 - inject_Z 2))]).
  - apply stable_sort_values_contract.
  - reflexivity.
  - vm_compute; reflexivity.
  - vm_compute; reflexivity.
  - left.
Defined.

(** ** When no event is left to remove *)

(** X12.  With lap times that can be summed, the simulator does not
    return zero losses when there is nothing to subtract; it raises
    ValueError: whenever the table of detected events is empty
    (whatever the removal filter), whenever the removal filter has an
    event_id column and no row, and whenever the events left after the
    merge lack the vehicle_id column. *)
Theorem simulator_raises_when_no_event_remains
    (sort_values : list TimeRow → list TimeRow)
    (lap_times event_detection : DataFrame)
    (events_to_remove results_df : option DataFrame) :
  has_column lap_times "vehicle_id" = true →
  has_column lap_times "lap_time_seconds" = true →
  no_string lap_times "lap_time_seconds" = true →
  (df_empty event_detection = true →
     simulate_no_events sort_values lap_times event_detection events_to_remove results_df
     = Raise ValueError) ∧
  (∀ rm, events_to_remove = Some rm →
     has_column event_detection "event_id" = true → has_column rm "event_id" = true →
     rows rm = [] →
     simulate_no_events sort_values lap_times event_detection events_to_remove results_df
     = Raise ValueError) ∧
  (∀ removed, events_removed event_detection events_to_remove = Ok removed →
     has_column removed "vehicle_id" = false →
     simulate_no_events sort_values lap_times event_detection events_to_remove results_df
     = Raise ValueError).
Proof.
  intros Hv Hl Hns. split; [|split].
  - intros He. apply (simulate_raises_unnamed _ _ _ _ _ empty_frame); try done; [|by left].
    unfold events_removed. rewrite He. simpl. by destruct events_to_remove.
  - intros rm -> Hid Hrid Hrows.
    destruct (df_empty event_detection) eqn:He.
    { apply (simulate_raises_unnamed _ _ _ _ _ empty_frame); try done; [|by left].
      unfold events_removed. by rewrite He. }
    eapply simulate_raises_unnamed; try done.
    + unfold events_removed. rewrite He. simpl. rewrite He. simpl. rewrite Hrid.
      unfold merge_inner. simpl. rewrite Hid. simpl. rewrite Hrows. simpl. reflexivity.
    + left. unfold df_empty. simpl.
      assert (Hnil : (event_detection.(rows) ≫= λ _ : gmap string cell, []) = ([] : list (gmap string cell))).
      { induction (rows event_detection) as [|x X IH]; [done|]. by rewrite bind_cons, IH. }
      rewrite Hnil. by destruct (columns event_detection ++ [])%list.
  - intros removed Hrm Hno. eapply simulate_raises_unnamed; try done. by right.
Qed.

Lemma simulator_raises_when_no_event_remains_witness :
  simulate_no_events stable_sort_values race_laps (mkDF (columns race_events) []) None
    (Some race_results) = Raise ValueError ∧
  simulate_no_events stable_sort_values race_laps race_events
    (Some (filter_events_for_removal race_events None (Some "missed_shift") None))
    (Some race_results) = Raise ValueError.
Proof.
  split.
  - apply (proj1 (simulator_raises_when_no_event_remains stable_sort_values race_laps
                    (mkDF (columns race_events) []) None (Some race_results)
                    eq_refl eq_refl eq_refl)).
    reflexivity.
  - apply (proj1 (proj2 (simulator_raises_when_no_event_remains stable_sort_values race_laps
                    race_events
                    (Some (filter_events_for_removal race_events None (Some "missed_shift") None))
                    (Some race_results) eq_refl eq_refl eq_refl))
             (filter_events_for_removal race_events None (Some "missed_shift") None));
      reflexivity.
Defined.

(** ** Non-negative losses *)

Lemma nansum_nonneg (cs : list cell) (s : Q) :
  (∀ c, c ∈ cs → match c with Num q => (0 <= q)%Q | NaN => True | Str _ => False end) →
  nansum cs = Ok s → (0 <= s)%Q.
Proof.
  revert s. induction cs as [|c cs IH]; intros s Hall; simpl.
  - intros [= <-]. lra.
  - pose proof (Hall c ltac:(left)) as Hc.
    assert (Hcs : ∀ c', c' ∈ cs →
              match c' with Num q => (0 <= q)%Q | NaN => True | Str _ => False end)
      by (intros c' Hc'; apply Hall; by right).
    destruct c as [x|q|]; [done|..].
    + intros H. apply bind_Ok in H as (s' & Hs' & [= <-]).
      specialize (IH s' Hcs Hs'). lra.
    + by apply IH.
Qed.

(** The rows whose losses are summed carry the losses of rows of the
    events table. *)
Lemma events_removed_losses (ed : DataFrame) (rm : option DataFrame) (removed : DataFrame)
    (col : string) :
  rm = None ∨ (∃ f, rm = Some f ∧ has_column f "event_id" = true) →
  events_removed ed rm = Ok removed → col ≠ "event_id" →
  (has_column removed col = true → has_column ed col = true) ∧
  ∀ x, x ∈ rows removed → ∃ e, e ∈ rows ed ∧ get x col = get e col.
Proof.
  intros Hrm Hev Hcol. unfold events_removed in Hev.
  destruct (df_empty ed) eqn:He; simpl in Hev.
  { assert (removed = empty_frame) as ->.
    { destruct Hrm as [->|(f & -> & _)]; by injection Hev as <-. }
    split; [done|]. by intros x ?%elem_of_nil. }
  destruct Hrm as [->|(f & -> & Hf)].
  { injection Hev as <-. split; [done|]. intros x Hx. by exists x. }
  rewrite He in Hev. simpl in Hev. rewrite Hf in Hev. unfold merge_inner in Hev.
  destruct (negb _); [discriminate|]. injection Hev as <-. simpl. split.
  - unfold has_column. simpl. by rewrite app_nil_r.
  - intros x Hx. apply list_elem_of_bind in Hx as (l & Hx & Hl). exists l. split; [done|].
    apply list_elem_of_bind in Hx as (r & Hx & Hr).
    destruct (_ && true); [|by apply elem_of_nil in Hx].
    apply list_elem_of_singleton in Hx as ->.
    apply list_elem_of_fmap in Hr as (r0 & -> & _).
    unfold get. destruct (l !! col) as [y|] eqn:E.
    + by rewrite (lookup_union_Some_l _ _ _ _ E).
    + rewrite lookup_union_r by done.
      rewrite map_lookup_filter_None_2; [done|]. right. intros y _. simpl.
      rewrite list_elem_of_singleton. done.
Qed.

(** X13.  When no recorded loss is negative (as the detector
    guarantees), removing events never makes a vehicle slower: every
    total_event_loss is non-negative and every adjusted time is at most
    the real time.  (Removal filter absent, or one with an event_id
    column.) *)
Theorem removing_events_never_adds_time
    (sort_values : list TimeRow → list TimeRow)
    (lap_times event_detection : DataFrame)
    (events_to_remove results_df : option DataFrame) (rs : list ScenarioRow) :
  sort_contract sort_values →
  nonneg_losses event_detection = true →
  events_to_remove = None ∨
    (∃ rm, events_to_remove = Some rm ∧ has_column rm "event_id" = true) →
  simulate_no_events sort_values lap_times event_detection events_to_remove results_df
    = Ok (Table rs) →
  ∀ row, row ∈ rs →
    (0 <= sr_total_event_loss row)%Q ∧ (sr_adj_total_time row <= sr_real_total_time row)%Q.
Proof.
  intros Hsort Hnn Hrm Hsim row Hrow.
  destruct (simulate_rows _ Hsort _ _ _ _ _ Hsim)
    as (removed & tl & Hev & Htl & Hname & _ & Hrows).
  destruct (Hrows row Hrow) as (Hna & _ & Hloss & Hadj & _).
  pose proof (event_losses_find _ _ (sr_vehicle_id row) Htl Hname Hna) as Hfind.
  rewrite <-Hloss in Hfind.
  assert (H0 : (0 <= sr_total_event_loss row)%Q); [|split; [done|rewrite Hadj; lra]].
  unfold loss_column in Hfind.
  assert (Hsum : ∀ col, col ≠ "event_id" → has_column removed col = true →
            (has_column event_detection col = true → loss_column event_detection = Some col) →
            nansum (map (λ r, get r col) (group_rows removed "vehicle_id" (sr_vehicle_id row)))
              = Ok (sr_total_event_loss row) → (0 <= sr_total_event_loss row)%Q).
  { intros col Hcol Hhas Hlc. apply nansum_nonneg. intros c Hc.
    apply list_elem_of_fmap in Hc as (x & -> & Hx).
    apply elem_of_filter_bool in Hx as [Hx _].
    destruct (events_removed_losses _ _ _ col Hrm Hev Hcol) as [Hcols Hget].
    destruct (Hget x Hx) as (e & He & ->).
    unfold nonneg_losses in Hnn. rewrite (Hlc (Hcols Hhas)) in Hnn.
    rewrite forallb_forall in Hnn. apply list_elem_of_In in He. specialize (Hnn e He).
    destruct (get e col); [done | by apply Qle_bool_iff | done]. }
  destruct (has_column removed "time_loss_estimate") eqn:E1.
  { apply (Hsum "time_loss_estimate"); try done.
    intros H. unfold loss_column. by rewrite H. }
  destruct (has_column removed "time_loss") eqn:E2.
  { apply (Hsum "time_loss"); try done.
    intros H. unfold loss_column.
    destruct (has_column event_detection "time_loss_estimate") eqn:E3; [|by rewrite H].
    exfalso.
    (* the merge keeps every column of the events table *)
    unfold events_removed in Hev. destruct (df_empty event_detection) eqn:He; simpl in Hev.
    { assert (removed = empty_frame) as ->
        by (destruct Hrm as [->|(f & -> & _)]; by injection Hev as <-).
      done. }
    destruct Hrm as [->|(f & -> & Hf)].
    { injection Hev as <-. congruence. }
    rewrite He in Hev. simpl in Hev. rewrite Hf in Hev. unfold merge_inner in Hev.
    destruct (negb _); [discriminate|]. injection Hev as <-.
    unfold has_column in E1, E3. simpl in E1. rewrite app_nil_r in E1. congruence. }
  rewrite Hfind in Hloss. simpl in Hloss. rewrite Hloss. lra.
Qed.

Lemma removing_events_never_adds_time_witness :
  let row := mkScenarioRow (Str "C") 200 (1 + (2 + 0)) (200 - (1 + (2 + 0))) 3 NaN NaN in
  (0 <= sr_total_event_loss row)%Q ∧ (sr_adj_total_time row <= sr_real_total_time row)%Q.
Proof.
  intros row.
  apply (removing_events_never_adds_time stable_sort_values race_laps race_events None None
           [mkScenarioRow (Str "A") 100 0 (100 - 0) 1 NaN NaN;
            mkScenarioRow (Str "B") 100 0 (100 - 0) 2 NaN NaN; row]).
  - apply stable_sort_values_contract.
  - reflexivity.
  - by left.
  - vm_compute; reflexivity.
  - right; right; left.
Defined.

(** * The what-if payload *)

Lemma loc_driver_None (df : DataFrame) (d : string) :
  loc_driver df d = None ↔ ∀ r, r ∈ rows df → get r "vehicle_id" ≠ Str d.
Proof.
  unfold loc_driver, select_eq. simpl. split.
  - destruct (List.filter _ (rows df)) as [|r0 [|r1 rest]] eqn:E; try discriminate.
    intros _ r Hr Hv.
    assert (Hin : r ∈ List.filter (λ r, cell_eqb (get r "vehicle_id") (Str d)) (rows df)).
    { apply elem_of_filter_bool. split; [done|]. by apply cell_eqb_Str. }
    rewrite E in Hin. by apply elem_of_nil in Hin.
  - intros H. destruct (List.filter _ (rows df)) as [|r0 rest] eqn:E; [done|]. exfalso.
    assert (Hin : r0 ∈ List.filter (λ r, cell_eqb (get r "vehicle_id") (Str d)) (rows df))
      by (rewrite E; left).
    apply elem_of_filter_bool in Hin as [Hin Hv]. apply cell_eqb_Str in Hv.
    by apply (H r0).
Qed.

(** X14.  [build_what_if_payload] raises KeyError when one of the two
    tables has no vehicle_id column, and otherwise ValueError when the
    driver has no row in the original or in the adjusted results,
    whatever else the tables hold. *)
Theorem payload_of_absent_driver_raises
    (d scenario_label : string) (original_results adjusted_results : DataFrame) :
  (has_column original_results "vehicle_id" = false ∨
   has_column adjusted_results "vehicle_id" = false →
     build_what_if_payload d scenario_label original_results adjusted_results
     = Raise KeyError) ∧
  (has_column original_results "vehicle_id" = true →
   has_column adjusted_results "vehicle_id" = true →
   (∀ r, r ∈ rows original_results → get r "vehicle_id" ≠ Str d) ∨
   (∀ r, r ∈ rows adjusted_results → get r "vehicle_id" ≠ Str d) →
     build_what_if_payload d scenario_label original_results adjusted_results
     = Raise ValueError).
Proof.
  unfold build_what_if_payload. split.
  - intros [-> | H]; [done|]. rewrite H. by destruct (has_column original_results _).
  - intros -> -> [H|H]; apply loc_driver_None in H; rewrite H; simpl; [done|].
    by destruct (loc_driver original_results d).
Qed.

Lemma payload_of_absent_driver_raises_witness :
  build_what_if_payload "A" "no lockups" empty_frame (to_frame (Table [])) = Raise KeyError ∧
  build_what_if_payload "Z" "no lockups"
    (to_frame (Table [mkScenarioRow (Str "A") 100 0 100 1 NaN NaN]))
    (to_frame (Table [mkScenarioRow (Str "A") 100 0 100 1 NaN NaN])) = Raise ValueError.
Proof.
  split.
  - apply (proj1 (payload_of_absent_driver_raises "A" "no lockups" empty_frame
                    (to_frame (Table [])))).
    by left.
  - apply (proj2 (payload_of_absent_driver_raises "Z" "no lockups" _ _)); [done..|].
    left. intros r [->|[]%elem_of_nil]%elem_of_cons. vm_compute. discriminate.
Defined.

Lemma loc_driver_Some (df : DataFrame) (d : string) (o : Selection) :
  loc_driver df d = Some o →
  match o with
  | OneRow r => rows (select_eq df "vehicle_id" d) = [r]
  | SubFrame rs => (2 ≤ length rs)%nat
  end.
Proof.
  unfold loc_driver. destruct (rows (select_eq df "vehicle_id" d)) as [|r0 [|r1 rest]];
    intros [= <-]; simpl; [done|lia].
Qed.

Lemma sel_item_Ok (df : DataFrame) (o : Selection) (c : string) (v : pyval) :
  sel_item df o c = Ok v →
  has_column df c = true ∧
  v = match o with
      | OneRow r => Scalar (get r c)
      | SubFrame rs => Column (map (λ r, get r c) rs)
      end.
Proof.
  unfold sel_item. destruct (has_column df c); simpl; [|done].
  destruct (negb _); [|done]. by intros [= <-].
Qed.

Lemma pv_float_Ok (v : pyval) (c : cell) : pv_float v = Ok c → v = Scalar c.
Proof. destruct v as [[s|q|]|cs]; simpl; congruence. Qed.

(** What a returned payload was built from: the driver's single row in
    each table. *)
Lemma build_what_if_payload_Ok (d label : string) (orig adj : DataFrame) (p : Payload) :
  build_what_if_payload d label orig adj = Ok p →
  ∃ ro ra orig_pos adj_pos gain positive,
    rows (select_eq orig "vehicle_id" d) = [ro] ∧
    rows (select_eq adj "vehicle_id" d) = [ra] ∧
    has_column adj "adj_position" = true ∧
    cell_sub (get ro "real_total_time") (get ra "adj_total_time") = Ok gain ∧
    int_or_else (sel_get orig (OneRow ro) "real_position"
                   (sel_get adj (OneRow ra) "adj_position" (Scalar (Num 0))))
                (pv_int (sel_get orig (OneRow ro) "adj_position" (Scalar (Num 0))))
      = Ok orig_pos ∧
    int_or_else (Scalar (get ra "adj_position")) (Ok 0%Z) = Ok adj_pos ∧
    cell_gt (get ro "real_total_time") 0 = Ok positive ∧
    let pos_change :=
      if (0 <? orig_pos)%Z && (0 <? adj_pos)%Z then Some (orig_pos - adj_pos)%Z else None in
    p = mkPayload label d (get ro "real_total_time") (get ra "adj_total_time") gain
          (if (positive : bool) then
             match gain, get ro "real_total_time" with
             | Num g, Num t => Num (g / t * 100)
             | _, _ => NaN
             end
           else Num 0)
          orig_pos adj_pos pos_change
          (match pos_change with
           | Some c => if (0 <? c)%Z then "improved"
                       else if (c =? 0)%Z then "unchanged" else "declined"
           | None => "declined"
           end).
Proof.
  unfold build_what_if_payload.
  destruct (has_column orig "vehicle_id"); [|discriminate].
  destruct (has_column adj "vehicle_id"); [|discriminate]. simpl.
  destruct (loc_driver orig d) as [o|] eqn:Ho; [|discriminate].
  destruct (loc_driver adj d) as [a|] eqn:Ha; [|discriminate].
  intros H.
  apply bind_Ok in H as (o_real & Hor & H).
  apply bind_Ok in H as (a_adj & Haa & H).
  apply bind_Ok in H as (gain & Hgain & H).
  apply bind_Ok in H as (orig_pos & Hop & H).
  apply bind_Ok in H as (a_pos & Hap & H).
  apply bind_Ok in H as (adj_pos & Hadj & H).
  apply bind_Ok in H as (original_time & Hot & H).
  apply bind_Ok in H as (adjusted_time & Hat & H).
  apply bind_Ok in H as (time_gain & Htg & H).
  apply bind_Ok in H as (positive & Hpos & H).
  injection H as <-.
  apply pv_float_Ok in Hot as ->. apply pv_float_Ok in Hat as ->.
  apply pv_float_Ok in Htg as ->.
  apply sel_item_Ok in Hor as [_ Hor]. apply sel_item_Ok in Haa as [_ Haa].
  apply sel_item_Ok in Hap as [Hcol Hap].
  apply loc_driver_Some in Ho, Ha.
  destruct o as [ro|ros]; [|discriminate]. destruct a as [ra|ras]; [|discriminate].
  injection Hor as ->. injection Haa as ->. subst a_pos.
  simpl in Hgain. destruct (cell_sub _ _) as [g|] eqn:Hg; [|discriminate].
  injection Hgain as <-.
  by exists ro, ra, orig_pos, adj_pos, g, positive.
Qed.

(** X15.  A payload is only returned when the driver has exactly one
    row in each table, and its fields agree with each other: the times
    are those of the two rows, the gain is their difference,
    position_change is original minus adjusted position when both are
    positive and absent otherwise, and the verdict is "improved" exactly
    when the adjusted position is the smaller positive one, "unchanged"
    when the two are equal and positive, and "declined" in every other
    case, an unknown (non-positive) position included. *)
Theorem returned_payload_is_consistent
    (d scenario_label : string) (original_results adjusted_results : DataFrame)
    (p : Payload) :
  build_what_if_payload d scenario_label original_results adjusted_results = Ok p →
  scenario p = scenario_label ∧ driver_id p = d ∧
  (∃ ro ra,
     rows (select_eq original_results "vehicle_id" d) = [ro] ∧
     rows (select_eq adjusted_results "vehicle_id" d) = [ra] ∧
     original_time_seconds p = get ro "real_total_time" ∧
     adjusted_time_seconds p = get ra "adj_total_time") ∧
  cell_sub (original_time_seconds p) (adjusted_time_seconds p) = Ok (time_gain_seconds p) ∧
  position_change p
  = (if (0 <? original_position p)%Z && (0 <? adjusted_position p)%Z
     then Some (original_position p - adjusted_position p)%Z else None) ∧
  (result_improvement p = "improved" ↔
     (0 < adjusted_position p < original_position p)%Z) ∧
  (result_improvement p = "unchanged" ↔
     (0 < adjusted_position p)%Z ∧ original_position p = adjusted_position p) ∧
  (result_improvement p = "declined" ↔
     (original_position p ≤ 0 ∨ adjusted_position p ≤ 0 ∨
      original_position p < adjusted_position p)%Z).
Proof.
  intros (ro & ra & op & ap & gain & positive & Hro & Hra & _ & Hgain & _ & _ & _ & ->)
    %build_what_if_payload_Ok.
  cbv zeta. simpl.
  split; [done|]. split; [done|]. split; [by exists ro, ra|]. split; [done|].
  split; [done|].
  destruct (0 <? op)%Z eqn:E1; destruct (0 <? ap)%Z eqn:E2; simpl;
    try apply Z.ltb_lt in E1; try apply Z.ltb_lt in E2;
    try apply Z.ltb_ge in E1; try apply Z.ltb_ge in E2.
  2-4: repeat split; try discriminate; try lia; intros; lia.
  destruct (0 <? op - ap)%Z eqn:E3;
    [apply Z.ltb_lt in E3 | apply Z.ltb_ge in E3; destruct (op - ap =? 0)%Z eqn:E4;
                            [apply Z.eqb_eq in E4 | apply Z.eqb_neq in E4]].
  all: repeat split; try discriminate; try lia; intros; lia.
Qed.

Lemma returned_payload_is_consistent_witness :
  ∃ p, build_what_if_payload "A" "no pace collapse"
         (to_frame (Table [mkScenarioRow (Str "A") 360 0 360 2 (Num 2) (Num 0);
                           mkScenarioRow (Str "C") 355 0 355 1 (Num 1) (Num 0)]))
         (to_frame (Table [mkScenarioRow (Str "A") 360 10 350 1 (Num 2) (Num 1);
                           mkScenarioRow (Str "C") 355 0 355 2 (Num 1) (Num (-1))]))
       = Ok p ∧
    original_position p = 2%Z ∧ adjusted_position p = 1%Z ∧
    position_change p = Some 1%Z ∧
    (result_improvement p = "improved" ↔
       (0 < adjusted_position p < original_position p)%Z).
Proof.
  destruct (build_what_if_payload "A" "no pace collapse" _ _) as [p|e] eqn:Hp;
    [|vm_compute in Hp; discriminate].
  exists p. split; [reflexivity|].
  pose proof (returned_payload_is_consistent _ _ _ _ _ Hp)
    as (_ & _ & _ & _ & Hchange & Himp & _).
  assert (Hpos : original_position p = 2%Z ∧ adjusted_position p = 1%Z).
  { pose proof Hp as Hc. vm_compute in Hc. injection Hc as <-. split; reflexivity. }
  destruct Hpos as [Ho Ha]. split; [exact Ho|]. split; [exact Ha|].
  split; [|exact Himp]. rewrite Hchange, Ho, Ha. reflexivity.
Defined.

(** * Removal by role *)

Lemma payload_of_Some lap_times adjusted role vid v p :
  payload_of lap_times adjusted role vid = Some (v, p) →
  vid = Str v ∧
  ∃ total,
    nansum (map (λ r, get r "lap_time_seconds") (group_rows lap_times "vehicle_id" (Str v)))
      = Ok total ∧
    build_what_if_payload v ("Remove all " ++ role ++ " events")
      (original_of (Str v) total) (select_eq (to_frame adjusted) "vehicle_id" v) = Ok p.
Proof.
  unfold payload_of. destruct vid as [v'| |]; [|done..].
  destruct (_ ≫= _) as [p'|e] eqn:H; [|done]. intros [= -> ->]. split; [done|].
  apply bind_Ok in H as (total & Ht & H). exists total. split; [|done].
  by destruct (_ && _).
Qed.

Lemma simulate_positions (sort_values : list TimeRow → list TimeRow) lt ev rm res rs r :
  simulate_no_events sort_values lt ev rm res = Ok (Table rs) → r ∈ rs →
  (0 < sr_adj_position r)%nat.
Proof.
  intros (totals & removed & tl & joined & rp & _ & _ & _ & _ & _ & HF)%simulate_Ok
         [i Hi]%list_elem_of_lookup.
  destruct (ranked_lookup _ _ _ _ _ HF Hi) as (t & _ & Hrank).
  apply rank_row_Ok in Hrank as (_ & _ & _ & _ & -> & _). lia.
Qed.

(** X16.  Every payload that [simulate_event_removal_by_role] returns
    reports position_change 0 and "unchanged", whatever the official
    results say: the one-row original it builds has no real_position,
    so the original position is read from the adjusted row itself.
    The payload's times are the vehicle's real and adjusted totals of
    the simulation, and its gain is the loss removed. *)
Theorem removal_by_role_reports_no_position_change
    (sort_values : list TimeRow → list TimeRow)
    (lap_times event_detection results_df : DataFrame) (role : string)
    (payloads : list (string * Payload)) :
  sort_contract sort_values →
  simulate_event_removal_by_role sort_values lap_times event_detection results_df role
    = Ok payloads →
  ∀ v p, (v, p) ∈ payloads →
    driver_id p = v ∧
    position_change p = Some 0%Z ∧ result_improvement p = "unchanged" ∧
    original_position p = adjusted_position p ∧
    ∃ rs row gain,
      simulate_no_events sort_values lap_times event_detection
        (Some (filter_events_for_removal event_detection None None (Some role)))
        (Some results_df) = Ok (Table rs) ∧
      row ∈ rs ∧ sr_vehicle_id row = Str v ∧
      adjusted_position p = Z.of_nat (sr_adj_position row) ∧
      original_time_seconds p = Num (sr_real_total_time row) ∧
      adjusted_time_seconds p = Num (sr_adj_total_time row) ∧
      time_gain_seconds p = Num gain ∧ (gain == sr_total_event_loss row)%Q.
Proof.
  intros Hsort H v p Hin. unfold simulate_event_removal_by_role in H. cbv zeta in H.
  destruct (df_empty _); [injection H as <-; by apply elem_of_nil in Hin|].
  apply bind_Ok in H as (adjusted & Hsim & H).
  apply bind_Ok in H as (affected & _ & [= <-]).
  apply list_elem_of_omap in Hin as (vid & _ & Hp).
  apply payload_of_Some in Hp as (-> & total & Htotal & Hp).
  apply build_what_if_payload_Ok in Hp
    as (ro & ra & op & ap & gain & positive & Hro & Hra & Hcol & Hgain & Hop & Hap & _ & ->).
  destruct adjusted as [|rs]; [discriminate|].
  (* the original: the one row built for the vehicle *)
  assert (ro = <[ "vehicle_id" := Str v ]> (<[ "real_total_time" := Num total ]>
                 (<[ "adj_position" := Num 0 ]> ∅))) as ->.
  { unfold select_eq, original_of in Hro. simpl in Hro.
    destruct (cell_eqb _ _); [by injection Hro as <- | discriminate]. }
  (* the adjusted: a row of the simulation *)
  assert (∃ row, row ∈ rs ∧ sr_vehicle_id row = Str v ∧ ra = row_to_map row)
    as (row & Hrow & Hv & ->).
  { assert (Hin : ra ∈ rows (select_eq (select_eq (to_frame (Table rs)) "vehicle_id" v)
                               "vehicle_id" v)) by (rewrite Hra; left).
    unfold select_eq in Hin. simpl in Hin.
    apply elem_of_filter_bool in Hin as [Hin _].
    rewrite filter_map_comm in Hin.
    apply list_elem_of_fmap in Hin as (row & -> & Hin).
    apply elem_of_filter_bool in Hin as [Hin Hv].
    exists row. split; [done|]. split; [|done].
    rewrite (proj1 (row_to_map_lookup row)) in Hv.
    by apply cell_eqb_Str in Hv. }
  destruct (row_to_map_lookup row) as (_ & _ & _ & Hmt & Hmp).
  rewrite ?Hmt, ?Hmp in *.
  change (get _ "real_total_time") with (Num total) in *.
  assert (Hop' : op = Z.of_nat (sr_adj_position row)).
  { unfold int_or_else, sel_get, sel_item in Hop.
    change (has_column (original_of (Str v) total) "real_position") with false in Hop.
    unfold has_column in Hop. simpl in Hop.
    rewrite ?Hmp in Hop.
    cbn [pv_int] in Hop. rewrite py_int_of_nat in Hop. by injection Hop as <-. }
  assert (Hap' : ap = Z.of_nat (sr_adj_position row)).
  { unfold int_or_else in Hap. cbn [pv_int] in Hap. rewrite py_int_of_nat in Hap.
    by injection Hap as <-. }
  pose proof (simulate_positions _ _ _ _ _ _ _ Hsim Hrow) as Hpos.
  destruct (simulate_rows _ Hsort _ _ _ _ _ Hsim) as (removed & tl & _ & _ & _ & _ & Hrows).
  destruct (Hrows row Hrow) as (_ & Hreal & _ & Hadj & _).
  rewrite Hv, Htotal in Hreal. injection Hreal as ->.
  simpl in Hgain. injection Hgain as <-.
  subst op ap. cbv zeta. cbn [driver_id position_change result_improvement
    original_position adjusted_position original_time_seconds adjusted_time_seconds
    time_gain_seconds].
  assert (Hlt : (0 <? Z.of_nat (sr_adj_position row))%Z = true) by (apply Z.ltb_lt; lia).
  rewrite Hlt, Z.sub_diag. simpl.
  repeat split; try done.
  exists rs, row, (sr_real_total_time row - sr_adj_total_time row)%Q.
  repeat split; try done. rewrite Hadj. ring.
Qed.

Lemma removal_by_role_reports_no_position_change_witness :
  ∃ payloads p,
    simulate_event_removal_by_role stable_sort_values duel_laps duel_events_with_role
      duel_results "race_turning_point" = Ok payloads ∧
    ("A", p) ∈ payloads ∧
    driver_id p = "A" ∧
    position_change p = Some 0%Z ∧ result_improvement p = "unchanged" ∧
    original_position p = adjusted_position p ∧
    ∃ rs row gain,
      simulate_no_events stable_sort_values duel_laps duel_events_with_role
        (Some (filter_events_for_removal duel_events_with_role None None
                 (Some "race_turning_point")))
        (Some duel_results) = Ok (Table rs) ∧
      row ∈ rs ∧ sr_vehicle_id row = Str "A" ∧
      adjusted_position p = Z.of_nat (sr_adj_position row) ∧
      original_time_seconds p = Num (sr_real_total_time row) ∧
      adjusted_time_seconds p = Num (sr_adj_total_time row) ∧
      time_gain_seconds p = Num gain ∧ (gain == sr_total_event_loss row)%Q.
Proof.
  destruct (simulate_event_removal_by_role stable_sort_values duel_laps
              duel_events_with_role duel_results "race_turning_point")
    as [payloads|e] eqn:H; [|vm_compute in H; discriminate].
  destruct payloads as [|[v p] rest]; [vm_compute in H; discriminate|].
  assert (v = "A") as ->.
  { pose proof H as Hc. vm_compute in Hc. by injection Hc as <- _ _. }
  exists (("A", p) :: rest), p. split; [reflexivity|]. split; [left|].
  exact (removal_by_role_reports_no_position_change stable_sort_values duel_laps
           duel_events_with_role duel_results "race_turning_point" _
           stable_sort_values_contract H "A" p ltac:(left)).
Defined.

(** ** Which vehicles get a payload *)

Lemma filter_none {A : Type} (f : A → bool) (l : list A) :
  (∀ y, f y = false) → List.filter f l = [].
Proof. intros H. induction l as [|x l IH]; simpl; [done|]. by rewrite H. Qed.

Lemma nub_by_at_most_one (k : cell) (l : list cell) :
  (length (List.filter (λ y, cell_eqb y k) (nub_by cell_eqb l)) ≤ 1)%nat.
Proof.
  induction l as [|x l IH]; simpl; [lia|].
  destruct (cell_eqb x k) eqn:E; simpl.
  - rewrite filter_filter_andb.
    assert (Hnone : List.filter (λ y, negb (cell_eqb x y) && cell_eqb y k)
                      (nub_by cell_eqb l) = []).
    { apply filter_none. intros y.
      destruct (cell_eqb y k) eqn:E'; [|by rewrite andb_false_r].
      rewrite (cell_eqb_sym y k) in E'. by rewrite (cell_eqb_trans x k y). }
    rewrite Hnone. simpl. lia.
  - rewrite filter_filter_andb.
    etransitivity; [|exact IH].
    clear. induction (nub_by cell_eqb l) as [|y l' IH]; simpl; [lia|].
    destruct (cell_eqb x y), (cell_eqb y k); simpl; lia.
Qed.

Lemma group_keys_at_most_one (df : DataFrame) (by_ : string) (k : cell) :
  (length (List.filter (λ y, cell_eqb y k) (group_keys df by_)) ≤ 1)%nat.
Proof.
  unfold group_keys.
  rewrite (Permutation_length (filter_bool_Permutation _ _ _ (isort_perm key_leb _))).
  apply nub_by_at_most_one.
Qed.

Lemma group_keys_from_rows (df : DataFrame) (by_ : string) (k : cell) :
  k ∈ group_keys df by_ → ∃ r, r ∈ rows df ∧ get r by_ = k.
Proof.
  unfold group_keys. rewrite isort_perm. intros H%nub_by_subset.
  apply elem_of_filter_bool in H as [H _].
  apply list_elem_of_fmap in H as (r & -> & Hr). eauto.
Qed.

(** A vehicle has one row in a result of the simulator. *)
Lemma simulate_one_row (sort_values : list TimeRow → list TimeRow) lt ev rm res rs row v :
  sort_contract sort_values →
  simulate_no_events sort_values lt ev rm res = Ok (Table rs) →
  row ∈ rs → sr_vehicle_id row = Str v →
  List.filter (λ r, cell_eqb (sr_vehicle_id r) (Str v)) rs = [row].
Proof.
  intros Hsort Hsim Hrow Hv.
  destruct (simulate_rows _ Hsort _ _ _ _ _ Hsim) as (removed & tl & _ & _ & _ & Hveh & _).
  pose proof (group_keys_at_most_one lt "vehicle_id" (Str v)) as Hone.
  rewrite <-(Permutation_length (filter_bool_Permutation _ _ _ Hveh)) in Hone.
  rewrite filter_map_comm, length_map in Hone.
  assert (Hin : row ∈ List.filter (λ r, cell_eqb (sr_vehicle_id r) (Str v)) rs).
  { apply elem_of_filter_bool. split; [done|]. rewrite Hv. apply cell_eqb_refl. }
  destruct (List.filter _ rs) as [|r0 [|r1 rest]]; simpl in Hone.
  - by apply elem_of_nil in Hin.
  - by apply list_elem_of_singleton in Hin as ->.
  - lia.
Qed.

(** The payload for a vehicle that has its row in the simulation. *)
Lemma payload_for_ranked_vehicle (label v : string) (total : Q) (rs : list ScenarioRow)
    (row : ScenarioRow) :
  List.filter (λ r, cell_eqb (sr_vehicle_id r) (Str v)) rs = [row] →
  ∃ p, build_what_if_payload v label (original_of (Str v) total)
         (select_eq (to_frame (Table rs)) "vehicle_id" v) = Ok p.
Proof.
  intros Hone.
  assert (Hv : cell_eqb (sr_vehicle_id row) (Str v) = true).
  { assert (Hin : row ∈ List.filter (λ r, cell_eqb (sr_vehicle_id r) (Str v)) rs)
      by (rewrite Hone; left).
    by apply elem_of_filter_bool in Hin as [_ ?]. }
  unfold build_what_if_payload.
  change (has_column (original_of (Str v) total) "vehicle_id") with true.
  change (has_column (select_eq (to_frame (Table rs)) "vehicle_id" v) "vehicle_id") with true.
  cbn [negb].
  assert (Ho : loc_driver (original_of (Str v) total) v
               = Some (OneRow (<[ "vehicle_id" := Str v ]> (<[ "real_total_time" := Num total ]>
                                (<[ "adj_position" := Num 0 ]> ∅))))).
  { unfold loc_driver, select_eq, original_of. simpl.
    change (get _ "vehicle_id") with (Str v). by rewrite cell_eqb_refl. }
  assert (Ha : loc_driver (select_eq (to_frame (Table rs)) "vehicle_id" v) v
               = Some (OneRow (row_to_map row))).
  { unfold loc_driver, select_eq. simpl. rewrite filter_filter_andb, filter_map_comm.
    rewrite (filter_ext (λ x : ScenarioRow,
                           cell_eqb (get (row_to_map x) "vehicle_id") (Str v)
                           && cell_eqb (get (row_to_map x) "vehicle_id") (Str v))
                        (λ r, cell_eqb (sr_vehicle_id r) (Str v)))
      by (intros r; rewrite (proj1 (row_to_map_lookup r)); apply andb_diag).
    by rewrite Hone. }
  rewrite Ho, Ha.
  unfold int_or_else, sel_get, sel_item.
  change (has_column (original_of (Str v) total) "real_total_time") with true.
  change (has_column (original_of (Str v) total) "real_position") with false.
  change (has_column (original_of (Str v) total) "adj_position") with true.
  change (has_column (select_eq (to_frame (Table rs)) "vehicle_id" v) "adj_total_time")
    with true.
  change (has_column (select_eq (to_frame (Table rs)) "vehicle_id" v) "adj_position")
    with true.
  cbn [andb negb bool_decide decide_rel mbind result_bind]. simpl bool_decide.
  cbn [andb negb mbind result_bind].
  destruct (row_to_map_lookup row) as (_ & _ & _ & -> & ->).
  change (get _ "real_total_time") with (Num total).
  cbn [pv_sub cell_sub result_map mbind result_bind pv_int pv_float py_float cell_gt].
  rewrite py_int_of_nat. cbn [mbind result_bind].
  eauto.
Qed.

Lemma distinct_by_filter {A : Type} (eqb : A → A → bool) (f : A → bool) (l : list A) :
  distinct_by eqb l = true → distinct_by eqb (List.filter f l) = true.
Proof.
  induction l as [|x l IH]; simpl; [done|]. intros [Hx Hl]%andb_true_iff.
  destruct (f x); simpl; [|by apply IH].
  rewrite IH by done. rewrite andb_true_r. apply forallb_forall. intros y Hy.
  rewrite forallb_forall in Hx. apply Hx. apply filter_In in Hy. tauto.
Qed.

Lemma distinct_by_nub_by {A : Type} (eqb : A → A → bool) (l : list A) :
  distinct_by eqb (nub_by eqb l) = true.
Proof.
  induction l as [|x l IH]; simpl; [done|].
  rewrite distinct_by_filter by done. rewrite andb_true_r.
  apply forallb_forall. intros y Hy. apply filter_In in Hy. tauto.
Qed.

Lemma payload_keys_NoDup lap_times adjusted role (l : list cell) :
  distinct_by cell_eqb l = true →
  NoDup (omap (payload_of lap_times adjusted role) l).*1.
Proof.
  induction l as [|x l IH]; simpl; [constructor|]. intros [Hx Hl]%andb_true_iff.
  destruct (payload_of lap_times adjusted role x) as [[k p]|] eqn:E; [|by apply IH].
  simpl. constructor; [|by apply IH].
  intros ([k' p'] & Hk & Hin)%list_elem_of_fmap. simpl in Hk. subst k'.
  apply list_elem_of_omap in Hin as (y & Hy & Hp).
  apply payload_of_Some in E as [-> _]. apply payload_of_Some in Hp as [-> _].
  rewrite forallb_forall in Hx. apply list_elem_of_In in Hy. specialize (Hx _ Hy).
  by rewrite cell_eqb_refl in Hx.
Qed.

(** X17.  Given the lap and event tables with their vehicle_id
    columns, the dict returned by [simulate_event_removal_by_role] has
    an entry for a vehicle exactly when its id is a string, some event
    with the role belongs to it and it has a lap record; no key occurs
    twice. *)
Theorem removal_by_role_covers_affected_vehicles
    (sort_values : list TimeRow → list TimeRow)
    (lap_times event_detection results_df : DataFrame) (role : string)
    (payloads : list (string * Payload)) :
  sort_contract sort_values →
  has_column lap_times "vehicle_id" = true →
  has_column lap_times "lap_time_seconds" = true →
  has_column event_detection "vehicle_id" = true →
  simulate_event_removal_by_role sort_values lap_times event_detection results_df role
    = Ok payloads →
  NoDup payloads.*1 ∧
  ∀ v, (∃ p, (v, p) ∈ payloads) ↔
       (∃ e, e ∈ rows event_detection ∧
             selected event_detection None None (Some role) e = true ∧
             get e "vehicle_id" = Str v) ∧
       (∃ l, l ∈ rows lap_times ∧ get l "vehicle_id" = Str v).
Proof.
  intros Hsort Hlv Hll Hev H.
  destruct (filter_events_for_removal_rows event_detection None None (Some role))
    as [Hcols Hrows].
  unfold simulate_event_removal_by_role in H. cbv zeta in H.
  destruct (df_empty _) eqn:Hempty.
  { injection H as <-. split; [constructor|]. intros v. split.
    - by intros [p ?%elem_of_nil].
    - intros [(e & He & Hsel & _) _]. exfalso.
      unfold df_empty in Hempty. rewrite Hcols, Hrows in Hempty.
      unfold has_column in Hev. apply bool_decide_eq_true in Hev.
      destruct (columns event_detection); [by apply elem_of_nil in Hev|].
      destruct (List.filter _ _) eqn:E; [|done].
      assert (Hin : e ∈ List.filter (selected event_detection None None (Some role))
                          (rows event_detection))
        by (by apply elem_of_filter_bool).
      rewrite E in Hin. by apply elem_of_nil in Hin. }
  apply bind_Ok in H as (adjusted & Hsim & H).
  apply bind_Ok in H as (affected & Haff & [= <-]).
  unfold has_column in Haff. rewrite Hcols in Haff. fold (has_column event_detection "vehicle_id") in Haff.
  rewrite Hev, Hrows in Haff. injection Haff as <-.
  split; [apply payload_keys_NoDup, distinct_by_nub_by|].
  assert (Htable : ∃ rs, adjusted = Table rs).
  { unfold simulate_no_events in Hsim. rewrite Hlv, Hll in Hsim. simpl in Hsim.
    apply bind_Ok in Hsim as (? & _ & Hsim). apply bind_Ok in Hsim as (? & _ & Hsim).
    apply bind_Ok in Hsim as (? & _ & Hsim). apply bind_Ok in Hsim as (? & _ & Hsim).
    apply bind_Ok in Hsim as (? & _ & Hsim).
    apply bind_Ok in Hsim as (rs & _ & [= <-]). eauto. }
  destruct Htable as [rs ->].
  destruct (simulate_rows _ Hsort _ _ _ _ _ Hsim) as (removed & tl & _ & _ & _ & Hveh & Hrs).
  intros v. split.
  - intros [p Hp]. apply list_elem_of_omap in Hp as (vid & Hvid & Hp).
    apply payload_of_Some in Hp as (-> & total & _ & Hp). split.
    + apply nub_by_subset, list_elem_of_fmap in Hvid as (e & He & Hin).
      apply elem_of_filter_bool in Hin as [Hin Hsel]. by exists e.
    + apply build_what_if_payload_Ok in Hp as (ro & ra & _ & _ & _ & _ & _ & Hra & _).
      assert (Hin : ra ∈ rows (select_eq (select_eq (to_frame (Table rs)) "vehicle_id" v)
                                 "vehicle_id" v)) by (rewrite Hra; left).
      unfold select_eq in Hin. simpl in Hin.
      apply elem_of_filter_bool in Hin as [Hin _]. rewrite filter_map_comm in Hin.
      apply list_elem_of_fmap in Hin as (row & -> & Hin).
      apply elem_of_filter_bool in Hin as [Hin Hv]. apply cell_eqb_Str in Hv.
      rewrite (proj1 (row_to_map_lookup row)) in Hv.
      apply group_keys_from_rows. rewrite <-Hveh, <-Hv.
      apply list_elem_of_fmap. by exists row.
  - intros [(e & He & Hsel & Hve) (l & Hl & Hvl)].
    assert (Hvid : Str v ∈ nub_by cell_eqb
                     (map (λ r, get r "vehicle_id")
                        (List.filter (selected event_detection None None (Some role))
                           (rows event_detection)))).
    { destruct (nub_by_covers
                  (map (λ r, get r "vehicle_id")
                     (List.filter (selected event_detection None None (Some role))
                        (rows event_detection))) (Str v)) as (k & Hk & Hkv).
      - apply list_elem_of_fmap. exists e. split; [done|]. by apply elem_of_filter_bool.
      - by apply cell_eqb_Str in Hkv as <-. }
    assert (Hrow : ∃ row, row ∈ rs ∧ sr_vehicle_id row = Str v).
    { destruct (group_keys_covers lap_times "vehicle_id" l Hl) as (k & Hk & Hkv).
      { by rewrite Hvl. }
      rewrite Hvl in Hkv. apply cell_eqb_Str in Hkv as ->.
      rewrite <-Hveh in Hk. apply list_elem_of_fmap in Hk as (row & Hv & Hrow). eauto. }
    destruct Hrow as (row & Hrow & Hv).
    destruct (Hrs row Hrow) as (_ & Hreal & _).
    destruct (payload_for_ranked_vehicle ("Remove all " ++ role ++ " events") v
                (sr_real_total_time row) rs row) as [p Hp].
    { by apply (simulate_one_row sort_values lap_times event_detection
                  (Some (filter_events_for_removal event_detection None None (Some role)))
                  (Some results_df)). }
    exists p. apply list_elem_of_omap. exists (Str v). split; [done|].
    unfold payload_of. rewrite Hlv, Hll. cbn [andb]. rewrite Hv in Hreal. rewrite Hreal.
    cbn [mbind result_bind]. by rewrite Hp.
Qed.

Lemma removal_by_role_covers_affected_vehicles_witness :
  ∃ payloads,
    simulate_event_removal_by_role stable_sort_values duel_laps duel_events_with_role
      duel_results "race_turning_point" = Ok payloads ∧
    NoDup payloads.*1 ∧
    ∀ v, (∃ p, (v, p) ∈ payloads) ↔
         (∃ e, e ∈ rows duel_events_with_role ∧
               selected duel_events_with_role None None (Some "race_turning_point") e = true ∧
               get e "vehicle_id" = Str v) ∧
         (∃ l, l ∈ rows duel_laps ∧ get l "vehicle_id" = Str v).
Proof.
  destruct (simulate_event_removal_by_role stable_sort_values duel_laps
              duel_events_with_role duel_results "race_turning_point")
    as [payloads|e] eqn:H; [|vm_compute in H; discriminate].
  exists payloads. split; [reflexivity|].
  exact (removal_by_role_covers_affected_vehicles stable_sort_values duel_laps
           duel_events_with_role duel_results "race_turning_point" payloads
           stable_sort_values_contract eq_refl eq_refl eq_refl H).
Defined.

(** * Further properties of the event catalog *)

Lemma float_if_notna_key (r : gmap string cell) (k : string) (v : option Q) :
  float_if_notna (r !! k) = Ok v → v = key_value (get r k).
Proof.
  unfold get. destruct (r !! k) as [[s|q|]|]; simpl; congruence.
Qed.

Lemma event_to_object_keys (r : gmap string cell) (o : EventObject) :
  event_to_object r = Ok o →
  eo_severity o = key_value (get r "severity_score") ∧
  eo_time_loss o = key_value (get r "time_loss_estimate").
Proof.
  unfold event_to_object. intros H.
  apply bind_Ok in H as (m1 & _ & H). apply bind_Ok in H as (m2 & _ & H).
  apply bind_Ok in H as (m3 & _ & H). apply bind_Ok in H as (m4 & _ & H).
  apply bind_Ok in H as (lap_no & _ & H).
  apply bind_Ok in H as (sev & Hsev & H).
  apply bind_Ok in H as (tl & Htl & [= <-]). simpl.
  split; by apply float_if_notna_key.
Qed.

Lemma key_before_refl (a : gmap string cell) : key_before a a = true.
Proof.
  destruct (key_before a a) eqn:E; [done|].
  pose proof (key_before_total a a E). congruence.
Qed.

(** The first row of the sorted table is before every row. *)
Lemma isort_head_before (l : list (gmap string cell)) (first r : gmap string cell) :
  head (isort key_before l) = Some first → r ∈ l → key_before first r = true.
Proof.
  intros Hhead Hr. rewrite <-(isort_perm key_before l) in Hr.
  pose proof (isort_sorted key_before key_before_total l) as Hs.
  apply Sorted_StronglySorted in Hs; [|intros a b c; apply key_before_trans].
  destruct (isort key_before l) as [|x l']; [done|]. injection Hhead as ->.
  apply elem_of_cons in Hr as [->|Hr]; [apply key_before_refl|].
  apply StronglySorted_inv in Hs as [_ Hall]. rewrite Forall_forall in Hall.
  by apply Hall.
Qed.

(** X18.  The catalog labels min(4, number of events) key events, and
    its race_turning_point is an event of the highest severity in the
    table and, among the events of that severity, of the highest time
    loss. *)
Theorem turning_point_is_the_most_severe_event
    (events : DataFrame) (objs : list EventObject) :
  catalog_columns_numeric events = true →
  race_key_events events = Ok objs →
  length objs = Nat.min 4 (length (rows events)) ∧
  match objs with
  | [] => rows events = []
  | tp :: _ =>
      eo_role tp = Some "race_turning_point" ∧
      ∀ r s, r ∈ rows events → get r "severity_score" = Num s →
        ∃ s0, eo_severity tp = Some s0 ∧ (s <= s0)%Q ∧
          ((s == s0)%Q → ∀ t, get r "time_loss_estimate" = Num t →
             ∃ t0, eo_time_loss tp = Some t0 ∧ (t <= t0)%Q)
  end.
Proof.
  intros Hnum Hkey.
  pose proof Hnum as Hcols. unfold catalog_columns_numeric in Hcols.
  apply andb_true_iff in Hcols as [Hcols Hns].
  assert (Hsort : sort_values_desc events = Ok (isort key_before (rows events))).
  { unfold sort_values_desc. rewrite Hcols. simpl in Hns.
    apply andb_true_iff in Hns as [Hs Hns]. apply andb_true_iff in Hns as [Ht _].
    by rewrite Hs, Ht. }
  destruct (traverse_total event_to_object (take 4 (take 6 (isort key_before (rows events)))))
    as [os Hos].
  { intros r Hr. apply (event_to_object_total events r Hnum).
    apply subseteq_take, subseteq_take in Hr. by rewrite isort_perm in Hr. }
  assert (Hobjs : objs = imap (λ i o, with_role (match i with
                                                 | O => "race_turning_point"
                                                 | S _ => "major_mistake"
                                                 end) o) os).
  { unfold race_key_events in Hkey. destruct (df_empty events) eqn:He; simpl in Hkey.
    - assert (Hrows : rows events = []).
      { unfold df_empty in He. apply andb_true_iff in Hcols as [Hc _].
        unfold has_column in Hc. apply bool_decide_eq_true in Hc.
        destruct (columns events); [by apply elem_of_nil in Hc|].
        by destruct (rows events). }
      rewrite Hrows in Hos. simpl in Hos. injection Hos as <-. by injection Hkey as <-.
    - rewrite Hsort in Hkey. simpl in Hkey.
      rewrite (label_top_Ok _ _ Hos) in Hkey. by injection Hkey as <-. }
  pose proof (Forall2_length _ _ _ (traverse_Ok _ _ _ Hos)) as Hlen.
  rewrite !length_take, (Permutation_length (isort_perm key_before (rows events))) in Hlen.
  split.
  { rewrite Hobjs, length_imap, <-Hlen. lia. }
  destruct (isort key_before (rows events)) as [|first rest] eqn:Hsorted.
  { simpl in Hos. injection Hos as <-. subst objs. simpl.
    apply Permutation_nil. by rewrite <-Hsorted, isort_perm. }
  change (take 4 (take 6 (first :: rest))) with (first :: take 3 (take 5 rest)) in Hos.
  cbn [traverse] in Hos. apply bind_Ok in Hos as (tp & Htp & Hos).
  apply bind_Ok in Hos as (os' & _ & [= <-]). subst objs. cbn [imap].
  split; [done|]. intros r s Hr Hs.
  apply event_to_object_keys in Htp as [Hsev Htl].
  assert (Hbefore : key_before first r = true).
  { apply (isort_head_before (rows events)); [by rewrite Hsorted | done]. }
  apply key_before_spec in Hbefore. simpl in Hbefore.
  cbn [eo_severity eo_time_loss with_role]. rewrite Hsev, Htl, Hs in *. simpl in Hbefore.
  destruct (key_value (get first "severity_score")) as [s0|] eqn:Es0.
  2: { destruct Hbefore as [?|(_ & ? & _)]; discriminate. }
  exists s0. split; [done|].
  destruct Hbefore as [Hlt|(Hn1 & Hn2 & Ht)].
  - apply desc_lt_Some in Hlt. split; [lra|]. intros Heq. lra.
  - change (negb (Qle_bool s s0)) with (desc_lt (Some s) (Some s0)) in Hn2.
    apply not_true_iff_false in Hn1, Hn2. rewrite desc_lt_Some in Hn1, Hn2.
    split; [lra|]. intros _ t Hrt. rewrite Hrt in Ht. simpl in Ht.
    destruct (key_value (get first "time_loss_estimate")) as [t0|]; [|done].
    exists t0. split; [done|].
    by apply negb_false_iff, Qle_bool_iff in Ht.
Qed.

Lemma turning_point_is_the_most_severe_event_witness :
  ∃ objs, race_key_events detected_events = Ok objs ∧
    length objs = Nat.min 4 (length (rows detected_events)) ∧
    match objs with
    | [] => rows detected_events = []
    | tp :: _ =>
        eo_role tp = Some "race_turning_point" ∧
        ∀ r s, r ∈ rows detected_events → get r "severity_score" = Num s →
          ∃ s0, eo_severity tp = Some s0 ∧ (s <= s0)%Q ∧
            ((s == s0)%Q → ∀ t, get r "time_loss_estimate" = Num t →
               ∃ t0, eo_time_loss tp = Some t0 ∧ (t <= t0)%Q)
    end.
Proof.
  destruct (race_key_events detected_events) as [objs|e] eqn:H;
    [|vm_compute in H; discriminate].
  exists objs. split; [reflexivity|].
  apply (turning_point_is_the_most_severe_event detected_events objs); [|exact H].
  vm_compute. reflexivity.
Defined.

(** * When the detectors return *)

(** X19.  The sample-level detector never raises on account of the
    telemetry: once the lap table has its vehicle_id and lap columns
    and every lap number is a number, it returns for every directory of
    lap files, whatever they hold (missing channels, strings, repeated
    timestamps), and it returns no event when no lap has a file with
    more than three samples. *)
Theorem sample_detector_tolerates_any_telemetry
    (laps_dir : FilePattern → cell → Z → option Telemetry)
    (sort_index : Telemetry → Telemetry) (per_lap : DataFrame) :
  has_column per_lap "vehicle_id" = true → has_column per_lap "lap" = true →
  (∀ row, row ∈ rows per_lap → ∃ q, get row "lap" = Num q) →
  ∃ evs, detect_telemetry_events laps_dir sort_index per_lap = Ok evs ∧
    ((∀ row lap_no df, row ∈ rows per_lap → py_int (get row "lap") = Ok lap_no →
        find_lap_file laps_dir (get row "vehicle_id") lap_no = Some df →
        (length (sort_index df) ≤ 3)%nat) →
     evs = []).
Proof.
  intros Hv Hl Hlaps.
  destruct (telemetry_detector_returns laps_dir sort_index per_lap Hv Hl Hlaps) as [evs Hevs].
  exists evs. split; [done|]. intros Hshort.
  destruct evs as [|ev evs]; [done|]. exfalso.
  destruct (detect_telemetry_events_origin _ _ _ _ ev Hevs ltac:(left))
    as (row & lap_no & file & i & Hrow & Hlap & Hfile & Hi & _).
  specialize (Hshort row lap_no file Hrow Hlap Hfile). lia.
Qed.

Lemma sample_detector_tolerates_any_telemetry_witness :
  ∃ evs, detect_telemetry_events
           (only_file [sample 0 5 120 1.0; (0%Z, {[ "speed" := Str "fast" ]}); sample 0 6 115 0.8])
           stable_sort_index one_lap_of_B = Ok evs ∧
    ((∀ row lap_no df, row ∈ rows one_lap_of_B → py_int (get row "lap") = Ok lap_no →
        find_lap_file
          (only_file [sample 0 5 120 1.0; (0%Z, {[ "speed" := Str "fast" ]});
                      sample 0 6 115 0.8])
          (get row "vehicle_id") lap_no = Some df →
        (length (stable_sort_index df) ≤ 3)%nat) →
     evs = []).
Proof.
  apply (sample_detector_tolerates_any_telemetry _ stable_sort_index one_lap_of_B).
  - reflexivity.
  - reflexivity.
  - intros row [->|[]%elem_of_nil]%elem_of_cons. eexists. vm_compute. reflexivity.
Defined.

(** X20.  The lap-level detector returns on every complete lap table:
    one that has the columns vehicle_id, lap, lap_time_seconds,
    peak_lat_G, peak_long_G and end_time or start_time, no string in
    the three metric columns, a number as every lap number and a
    parsed time stamp in every row (a missing one, or text that is no
    date, makes the detector raise); missing (NaN) metrics are
    tolerated. *)
Theorem lap_detector_returns_on_complete_table
    (polyfit_slope : list (option Q) → list (option Q) → option Q)
    (per_lap : DataFrame) :
  lap_table_complete per_lap = true →
  ∃ evs, detect_lap_level_events polyfit_slope per_lap = Ok evs.
Proof.
  unfold lap_table_complete. rewrite !andb_true_iff.
  intros [[[[Hcols Hts] Hns] Hlaps] Hstamps].
  cbn [forallb] in Hcols, Hns.
  rewrite !andb_true_iff in Hcols. rewrite !andb_true_iff in Hns.
  destruct Hcols as (Hv & Hl & Hlt & Hlat & Hlong & _).
  destruct Hns as (Hn1 & Hn2 & Hn3 & _).
  rewrite forallb_forall in Hlaps, Hstamps.
  assert (Hrow : ∀ r, r ∈ isort lap_order (rows per_lap) →
            (∃ q, get r "lap" = Num q) ∧
            ∃ ts, lap_time_stamp per_lap r = Ok ts ∧ strftime ts = Ok ts).
  { intros r Hr. rewrite isort_perm in Hr. apply list_elem_of_In in Hr.
    specialize (Hlaps r Hr). specialize (Hstamps r Hr). split.
    - destruct (get r "lap"); try done. eauto.
    - unfold lap_time_stamp, to_datetime.
      destruct (has_column per_lap "end_time"); [|simpl in Hts; rewrite Hts];
        cbv iota in Hstamps.
      all: match type of Hstamps with
           | match ?c with _ => _ end = true => destruct c as [s|t|]; try done
           end.
      all: by exists (Num t). }
  unfold detect_lap_level_events. rewrite Hv, Hl, Hlt, Hlat, Hlong, Hn1, Hn2, Hn3. simpl.
  destruct (traverse_total
              (λ ir : nat * gmap string cell,
                 pace_collapse_rule per_lap (isort lap_order (rows per_lap)) ir.1 ir.2)
              (imap (λ i r, (i, r)) (isort lap_order (rows per_lap)))) as [pace Hpace].
  { intros [i r] Hin. apply list_elem_of_lookup in Hin as [n Hn].
    apply list_lookup_imap_Some in Hn as (r' & Hr' & [= -> ->]). simpl.
    apply list_elem_of_lookup_2 in Hr'.
    destruct (Hrow r' Hr') as [[q Hq] (ts & Hts' & Hst)].
    unfold pace_collapse_rule. rewrite Hq, Hts'. simpl.
    destruct (trailing_mean _ "lap_time_seconds"); [|eauto].
    destruct (_ && _); [|eauto]. rewrite Hst. simpl. eauto. }
  rewrite Hpace. simpl.
  destruct (traverse_total
              (degradation_rule polyfit_slope per_lap (isort lap_order (rows per_lap)))
              (group_keys per_lap "vehicle_id")) as [degr Hdegr].
  { intros vid _. unfold degradation_rule.
    set (g := List.filter _ (isort lap_order (rows per_lap))).
    assert (Hg : ∀ r, r ∈ g → r ∈ isort lap_order (rows per_lap)).
    { intros r Hr. by apply elem_of_filter_bool in Hr as [? _]. }
    destruct (length g <? 3)%nat eqn:Hlen; [eauto|]. apply Nat.ltb_ge in Hlen.
    destruct (traverse_total
                (λ r : gmap string cell, match get r "lap" with
                                         | Str _ => Raise ValueError
                                         | c => Ok (key_value c)
                                         end) g) as [x Hx].
    { intros r Hr. destruct (Hrow r (Hg r Hr)) as [[q ->] _]. eauto. }
    rewrite Hx. simpl.
    destruct (polyfit_slope x _) as [s|]; [|eauto].
    destruct (polyfit_slope x _) as [ls|]; [|eauto].
    destruct (_ && _); [|eauto].
    destruct (last g) as [last_row|] eqn:Hlast.
    2: { apply last_None in Hlast. rewrite Hlast in Hlen. simpl in Hlen. lia. }
    apply last_Some in Hlast as [g' Hg'].
    destruct (Hrow last_row) as [[q Hq] (ts & Hts' & Hst)].
    { apply Hg. rewrite Hg'. apply elem_of_app. right. left. }
    rewrite Hts'. simpl. rewrite Hst. simpl. rewrite Hq. simpl. eauto. }
  rewrite Hdegr. simpl. eauto.
Qed.

Lemma lap_detector_returns_on_complete_table_witness :
  ∃ evs, detect_lap_level_events lstsq_slope four_laps = Ok evs.
Proof.
  apply (lap_detector_returns_on_complete_table lstsq_slope four_laps).
  vm_compute. reflexivity.
Defined.

(** Text that is no date in the time column makes the detector raise. *)
Example text_time_stamp_raises :
  lap_table_complete lap_with_text_stamp = false ∧
  detect_lap_level_events lstsq_slope lap_with_text_stamp = Raise ValueError.
Proof. split; vm_compute; reflexivity. Qed.
